(** * The object runner of checkov: loading, structural extraction and
      result-to-record shaping

    A shallow embedding of [checkov/common/runners/object_runner.py]
    (class [Runner]) and the properties of its loader, of the jobs and
    triggers extractors and of the record builder of [run]. *)

From Stdlib Require Import ZArith List String Bool Lia Permutation.
Import ListNotations.
Local Open Scope string_scope.
Local Open Scope list_scope.
Local Open Scope Z_scope.
Set Warnings "-register-all".

(** ** Python values *)

(** Hashable values, the keys of a parsed document. *)
Inductive pykey : Type :=
| KNone
| KBool (b : bool)
| KInt (z : Z)
| KStr (s : string).

(** The values of a parsed document.  A mapping is the sequence of its
    items in iteration order (Python dicts iterate in insertion order).
    The item sequences that are dicts are those whose keys are pairwise
    different for [==] ([is_dict] below); a property stated for every item
    sequence holds of every dict. *)
Inductive pyval : Type :=
| VNone
| VBool (b : bool)
| VInt (z : Z)
| VStr (s : string)
| VList (l : list pyval)
| VDict (d : list (pykey * pyval)).

(** [bool] is a subclass of [int]: [True == 1] and [False == 0], with equal
    hashes, so a lookup of [True] also finds the key [1]. *)
Definition key_norm (k : pykey) : pykey :=
  match k with
  | KBool b => KInt (if b then 1 else 0)
  | _ => k
  end.

(** Python's [==] on keys. *)
Definition key_eqb (a b : pykey) : bool :=
  match key_norm a, key_norm b with
  | KNone, KNone => true
  | KInt x, KInt y => Z.eqb x y
  | KStr s, KStr t => String.eqb s t
  | _, _ => false
  end.

(** Truth value of [if v:]. *)
Definition py_truthy (v : pyval) : bool :=
  match v with
  | VNone => false
  | VBool b => b
  | VInt z => negb (Z.eqb z 0)
  | VStr s => negb (String.eqb s EmptyString)
  | VList l => match l with [] => false | _ => true end
  | VDict d => match d with [] => false | _ => true end
  end.

(** ** Insertion-ordered dictionaries *)

Section Dict.
Context {K V : Type} (eqb : K -> K -> bool).

(** [d.get(k)] before the default is applied. *)
Fixpoint dict_lookup (d : list (K * V)) (k : K) : option V :=
  match d with
  | [] => None
  | (k', v) :: d' => if eqb k' k then Some v else dict_lookup d' k
  end.

(** [d[k] = v]: an existing key keeps its place (and its key object), a
    new key goes to the end. *)
Fixpoint dict_set (d : list (K * V)) (k : K) (v : V) : list (K * V) :=
  match d with
  | [] => [(k, v)]
  | (k', v') :: d' =>
      if eqb k' k then (k', v) :: d' else (k', v') :: dict_set d' k v
  end.

Definition dict_keys (d : list (K * V)) : list K := map fst d.

Definition dict_mem (d : list (K * V)) (k : K) : bool :=
  existsb (fun k' => eqb k' k) (dict_keys d).
End Dict.

Definition dict (V : Type) : Type := list (pykey * V).
Definition pydict : Type := dict pyval.

(** [d.get(k)], with the default [None]. *)
Definition py_get (d : pydict) (k : pykey) : pyval :=
  match dict_lookup key_eqb d k with
  | Some v => v
  | None => VNone
  end.

(** A Python set of keys, by the enumeration of its elements. *)
Definition pyset : Type := list pykey.

Definition set_mem (k : pykey) (s : pyset) : bool :=
  existsb (fun k' => key_eqb k' k) s.

Definition set_add (s : pyset) (k : pykey) : pyset :=
  if set_mem k s then s else s ++ [k].

(** Keys that are pairwise different for [==], as those of a dict are. *)
Fixpoint distinct_keys (l : list pykey) : bool :=
  match l with
  | [] => true
  | k :: l' => negb (set_mem k l') && distinct_keys l'
  end.

(** The item sequences a dict can hold. *)
Definition is_dict {V : Type} (d : list (pykey * V)) : bool :=
  distinct_keys (dict_keys d).

(** The dict that a display [{k1: v1, k2: v2, ...}] (or [dict(items)])
    builds: the items are stored from left to right, a key met again
    keeps its first place and takes the later value. *)
Definition dict_of_items {V : Type} (items : list (pykey * V))
  : list (pykey * V) :=
  fold_left (fun d kv => dict_set key_eqb d (fst kv) (snd kv)) items [].

(** ** Exceptions *)

Inductive pyexn : Type :=
| KeyError (k : pykey)
| AttributeError (attr : string)
| ValueError (msg : string).

Inductive pyresult (A : Type) : Type :=
| Ok (a : A)
| Raise (e : pyexn).
Arguments Ok {A} a.
Arguments Raise {A} e.

Definition rbind {A B : Type} (c : pyresult A) (f : A -> pyresult B)
  : pyresult B :=
  match c with
  | Ok a => f a
  | Raise e => Raise e
  end.

Declare Scope py_scope.
Delimit Scope py_scope with py.
Notation "x <- c ;; k" := (rbind c (fun x => k))
  (at level 100, c at next level, right associativity) : py_scope.
Notation "' p <- c ;; k" := (rbind c (fun x => let p := x in k))
  (at level 100, p pattern, c at next level, right associativity) : py_scope.

(** [for x in l: body], stopping at the first exception. *)
Fixpoint for_each {A S : Type} (body : S -> A -> pyresult S) (l : list A)
  (s : S) : pyresult S :=
  match l with
  | [] => Ok s
  | x :: l' => rbind (body s x) (for_each body l')
  end.

(** [try: body  except Exception: handler]. *)
Definition try_except {A : Type} (body : pyresult A) (handler : pyexn -> A)
  : pyresult A :=
  match body with
  | Ok a => Ok a
  | Raise e => Ok (handler e)
  end.

(** [d[k]] *)
Definition py_getitem {V : Type} (d : dict V) (k : pykey) : pyresult V :=
  match dict_lookup key_eqb d k with
  | Some v => Ok v
  | None => Raise (KeyError k)
  end.

(** [v.keys()] and [v.items()]: only a mapping has them. *)
Definition py_keys (v : pyval) : pyresult (list pykey) :=
  match v with
  | VDict d => Ok (dict_keys d)
  | _ => Raise (AttributeError "keys")
  end.

Definition py_items (v : pyval) : pyresult (list (pykey * pyval)) :=
  match v with
  | VDict d => Ok d
  | _ => Raise (AttributeError "items")
  end.

(** ** The structural extractors *)

(** Modelled from the spec: the two reserved line-marker keys, the
    constants [START_LINE] and [END_LINE] that this module imports from
    [checkov.common.util.consts]: two different strings. *)
Definition START_LINE : pykey := KStr "__startline__".
Definition END_LINE : pykey := KStr "__endline__".

Definition is_marker (k : pykey) : bool :=
  key_eqb k START_LINE || key_eqb k END_LINE.

(** [{key for key in keys if key != START_LINE and key != END_LINE}] *)
Definition trigger_comprehension (keys : list pykey) : pyset :=
  fold_left
    (fun s key =>
       if negb (key_eqb key START_LINE) && negb (key_eqb key END_LINE)
       then set_add s key else s)
    keys [].

(** The body of the [try] of [_get_triggers]. *)
Definition triggers_try (triggers : pyval) (triggers_set : pyset)
  : pyresult pyset :=
  if py_truthy triggers then
    (keys <- py_keys triggers ;;
     Ok (trigger_comprehension keys))%py
  else Ok triggers_set.

Definition _get_triggers (result0 : pydict) : pyresult pyset :=
  let triggers_set : pyset := [] in
  let triggers := py_get result0 (KBool true) in
  try_except (triggers_try triggers triggers_set) (fun _ => triggers_set).

(** The loop of [_get_jobs] carries [jobs_dict] and the cursor [tmp_key]. *)
Definition jobs_body (st : dict pydict * pykey) (item : pykey * pyval)
  : pyresult (dict pydict * pykey) :=
  let '(jobs_dict, tmp_key) := st in
  let '(key, value) := item in
  if negb (key_eqb key START_LINE) && negb (key_eqb key END_LINE) then
    Ok (dict_set key_eqb jobs_dict key [], key)
  else
    (jobs_dict <-
       (if key_eqb key START_LINE then
          (job <- py_getitem jobs_dict tmp_key ;;
           Ok (dict_set key_eqb jobs_dict tmp_key
                 (dict_set key_eqb job START_LINE value)))
        else Ok jobs_dict) ;;
     jobs_dict <-
       (if key_eqb key END_LINE then
          (job <- py_getitem jobs_dict tmp_key ;;
           Ok (dict_set key_eqb jobs_dict tmp_key
                 (dict_set key_eqb job END_LINE value)))
        else Ok jobs_dict) ;;
     Ok (jobs_dict, tmp_key))%py.

Definition _get_jobs (result0 : pydict) : pyresult (dict pydict) :=
  let jobs_dict : dict pydict := [] in
  let tmp_key : pykey := KStr EmptyString in
  let jobs := py_get result0 (KStr "jobs") in
  if py_truthy jobs then
    (items <- py_items jobs ;;
     st <- for_each jobs_body items (jobs_dict, tmp_key) ;;
     Ok (fst st))%py
  else Ok jobs_dict.

(** ** Files, checks and records *)

(** A raw line: its 1-based number and its text. *)
Definition RawLine : Type := (Z * string)%type.

(** What [_parse_file] yields for a file: a mapping, or a list of them. *)
Inductive document : Type :=
| DocDict (d : pydict)
| DocList (l : list pydict).

(** Modelled from the spec: the tag of the pipeline-definition family,
    the constant [CheckType.GITHUB_ACTIONS] that this module imports from
    [checkov.common.output.report]. *)
Definition GITHUB_ACTIONS : string := "github_actions".

(** The check object carried by a scan result; [run] reads these
    attributes of it. *)
Module Check.
Record t : Type := {
  id : string;
  bc_id : option string;
  name : string;
  severity : option string;
  supported_entities : list string;
  class_module : string
}.
End Check.

(** One value of the mapping returned by [registry.scan]: the entry
    ["results_configuration"] (subscripted by [run], [VNone] when the
    result has no configuration), the entry ["check"] (optional, popped by
    [run]) and the remaining entries. *)
Record RawCheckResult : Type := {
  results_configuration : pyval;
  check : option Check.t;
  entries : pydict
}.

(** [result.pop("check", None)]: the popped value and the mapping left. *)
Definition pop_check (result : RawCheckResult)
  : option Check.t * RawCheckResult :=
  (check result,
   {| results_configuration := results_configuration result;
      check := None;
      entries := entries result |}).

(** The keyword arguments of [Record(...)]. *)
Module PyRecord.
Record t : Type := {
  check_id : string;
  bc_check_id : option string;
  check_name : string;
  check_result : RawCheckResult;
  code_block : list RawLine;
  file_path : string;
  file_line_range : Z * Z;
  resource : string;
  check_class : string;
  file_abs_path : string;
  severity : option string
}.
End PyRecord.

(** The state of the runner object: the three attributes set by
    [__init__] and overwritten by [_load_files]. *)
Record Self : Type := {
  workflow_name : pyval;
  jobs : option (dict pydict);
  triggers : option pyset
}.

Definition Runner_init (workflow_name : pyval) (jobs : option (dict pydict))
  (triggers : option pyset) : Self :=
  {| workflow_name := workflow_name; jobs := jobs; triggers := triggers |}.

(** What [report.add_record] receives: the record itself, or the record
    wrapped by [GithubActionsRecord(record, jobs, triggers, workflow_name)]. *)
Inductive report_record : Type :=
| PlainRecord (record : PyRecord.t)
| GithubActionsRecord (record : PyRecord.t) (jobs : option (dict pydict))
    (triggers : option pyset) (workflow_name : pyval).

Definition record_of (r : report_record) : PyRecord.t :=
  match r with
  | PlainRecord record => record
  | GithubActionsRecord record _ _ _ => record
  end.

(** Modelled from the spec: the Report of [checkov.common.output.report]
    (not part of this file), an append-only ordered collection of findings
    under a document-family tag. *)
Record Report : Type := {
  report_check_type : string;
  records : list report_record
}.

Definition Report_init (check_type : string) : Report :=
  {| report_check_type := check_type; records := [] |}.

Definition add_record (report : Report) (record : report_record) : Report :=
  {| report_check_type := report_check_type report;
     records := records report ++ [record] |}.

(** ** Slices *)

(** The bound [i] of a slice of a sequence of length [len], as Python
    clamps it: a negative bound counts from the end. *)
Definition slice_bound (len i : Z) : Z :=
  if i <? 0 then Z.max 0 (i + len) else Z.min i len.

(** [l[start:stop]] *)
Definition py_slice {A : Type} (l : list A) (start stop : Z) : list A :=
  let len := Z.of_nat (List.length l) in
  let lo := slice_bound len start in
  let hi := slice_bound len stop in
  firstn (Z.to_nat (hi - lo)) (skipn (Z.to_nat lo) l).

(** Truth value of an optional list and of an optional string. *)
Definition truthy_list {A : Type} (l : option (list A)) : bool :=
  match l with
  | Some (_ :: _) => true
  | _ => false
  end.

Definition truthy_str (s : option string) : bool :=
  match s with
  | Some s => negb (String.eqb s EmptyString)
  | None => false
  end.

(** ** The collaborators of the runner *)

(** What [_parse_file] returns for one file. *)
Definition parsed : Type := (document * list RawLine)%type.

(** The host: operating system, platform, worker pool, suppression
    collector and check registry.  All of them live outside this module
    and are taken as they come. *)
Class Host : Type := {
  (** the check registry and its two operations *)
  Reg : Type;
  RunnerFilter : Type;
  RunnerFilter_init : RunnerFilter;
  load_external_checks : Reg -> string -> Reg;
  scan : Reg -> string -> document -> list string -> RunnerFilter
         -> list (string * RawCheckResult);
  (** [collect_suppressions_for_context] *)
  collect_suppressions_for_context : list RawLine -> list string;
  (** [parallel_runner.run_function]: the results, in the order in which
      the caller's loop receives them *)
  run_function : (string -> string * option parsed) -> list string
                 -> list (string * option parsed);
  (** [platform.system()] and [os.path] *)
  platform_system : string;
  path_join : string -> string -> string;
  path_relpath : string -> option string -> string;
  (** where [os.path.relpath(path, start)] raises [ValueError] (no path
      given; on Windows, path and start on different drives): the
      message of the exception *)
  path_relpath_error : string -> option string -> option string;
  path_abspath : string -> string;
  path_split_head : string -> string;
  (** [os.walk] under [filter_ignored_paths]: the directories visited,
      each with the file names that survive the filter *)
  walk_filtered : string -> RunnerFilter -> list string
                  -> list (string * list string)
}.

(** The methods a deriving runner supplies or may override. *)
Class Runner : Type := {
  check_type : string;
  _parse_file : string -> option parsed;
  (** returns the pair that [run] unpacks as [end, start] *)
  get_start_end_lines : Z -> pyval -> Z -> Z * Z;
  require_external_checks : bool;
  included_paths : list string;
  get_resource : string -> string -> list string -> string
}.

(** The bodies the base class gives to the three overridable methods. *)
Definition base_included_paths : list string := [].

Definition base_get_resource (file_path key : string)
  (supported_entities : list string) : string :=
  (file_path ++ "." ++ key)%string.

Definition base_require_external_checks : bool := true.

(** Calls that leave the runner, in the order they are made. *)
Inductive Call : Type :=
| CallParse (files_to_load : list string)
| CallLoadExternalChecks (directory : string)
| CallScan (file_path : string).

(** The runner object, the registry object returned by [import_registry]
    and the calls made so far. *)
Record World (Reg : Type) : Type := {
  self : Self;
  registry : Reg;
  calls : list Call
}.
Arguments self {Reg} w.
Arguments registry {Reg} w.
Arguments calls {Reg} w.

Section RunnerModel.
Context {Reg : Type}.

(** A method: it may change the world and may raise. *)
Definition M (A : Type) : Type := World Reg -> pyresult (A * World Reg).

Definition ret {A : Type} (a : A) : M A := fun w => Ok (a, w).

Definition bind {A B : Type} (c : M A) (f : A -> M B) : M B :=
  fun w =>
    match c w with
    | Ok (a, w') => f a w'
    | Raise e => Raise e
    end.

Definition lift {A : Type} (c : pyresult A) : M A :=
  fun w =>
    match c with
    | Ok a => Ok (a, w)
    | Raise e => Raise e
    end.

Definition get_self : M Self := fun w => Ok (self w, w).

Definition set_self (s : Self) : M unit :=
  fun w => Ok (tt, {| self := s; registry := registry w; calls := calls w |}).

Definition get_registry : M Reg := fun w => Ok (registry w, w).

Definition set_registry (g : Reg) : M unit :=
  fun w => Ok (tt, {| self := self w; registry := g; calls := calls w |}).

Definition log (c : Call) : M unit :=
  fun w =>
    Ok (tt, {| self := self w; registry := registry w;
               calls := calls w ++ [c] |}).

Fixpoint for_eachM {A S : Type} (body : S -> A -> M S) (l : list A) (s : S)
  : M S :=
  match l with
  | [] => ret s
  | x :: l' => bind (body s x) (for_eachM body l')
  end.
End RunnerModel.
Arguments M Reg A : clear implicits.

Declare Scope run_scope.
Delimit Scope run_scope with run.
Notation "x <- c ;; k" := (bind c (fun x => k))
  (at level 100, c at next level, right associativity) : run_scope.
Notation "c ;;; k" := (bind c (fun _ => k))
  (at level 100, right associativity) : run_scope.

Section RunnerMethods.
Context {host : Host} {R : Runner}.
Local Open Scope run_scope.

(** The two associations filled by the loader. *)
Definition definitions_t : Type := list (string * document).
Definition definitions_raw_t : Type := list (string * list RawLine).

(** [definitions[file_path]] *)
Definition file_getitem {V : Type} (d : list (string * V))
  (file_path : string) : pyresult V :=
  match dict_lookup String.eqb d file_path with
  | Some v => Ok v
  | None => Raise (KeyError (KStr file_path))
  end.

(** The body of the loop of [_load_files]. *)
Definition load_body (defs : definitions_t * definitions_raw_t)
  (item : string * option parsed)
  : M Reg (definitions_t * definitions_raw_t) :=
  let '(definitions, definitions_raw) := defs in
  let '(file, result) := item in
  match result with
  | Some (doc, raw) =>
      let definitions := dict_set String.eqb definitions file doc in
      let definitions_raw := dict_set String.eqb definitions_raw file raw in
      if String.eqb check_type GITHUB_ACTIONS then
        match doc with
        | DocList _ => lift (Raise (AttributeError "get"))
        | DocDict d =>
            s <- get_self ;;
            set_self {| workflow_name := py_get d (KStr "name");
                        jobs := jobs s; triggers := triggers s |} ;;;
            j <- lift (_get_jobs d) ;;
            s <- get_self ;;
            set_self {| workflow_name := workflow_name s;
                        jobs := Some j; triggers := triggers s |} ;;;
            t <- lift (_get_triggers d) ;;
            s <- get_self ;;
            set_self {| workflow_name := workflow_name s;
                        jobs := jobs s; triggers := Some t |} ;;;
            ret (definitions, definitions_raw)
        end
      else ret (definitions, definitions_raw)
  | None => ret defs
  end.

Definition _load_files (files_to_load : list string)
  (defs : definitions_t * definitions_raw_t)
  (filename_fn : option (string -> string))
  : M Reg (definitions_t * definitions_raw_t) :=
  let files_to_load :=
    map (fun file => match filename_fn with
                     | Some fn => fn file
                     | None => file
                     end) files_to_load in
  log (CallParse files_to_load) ;;;
  let results := run_function (fun f => (f, _parse_file f)) files_to_load in
  for_eachM load_body results defs.

(** Lines 100-108 of [run]: the pair [(start, end)] of a result. *)
Definition resolve_start_end (result_config : pyval) : Z * Z :=
  let start := 0 in
  let end_ := 0 in
  if py_truthy result_config then
    let '(end_, start) := get_start_end_lines end_ result_config start in
    (start, end_)
  else (start, end_).

(** Lines 112-134: the record added for a result whose check is there. *)
Definition build_record (s : Self) (file_path : string)
  (raw : list RawLine) (root_folder : option string) (key : string)
  (result : RawCheckResult) (check : Check.t) (start end_ : Z)
  : report_record :=
  let record :=
    {| PyRecord.check_id := Check.id check;
       PyRecord.bc_check_id := Check.bc_id check;
       PyRecord.check_name := Check.name check;
       PyRecord.check_result := result;
       PyRecord.code_block := py_slice raw (start - 1) (end_ + 1);
       PyRecord.file_path :=
         ("/" ++ path_relpath file_path root_folder)%string;
       PyRecord.file_line_range := (start, end_ + 1);
       PyRecord.resource :=
         get_resource file_path key (Check.supported_entities check);
       PyRecord.check_class := Check.class_module check;
       PyRecord.file_abs_path := path_abspath file_path;
       PyRecord.severity := Check.severity check |} in
  if String.eqb check_type GITHUB_ACTIONS then
    GithubActionsRecord record (jobs s) (triggers s) (workflow_name s)
  else PlainRecord record.

(** The body of the loop over [results.items()]; it carries
    [root_folder] (reassigned on Windows) and the report. *)
Definition result_body (s : Self) (file_path : string)
  (raw : list RawLine) (st : option string * Report)
  (item : string * RawCheckResult) : option string * Report :=
  let '(root_folder, report) := st in
  let '(key, result) := item in
  let result_config := results_configuration result in
  let '(check, result) := pop_check result in
  match check with
  | None => (root_folder, report)
  | Some check =>
      let '(start, end_) := resolve_start_end result_config in
      let root_folder :=
        if String.eqb platform_system "Windows"
        then Some (path_split_head file_path)
        else root_folder in
      (root_folder,
       add_record report
         (build_record s file_path raw root_folder key result check
            start end_))
  end.

(** [registry = self.import_registry()]: the registry is an object of the
    world, and [registry.load_external_checks] and [registry.scan] act on
    it. *)
Definition registry_load_external_checks (directory : string) : M Reg unit :=
  g <- get_registry ;;
  log (CallLoadExternalChecks directory) ;;;
  set_registry (load_external_checks g directory).

Definition registry_scan (file_path : string) (doc : document)
  (skipped_checks : list string) (runner_filter : RunnerFilter)
  : M Reg (list (string * RawCheckResult)) :=
  g <- get_registry ;;
  log (CallScan file_path) ;;;
  ret (scan g file_path doc skipped_checks runner_filter).

(** [os.path.relpath(path, start)] as a call that may raise. *)
Definition py_relpath (path : string) (start : option string)
  : pyresult string :=
  match path_relpath_error path start with
  | Some msg => Raise (ValueError msg)
  | None => Ok (path_relpath path start)
  end.

(** The body of the loop over [definitions.keys()].  Its first statement
    hands [os.path.relpath(file_path, root_folder)] to the progress bar:
    the value is only displayed, but the call may raise.  The same call
    in [Record(...)] comes after it, with the same arguments or, on
    Windows, with the directory of [file_path] itself as start: a path
    that is not empty, and a start on its own drive. *)
Definition scan_file (definitions : definitions_t)
  (definitions_raw : definitions_raw_t) (runner_filter : RunnerFilter)
  (st : option string * Report) (file_path : string)
  : M Reg (option string * Report) :=
  lift (py_relpath file_path (fst st)) ;;;
  raw <- lift (file_getitem definitions_raw file_path) ;;
  let skipped_checks := collect_suppressions_for_context raw in
  doc <- lift (file_getitem definitions file_path) ;;
  results <- registry_scan file_path doc skipped_checks runner_filter ;;
  s <- get_self ;;
  ret (fold_left (result_body s file_path raw) results st).

(** The entry point.  Of the progress bar only the evaluation of its
    argument in the loop over the files is kept: the bar itself takes no
    part in what is loaded, scanned or reported. *)
Definition run (root_folder : option string)
  (external_checks_dir : option (list string))
  (files : option (list string)) (runner_filter : option RunnerFilter)
  : M Reg Report :=
  let runner_filter :=
    match runner_filter with
    | Some f => f
    | None => RunnerFilter_init
    end in
  let defs : definitions_t * definitions_raw_t := ([], []) in
  let report := Report_init check_type in
  if negb (truthy_list files) && negb (truthy_str root_folder) then
    ret report
  else if negb (truthy_list external_checks_dir) && require_external_checks
  then ret report
  else
    (if truthy_list external_checks_dir then
       for_eachM
         (fun (_ : unit) directory => registry_load_external_checks directory)
         (match external_checks_dir with Some l => l | None => [] end) tt
     else ret tt) ;;;
    defs <- (if truthy_list files then
               _load_files
                 (match files with Some l => l | None => [] end) defs None
             else ret defs) ;;
    defs <- (if truthy_str root_folder then
               let root_folder :=
                 match root_folder with
                 | Some r => r
                 | None => EmptyString
                 end in
               for_eachM
                 (fun defs (entry : string * list string) =>
                    let '(root, f_names) := entry in
                    _load_files f_names defs (Some (path_join root)))
                 (walk_filtered root_folder runner_filter included_paths)
                 defs
             else ret defs) ;;
    let '(definitions, definitions_raw) := defs in
    st <- for_eachM (scan_file definitions definitions_raw runner_filter)
            (dict_keys definitions) (root_folder, report) ;;
    ret (snd st).
End RunnerMethods.

(** ** Reading a jobs mapping as a sequence of units *)

(** A named unit as the parser lays it out: its key and value, followed
    by the line markers that come before the next unit. *)
Definition job_unit : Type := (pykey * pyval * list (pykey * pyval))%type.

Definition unit_items (u : job_unit) : list (pykey * pyval) :=
  let '(name, body, markers) := u in (name, body) :: markers.

(** The attribute bag of a unit: its markers, and nothing else. *)
Definition unit_bag (u : job_unit) : pydict :=
  fold_left (fun bag m => dict_set key_eqb bag (fst m) (snd m)) (snd u) [].

(** Every unit keyed by its name and holding its own markers. *)
Definition jobs_of_units (units : list job_unit) : dict pydict :=
  fold_left (fun jd u => dict_set key_eqb jd (fst (fst u)) (unit_bag u))
    units [].

Definition well_laid (u : job_unit) : Prop :=
  is_marker (fst (fst u)) = false /\
  Forall (fun m => is_marker (fst m) = true) (snd u).

(** ** Reading the outcome of a load *)

(** The documents of the results that parsed, in the order in which the
    loop of [_load_files] meets them. *)
Definition parsed_documents (results : list (string * option parsed))
  : list document :=
  flat_map (fun r => match snd r with
                     | Some (doc, _) => [doc]
                     | None => []
                     end) results.

(** The run metadata that the loader takes from one document. *)
Definition document_metadata (doc : document) : pyresult Self :=
  match doc with
  | DocList _ => Raise (AttributeError "get")
  | DocDict d =>
      (j <- _get_jobs d ;;
       t <- _get_triggers d ;;
       Ok {| workflow_name := py_get d (KStr "name");
             jobs := Some j; triggers := Some t |})%py
  end.

(** The document whose metadata is on record once the results have been
    consumed, [acc] being the one on record before. *)
Definition latest_document (results : list (string * option parsed))
  (acc : option document) : option document :=
  fold_left (fun acc r => match snd r with
                          | Some (doc, _) => Some doc
                          | None => acc
                          end) results acc.

Definition on_record {Reg : Type} (acc : option document) (w : World Reg)
  : Prop :=
  match acc with
  | Some doc => document_metadata doc = Ok (self w)
  | None => True
  end.

(** What the idempotence property compares in a report. *)
Definition finding_triple (r : report_record) : string * string * (Z * Z) :=
  (PyRecord.check_id (record_of r), PyRecord.resource (record_of r),
   PyRecord.file_line_range (record_of r)).

(** Raw lines whose numbers are their 1-based positions. *)
Definition index_aligned (raw : list RawLine) : Prop :=
  map fst raw = map Z.of_nat (seq 1 (List.length raw)).

(** The raw lines numbered from [lo] to [hi]. *)
Definition lines_between (lo hi : Z) (raw : list RawLine) : list RawLine :=
  filter (fun l => (lo <=? fst l) && (fst l <=? hi)) raw.

(** ** Comparing registries and runs *)

Definition has_check (item : string * RawCheckResult) : bool :=
  match check (snd item) with
  | Some _ => true
  | None => false
  end.

(** The same host, with a registry that leaves the results without a
    check out of every scan. *)
Definition without_checkless (h : Host) : Host :=
  {| Reg := @Reg h;
     RunnerFilter := @RunnerFilter h;
     RunnerFilter_init := @RunnerFilter_init h;
     load_external_checks := @load_external_checks h;
     scan := fun g file_path doc skipped_checks runner_filter =>
               filter has_check
                 (@scan h g file_path doc skipped_checks runner_filter);
     collect_suppressions_for_context := @collect_suppressions_for_context h;
     run_function := @run_function h;
     platform_system := @platform_system h;
     path_join := @path_join h;
     path_relpath := @path_relpath h;
     path_relpath_error := @path_relpath_error h;
     path_abspath := @path_abspath h;
     path_split_head := @path_split_head h;
     walk_filtered := @walk_filtered h |}.

Section Registries.
Context {host : Host}.

(** Two states of the registry that scan alike. *)
Definition scan_equiv (g1 g2 : Reg) : Prop :=
  forall file_path doc skipped_checks runner_filter,
    scan g1 file_path doc skipped_checks runner_filter
    = scan g2 file_path doc skipped_checks runner_filter.

(** The registry a run scans with, from the one it starts with: the
    external checks directories are loaded in order. *)
Definition registry_for_run (external_checks_dir : option (list string))
  (g : Reg) : Reg :=
  if truthy_list external_checks_dir then
    fold_left load_external_checks
      (match external_checks_dir with Some l => l | None => [] end) g
  else g.

(** Two worlds that a run cannot tell apart once the files in [defs] are
    loaded: their registries scan alike and, where records carry the run
    metadata, that metadata is the same as soon as a file is loaded. *)
Definition alike {R : Runner}
  (defs : list (string * document) * list (string * list RawLine))
  (w1 w2 : World Reg) : Prop :=
  scan_equiv (registry w1) (registry w2) /\
  (String.eqb check_type GITHUB_ACTIONS = true ->
   fst defs = [] \/ self w1 = self w2).

(** Two outcomes of a method that raise the same exception or return the
    same value, in worlds related by [Q]. *)
Definition agree {A : Type} (Q : A -> World Reg -> World Reg -> Prop)
  (r1 r2 : pyresult (A * World Reg)) : Prop :=
  match r1, r2 with
  | Ok (a1, w1), Ok (a2, w2) => a1 = a2 /\ Q a1 w1 w2
  | Raise e1, Raise e2 => e1 = e2
  | _, _ => False
  end.
End Registries.

(** ** A small installation

    Two workflow files and one file that does not parse, a registry
    that reports one violation and one result without a check for
    every file, on a host that is not Windows. *)
Module Demo.
Definition workflow_a : pydict :=
  [(KStr "name", VStr "build");
   (KBool true, VDict [(KStr "push", VNone); (START_LINE, VInt 2);
                       (END_LINE, VInt 3)]);
   (KStr "jobs", VDict [(KStr "compile", VDict []); (START_LINE, VInt 5);
                        (END_LINE, VInt 7)])].

Definition workflow_b : pydict :=
  [(KStr "name", VStr "release");
   (KBool true, VDict [(KStr "schedule", VNone); (START_LINE, VInt 2);
                       (END_LINE, VInt 3)]);
   (KStr "jobs", VDict [(KStr "publish", VDict []); (START_LINE, VInt 4);
                        (END_LINE, VInt 8)])].

Definition numbered (n : nat) : list RawLine :=
  map (fun i => (Z.of_nat i, "text")) (seq 1 n).

Definition the_check (origin : string) : Check.t :=
  {| Check.id := "CKV_GHA_1";
     Check.bc_id := None;
     Check.name := origin;
     Check.severity := None;
     Check.supported_entities := ["jobs"];
     Check.class_module := "checks.job" |}.

Definition violation (g : list string) : RawCheckResult :=
  {| results_configuration :=
       VDict [(START_LINE, VInt 4); (END_LINE, VInt 6)];
     check := Some (the_check (match g with
                               | [] => "builtin"
                               | _ => "external"
                               end));
     entries := [(KStr "result", VStr "FAILED")] |}.

Definition no_check : RawCheckResult :=
  {| results_configuration := VNone;
     check := None;
     entries := [(KStr "result", VStr "PASSED")] |}.

Definition host : Host :=
  {| Reg := list string;
     RunnerFilter := unit;
     RunnerFilter_init := tt;
     load_external_checks :=
       fun g directory =>
         if existsb (String.eqb directory) g then g else g ++ [directory];
     scan := fun g _ _ _ _ =>
               [("jobs.compile", violation g); ("jobs.lost", no_check)];
     collect_suppressions_for_context := fun _ => [];
     run_function := fun f files => map f files;
     platform_system := "Linux";
     path_join := fun root f => (root ++ "/" ++ f)%string;
     path_relpath := fun p _ => p;
     path_relpath_error :=
       fun p _ => if String.eqb p EmptyString
                  then Some "no path specified" else None;
     path_abspath := fun p => ("/" ++ p)%string;
     path_split_head := fun p => p;
     walk_filtered := fun root _ _ => [(root, ["a.yml"; "notes.txt"])] |}.

Definition int_of (v : pyval) : Z :=
  match v with
  | VInt z => z
  | _ => 0
  end.

Definition runner : Runner :=
  {| check_type := GITHUB_ACTIONS;
     _parse_file :=
       fun f =>
         if String.eqb f "a.yml" then Some (DocDict workflow_a, numbered 9)
         else if String.eqb f "wf/a.yml"
              then Some (DocDict workflow_a, numbered 9)
         else if String.eqb f "b.yml"
              then Some (DocDict workflow_b, numbered 8)
         else None;
     get_start_end_lines :=
       fun _ cfg _ =>
         match cfg with
         | VDict d =>
             (int_of (py_get d END_LINE), int_of (py_get d START_LINE))
         | _ => (0, 0)
         end;
     require_external_checks := base_require_external_checks;
     included_paths := base_included_paths;
     get_resource := base_get_resource |}.

Definition world : World (list string) :=
  {| self := Runner_init VNone None None; registry := []; calls := [] |}.

(** A run over two explicit files and the folder "wf", with one
    directory of external checks. *)
Definition first_run : pyresult (Report * World (list string)) :=
  Eval vm_compute in
    @run host runner (Some "wf") (Some ["ext"]) (Some ["a.yml"; "b.yml"])
      None world.

Definition first_report : Report :=
  match first_run with
  | Ok (report, _) => report
  | Raise _ => Report_init GITHUB_ACTIONS
  end.

Definition first_world : World (list string) :=
  match first_run with
  | Ok (_, w) => w
  | Raise _ => world
  end.
End Demo.

(** ** Reading the scanning loops *)

(** The line numbers from [lo] to [hi]. *)
Definition line_numbers (lo hi : Z) : list Z :=
  map Z.of_nat (seq (Z.to_nat lo) (Z.to_nat (hi + 1 - lo))).

Section Findings.
Context {host : Host} {R : Runner}.

(** The folder against which the path of a record of [file_path] is
    displayed, [root_folder] being the one the loop holds. *)
Definition display_root (file_path : string) (root_folder : option string)
  : option string :=
  if String.eqb platform_system "Windows"
  then Some (path_split_head file_path)
  else root_folder.

(** The record of one scan result, when the result carries a check. *)
Definition finding_of (s : Self) (file_path : string) (raw : list RawLine)
  (root_folder : option string) (item : string * RawCheckResult)
  : list report_record :=
  match check (snd item) with
  | None => []
  | Some c =>
      [build_record s file_path raw (display_root file_path root_folder)
         (fst item) (snd (pop_check (snd item))) c
         (fst (resolve_start_end (results_configuration (snd item))))
         (snd (resolve_start_end (results_configuration (snd item))))]
  end.

(** The records of one loaded file, in the order of its scan results. *)
Definition file_findings (s : Self) (g : Reg) (definitions : definitions_t)
  (definitions_raw : definitions_raw_t) (runner_filter : RunnerFilter)
  (root_folder : option string) (file_path : string) : list report_record :=
  match dict_lookup String.eqb definitions_raw file_path,
        dict_lookup String.eqb definitions file_path with
  | Some raw, Some doc =>
      flat_map (finding_of s file_path raw root_folder)
        (scan g file_path doc (collect_suppressions_for_context raw)
           runner_filter)
  | _, _ => []
  end.
End Findings.

(** ** Reading the associations after a load *)

(** What one result of the worker pool writes into the two associations. *)
Definition store_result
  (defs : list (string * document) * list (string * list RawLine))
  (item : string * option parsed)
  : list (string * document) * list (string * list RawLine) :=
  match snd item with
  | Some (doc, raw) =>
      (dict_set String.eqb (fst defs) (fst item) doc,
       dict_set String.eqb (snd defs) (fst item) raw)
  | None => defs
  end.

(** The file names a call of [_load_files] hands to the worker pool. *)
Definition renamed (filename_fn : option (string -> string))
  (files_to_load : list string) : list string :=
  map (fun file => match filename_fn with
                   | Some fn => fn file
                   | None => file
                   end) files_to_load.

(** What the loop of the jobs extractor keeps true of [jobs_dict]: the
    names are keys of the mapping that are not markers, and a bag holds
    only line markers, each with a value that the mapping gives it. *)
Definition jobs_shape (items : list (pykey * pyval)) (jobs_dict : dict pydict)
  : Prop :=
  forall name bag,
    In (name, bag) jobs_dict ->
    is_marker name = false
    /\ In name (dict_keys items)
    /\ forall k v, In (k, v) bag -> is_marker k = true /\ In (k, v) items.

(** A jobs mapping written with the line markers after each of two
    units; the markers come twice in the text. *)
Definition jobs_written_twice : list (pykey * pyval) :=
  [(KStr "build", VDict []); (START_LINE, VInt 3); (END_LINE, VInt 5);
   (KStr "test", VDict []); (START_LINE, VInt 7); (END_LINE, VInt 9)].

(** Every unit of a jobs mapping with the markers that follow it. *)
Definition units_with_markers (units : list job_unit) : dict pydict :=
  map (fun u => (fst (fst u), snd u)) units.

(** ** Relative paths *)

(** [s.replace(old, new)] for an [old] that is not empty: the occurrences
    of [old] are replaced from the left, [skip] being the number of
    characters of the current occurrence still to pass over. *)
Fixpoint replace_scan (old new : string) (skip : nat) (s : string) : string :=
  match s with
  | EmptyString => EmptyString
  | String c s' =>
      match skip with
      | S n => replace_scan old new n s'
      | O =>
          if String.prefix old s
          then (new ++ replace_scan old new (String.length old - 1) s')%string
          else String c (replace_scan old new 0 s')
      end
  end.

(** [s.replace("", new)]: [new] goes before every character and at the
    end. *)
Fixpoint replace_empty (new s : string) : string :=
  match s with
  | EmptyString => new
  | String c s' => (new ++ String c (replace_empty new s'))%string
  end.

(** [s.replace(old, new)] *)
Definition py_replace (s old new : string) : string :=
  match old with
  | EmptyString => replace_empty new s
  | _ => replace_scan old new 0 s
  end.

(** [old in s] *)
Fixpoint occurs (old s : string) : bool :=
  String.prefix old s
  || match s with
     | EmptyString => false
     | String _ s' => occurs old s'
     end.

Section RelativePaths.
(** [os.getcwd()] *)
Variable getcwd : string.

(** The two assignments of the loop of [_change_files_path_to_relative]. *)
Definition relative_record (r : PyRecord.t) : PyRecord.t :=
  {| PyRecord.check_id := PyRecord.check_id r;
     PyRecord.bc_check_id := PyRecord.bc_check_id r;
     PyRecord.check_name := PyRecord.check_name r;
     PyRecord.check_result := PyRecord.check_result r;
     PyRecord.code_block := PyRecord.code_block r;
     PyRecord.file_path := py_replace (PyRecord.file_path r) getcwd EmptyString;
     PyRecord.file_line_range := PyRecord.file_line_range r;
     PyRecord.resource := py_replace (PyRecord.resource r) getcwd EmptyString;
     PyRecord.check_class := PyRecord.check_class r;
     PyRecord.file_abs_path := PyRecord.file_abs_path r;
     PyRecord.severity := PyRecord.severity r |}.

Definition relative_report_record (r : report_record) : report_record :=
  match r with
  | PlainRecord record => PlainRecord (relative_record record)
  | GithubActionsRecord record jobs triggers workflow_name =>
      GithubActionsRecord (relative_record record) jobs triggers workflow_name
  end.

(** The static method: every record of the report is rewritten in
    place ([report.get_all_records()] is the records of the report). *)
Definition _change_files_path_to_relative (report : Report) : Report :=
  {| report_check_type := report_check_type report;
     records := map relative_report_record (records report) |}.
End RelativePaths.

(** What [_change_files_path_to_relative] leaves alone in a record. *)
Definition record_rest (r : report_record)
  : string * option string * string * RawCheckResult * list RawLine
    * (Z * Z) * string * string * option string :=
  (PyRecord.check_id (record_of r), PyRecord.bc_check_id (record_of r),
   PyRecord.check_name (record_of r), PyRecord.check_result (record_of r),
   PyRecord.code_block (record_of r),
   PyRecord.file_line_range (record_of r),
   PyRecord.check_class (record_of r),
   PyRecord.file_abs_path (record_of r), PyRecord.severity (record_of r)).

(** ** Reading a run *)

(** The directories of external checks a run is given. *)
Definition external_dirs (external_checks_dir : option (list string))
  : list string :=
  match external_checks_dir with
  | Some l => l
  | None => []
  end.

Section RunCalls.
Context {host : Host} {R : Runner}.

(** The batches of files a run hands to the worker pool: the explicit
    files, then the surviving files of every directory walked. *)
Definition run_parse_calls (root_folder : option string)
  (files : option (list string)) (runner_filter : RunnerFilter)
  : list (list string) :=
  (if truthy_list files
   then [match files with Some l => l | None => [] end]
   else [])
  ++ (if truthy_str root_folder
      then map (fun entry => map (path_join (fst entry)) (snd entry))
             (walk_filtered
                (match root_folder with Some r => r | None => EmptyString end)
                runner_filter included_paths)
      else []).

(** The two guards at the head of [run]. *)
Definition run_stops_early (root_folder : option string)
  (external_checks_dir : option (list string))
  (files : option (list string)) : bool :=
  (negb (truthy_list files) && negb (truthy_str root_folder))
  || (negb (truthy_list external_checks_dir) && require_external_checks).

(** The two associations as the loads of a run leave them: every batch
    goes through the worker pool and its results are stored in turn. *)
Definition loaded_by_run (root_folder : option string)
  (files : option (list string)) (runner_filter : RunnerFilter)
  : list (string * document) * list (string * list RawLine) :=
  fold_left
    (fun defs batch =>
       fold_left store_result
         (run_function (fun f => (f, _parse_file f)) batch) defs)
    (run_parse_calls root_folder files runner_filter) ([], []).
End RunCalls.

(** ** Two more runners on the small installation

    A runner of another family, whose parser also yields a list of
    mappings, and a GitHub Actions runner that meets documents it cannot
    extract from. *)
Module Demo2.
Definition yaml_runner : Runner :=
  {| check_type := "yaml";
     _parse_file :=
       fun f =>
         if String.eqb f "a.yml"
         then Some (DocList [Demo.workflow_a], Demo.numbered 3)
         else if String.eqb f "b.yml"
              then Some (DocDict Demo.workflow_b, Demo.numbered 2)
         else if String.eqb f "wf/a.yml"
              then Some (DocDict Demo.workflow_a, Demo.numbered 9)
         else None;
     get_start_end_lines := @get_start_end_lines Demo.runner;
     require_external_checks := false;
     included_paths := base_included_paths;
     get_resource := base_get_resource |}.

Definition no_jobs_mapping : pydict :=
  [(KStr "name", VStr "broken"); (KStr "jobs", VList [VStr "build"])].

Definition strict_runner : Runner :=
  {| check_type := GITHUB_ACTIONS;
     _parse_file :=
       fun f =>
         if String.eqb f "ok.yml"
         then Some (DocDict Demo.workflow_a, Demo.numbered 9)
         else if String.eqb f "bad.yml"
              then Some (DocDict no_jobs_mapping, Demo.numbered 2)
         else if String.eqb f "late.yml"
              then Some (DocDict Demo.workflow_b, Demo.numbered 8)
         else None;
     get_start_end_lines := @get_start_end_lines Demo.runner;
     require_external_checks := base_require_external_checks;
     included_paths := base_included_paths;
     get_resource := base_get_resource |}.

(** A load by the runner of the other family. *)
Definition yaml_load
  : pyresult ((definitions_t * definitions_raw_t) * World (list string)) :=
  Eval vm_compute in
    @_load_files Demo.host yaml_runner ["a.yml"; "notes.txt"; "b.yml"; "a.yml"]
      ([], []) None Demo.world.

Definition yaml_defs : definitions_t * definitions_raw_t :=
  match yaml_load with
  | Ok (defs, _) => defs
  | Raise _ => ([], [])
  end.

Definition yaml_world : World (list string) :=
  match yaml_load with
  | Ok (_, w) => w
  | Raise _ => Demo.world
  end.

(** The scan loop of the first runner over one loaded file. *)
Definition scanned
  : pyresult ((option string * Report) * World (list string)) :=
  Eval vm_compute in
    for_eachM
      (@scan_file Demo.host Demo.runner
         [("a.yml", DocDict Demo.workflow_a)] [("a.yml", Demo.numbered 9)] tt)
      ["a.yml"] (Some "wf", Report_init GITHUB_ACTIONS) Demo.first_world.

Definition scanned_report : Report :=
  match scanned with
  | Ok ((_, report), _) => report
  | Raise _ => Report_init GITHUB_ACTIONS
  end.

Definition scanned_root : option string :=
  match scanned with
  | Ok ((root_folder, _), _) => root_folder
  | Raise _ => None
  end.

Definition scanned_world : World (list string) :=
  match scanned with
  | Ok (_, w) => w
  | Raise _ => Demo.world
  end.

(** A runner of another family whose parser also answers for the empty
    file name. *)
Definition unnamed_runner : Runner :=
  {| check_type := "yaml";
     _parse_file :=
       fun f =>
         if String.eqb f EmptyString
         then Some (DocDict Demo.workflow_a, Demo.numbered 3)
         else @_parse_file yaml_runner f;
     get_start_end_lines := @get_start_end_lines Demo.runner;
     require_external_checks := false;
     included_paths := base_included_paths;
     get_resource := base_get_resource |}.
End Demo2.

(** ** Counting, and a Windows host *)

(** The number of scan results of a loaded file that carry a check. *)
Definition checked_results {host : Host} (g : Reg)
  (definitions : list (string * document))
  (definitions_raw : list (string * list RawLine))
  (runner_filter : RunnerFilter) (file_path : string) : nat :=
  match dict_lookup String.eqb definitions_raw file_path,
        dict_lookup String.eqb definitions file_path with
  | Some raw, Some doc =>
      List.length
        (filter has_check
           (scan g file_path doc (collect_suppressions_for_context raw)
              runner_filter))
  | _, _ => 0%nat
  end.

(** The small installation, moved to Windows. *)
Definition windows_host : Host :=
  {| Reg := @Reg Demo.host;
     RunnerFilter := @RunnerFilter Demo.host;
     RunnerFilter_init := @RunnerFilter_init Demo.host;
     load_external_checks := @load_external_checks Demo.host;
     scan := @scan Demo.host;
     collect_suppressions_for_context :=
       @collect_suppressions_for_context Demo.host;
     run_function := @run_function Demo.host;
     platform_system := "Windows";
     path_join := @path_join Demo.host;
     path_relpath :=
       fun p root => match root with
                     | Some r => (p ++ " from " ++ r)%string
                     | None => p
                     end;
     path_relpath_error := @path_relpath_error Demo.host;
     path_abspath := @path_abspath Demo.host;
     path_split_head := fun p => ("dir of " ++ p)%string;
     walk_filtered := @walk_filtered Demo.host |}.

(** The last result of [results] for the file [f] that parsed, if any. *)
Definition last_parsed_for (f : string)
  (results : list (string * option parsed)) : option parsed :=
  fold_left (fun acc r => if String.eqb (fst r) f
                          then match snd r with
                               | Some p => Some p
                               | None => acc
                               end
                          else acc) results None.

(** * Properties *)

(** ** Keys and dictionaries *)

Lemma key_eqb_norm a b : key_eqb a b = true <-> key_norm a = key_norm b.
Proof.
  unfold key_eqb.
  destruct (key_norm a) as [| c | x | s] eqn:Ea;
    destruct (key_norm b) as [| c' | y | t] eqn:Eb;
    try (destruct a as [| [|] | |]; discriminate);
    try (destruct b as [| [|] | |]; discriminate);
    try (split; intros; congruence).
  - rewrite Z.eqb_eq. split; congruence.
  - rewrite String.eqb_eq. split; congruence.
Qed.

Lemma key_eqb_refl k : key_eqb k k = true.
Proof. apply key_eqb_norm. reflexivity. Qed.

Lemma key_eqb_left a b c : key_eqb a b = true -> key_eqb a c = key_eqb b c.
Proof.
  intros H. apply key_eqb_norm in H. unfold key_eqb. now rewrite H.
Qed.

Lemma key_eqb_right a b c : key_eqb a b = true -> key_eqb c a = key_eqb c b.
Proof.
  intros H. apply key_eqb_norm in H. unfold key_eqb. now rewrite H.
Qed.

Lemma key_eqb_str k s : key_eqb k (KStr s) = true -> k = KStr s.
Proof.
  intros H. apply key_eqb_norm in H. destruct k; simpl in H; congruence.
Qed.

Lemma is_marker_cases k :
  is_marker k = true -> k = START_LINE \/ k = END_LINE.
Proof.
  unfold is_marker. intros H. apply orb_true_iff in H.
  destruct H as [H | H]; apply key_eqb_str in H; auto.
Qed.

Lemma is_marker_compat a b : key_eqb a b = true -> is_marker a = is_marker b.
Proof.
  intros H. unfold is_marker.
  now rewrite (key_eqb_left _ _ START_LINE H), (key_eqb_left _ _ END_LINE H).
Qed.

Lemma not_marker_test k :
  negb (key_eqb k START_LINE) && negb (key_eqb k END_LINE)
  = negb (is_marker k).
Proof. unfold is_marker. now rewrite negb_orb. Qed.

Section DictFacts.
Context {K V : Type} (eqb : K -> K -> bool).

Lemma dict_lookup_set_same (d : list (K * V)) k v :
  eqb k k = true -> dict_lookup eqb (dict_set eqb d k v) k = Some v.
Proof.
  intros Hk. induction d as [| [k' v'] d IH]; simpl.
  - now rewrite Hk.
  - destruct (eqb k' k) eqn:E; simpl; rewrite E; auto.
Qed.

Lemma dict_set_set_same (d : list (K * V)) k v v' :
  eqb k k = true ->
  dict_set eqb (dict_set eqb d k v) k v' = dict_set eqb d k v'.
Proof.
  intros Hk. induction d as [| [k' w] d IH]; simpl.
  - now rewrite Hk.
  - destruct (eqb k' k) eqn:E; simpl; rewrite E; congruence.
Qed.
End DictFacts.

Lemma for_each_app {A S : Type} (body : S -> A -> pyresult S) l1 l2 s :
  for_each body (l1 ++ l2) s = rbind (for_each body l1 s) (for_each body l2).
Proof.
  revert s. induction l1 as [| x l1 IH]; intros s; simpl.
  - reflexivity.
  - destruct (body s x); simpl; auto.
Qed.

(** ** The jobs extractor *)

(** A marker met while [tmp_key] is a started unit goes into that unit. *)
Lemma jobs_body_marker jd n bag k v :
  is_marker k = true ->
  jobs_body (dict_set key_eqb jd n bag, n) (k, v)
  = Ok (dict_set key_eqb jd n (dict_set key_eqb bag k v), n).
Proof.
  intros Hk. unfold jobs_body. rewrite not_marker_test, Hk. simpl.
  destruct (is_marker_cases k Hk) as [-> | ->].
  - replace (key_eqb START_LINE START_LINE) with true by reflexivity.
    replace (key_eqb START_LINE END_LINE) with false by reflexivity.
    unfold py_getitem.
    rewrite dict_lookup_set_same by apply key_eqb_refl. simpl.
    rewrite dict_set_set_same by apply key_eqb_refl. reflexivity.
  - replace (key_eqb END_LINE START_LINE) with false by reflexivity.
    replace (key_eqb END_LINE END_LINE) with true by reflexivity.
    unfold py_getitem. simpl.
    rewrite dict_lookup_set_same by apply key_eqb_refl. simpl.
    rewrite dict_set_set_same by apply key_eqb_refl. reflexivity.
Qed.

Lemma jobs_markers_run ms : forall jd n bag,
  Forall (fun m => is_marker (fst m) = true) ms ->
  for_each jobs_body ms (dict_set key_eqb jd n bag, n)
  = Ok (dict_set key_eqb jd n
          (fold_left (fun bag m => dict_set key_eqb bag (fst m) (snd m))
             ms bag), n).
Proof.
  induction ms as [| [k v] ms IH]; intros jd n bag Hms; cbn [for_each].
  - reflexivity.
  - inversion Hms as [| ? ? Hk Hrest]; subst. simpl in Hk.
    rewrite jobs_body_marker by exact Hk. cbn [rbind fold_left fst snd].
    now apply IH.
Qed.

Lemma jobs_unit_run (u : job_unit) jd tmp :
  well_laid u ->
  for_each jobs_body (unit_items u) (jd, tmp)
  = Ok (dict_set key_eqb jd (fst (fst u)) (unit_bag u), fst (fst u)).
Proof.
  destruct u as [[n body] ms]. intros [Hn Hms]. cbn [fst snd] in *.
  cbn [unit_items for_each]. unfold jobs_body at 1.
  rewrite not_marker_test, Hn. cbn [negb rbind].
  rewrite jobs_markers_run by exact Hms. reflexivity.
Qed.

Lemma jobs_units_run units : forall jd tmp,
  Forall well_laid units ->
  exists tmp',
    for_each jobs_body (flat_map unit_items units) (jd, tmp)
    = Ok (fold_left
            (fun jd u => dict_set key_eqb jd (fst (fst u)) (unit_bag u))
            units jd, tmp').
Proof.
  induction units as [| u units IH]; intros jd tmp Hall;
    cbn [flat_map fold_left].
  - now exists tmp.
  - inversion Hall as [| ? ? Hu Hrest]; subst.
    rewrite for_each_app, jobs_unit_run by exact Hu. cbn [rbind].
    now apply IH.
Qed.

(** C9 (as the code has it): a line marker met before any named unit makes
    the job extractor raise [KeyError] on the initial cursor, the empty
    string; no mapping is returned. *)
Theorem get_jobs_marker_before_unit_raises :
  forall doc k v rest,
    py_get doc (KStr "jobs") = VDict ((k, v) :: rest) ->
    is_marker k = true ->
    _get_jobs doc = Raise (KeyError (KStr EmptyString)).
Proof.
  intros doc k v rest H Hk. unfold _get_jobs. rewrite H.
  cbn [py_truthy py_items rbind for_each].
  unfold jobs_body. rewrite not_marker_test, Hk.
  destruct (is_marker_cases k Hk) as [-> | ->]; reflexivity.
Qed.

Lemma get_jobs_marker_before_unit_raises_witness :
  _get_jobs
    [(KStr "jobs",
      VDict [(START_LINE, VInt 3); (KStr "build", VDict []);
             (END_LINE, VInt 5)])]
  = Raise (KeyError (KStr EmptyString)).
Proof.
  apply (get_jobs_marker_before_unit_raises _ START_LINE (VInt 3)
           [(KStr "build", VDict []); (END_LINE, VInt 5)]);
    reflexivity.
Defined.

(** C9, refuted as stated: on a jobs mapping that opens with a marker the
    extractor does not complete. *)
Lemma get_jobs_marker_first_not_noop :
  is_marker START_LINE = true /\
  ~ (exists jobs_dict,
        _get_jobs
          [(KStr "jobs",
            VDict [(START_LINE, VInt 3); (KStr "build", VDict [])])]
        = Ok jobs_dict).
Proof.
  split; [reflexivity |].
  intros [jd H]. vm_compute in H. discriminate.
Qed.

(** ** The triggers extractor *)

Lemma set_mem_compat a b s : key_eqb a b = true -> set_mem a s = set_mem b s.
Proof.
  intros H. unfold set_mem. induction s as [| x s IH]; simpl.
  - reflexivity.
  - now rewrite IH, (key_eqb_right _ _ x H).
Qed.

Lemma set_mem_app k s1 s2 : set_mem k (s1 ++ s2) = set_mem k s1 || set_mem k s2.
Proof. unfold set_mem. apply existsb_app. Qed.

Lemma set_mem_add k s k' :
  set_mem k (set_add s k') = set_mem k s || key_eqb k' k.
Proof.
  unfold set_add. destruct (set_mem k' s) eqn:E.
  - destruct (key_eqb k' k) eqn:Ek.
    + rewrite <- (set_mem_compat _ _ s Ek), E. reflexivity.
    + now rewrite orb_false_r.
  - rewrite set_mem_app. simpl. now rewrite orb_false_r.
Qed.

Lemma set_mem_comprehension k keys : forall s,
  set_mem k
    (fold_left
       (fun s key =>
          if negb (key_eqb key START_LINE) && negb (key_eqb key END_LINE)
          then set_add s key else s) keys s)
  = set_mem k s
    || (negb (is_marker k) && existsb (fun k' => key_eqb k' k) keys).
Proof.
  induction keys as [| x keys IH]; intros s; cbn [fold_left existsb].
  - now rewrite andb_false_r, orb_false_r.
  - rewrite IH, not_marker_test.
    destruct (key_eqb x k) eqn:Ex.
    + rewrite (is_marker_compat _ _ Ex).
      destruct (is_marker k); cbn [negb andb orb].
      * reflexivity.
      * rewrite set_mem_add, Ex. now rewrite !orb_true_r.
    + cbn [orb]. destruct (is_marker x); cbn [negb].
      * reflexivity.
      * rewrite set_mem_add, Ex. now rewrite orb_false_r.
Qed.

Lemma key_eqb_sym a b : key_eqb a b = key_eqb b a.
Proof.
  destruct (key_eqb a b) eqn:E; symmetry.
  - apply key_eqb_norm. symmetry. now apply key_eqb_norm.
  - destruct (key_eqb b a) eqn:E'; [| reflexivity].
    apply key_eqb_norm in E'. symmetry in E'. apply key_eqb_norm in E'.
    congruence.
Qed.

Lemma set_mem_false_in k s x :
  set_mem k s = false -> In x s -> key_eqb x k = false.
Proof.
  unfold set_mem. intros H Hin.
  destruct (key_eqb x k) eqn:E; [| reflexivity].
  rewrite <- H. symmetry. apply existsb_exists. now exists x.
Qed.

Lemma comprehension_distinct keys : forall s,
  distinct_keys keys = true ->
  (forall k, In k keys -> set_mem k s = false) ->
  fold_left
    (fun s key =>
       if negb (key_eqb key START_LINE) && negb (key_eqb key END_LINE)
       then set_add s key else s) keys s
  = s ++ filter (fun k => negb (is_marker k)) keys.
Proof.
  induction keys as [| x keys IH]; intros s Hd Hs; cbn [fold_left filter].
  - now rewrite app_nil_r.
  - cbn [distinct_keys] in Hd. apply andb_true_iff in Hd.
    destruct Hd as [Hx Hd]. apply negb_true_iff in Hx.
    rewrite not_marker_test. destruct (negb (is_marker x)).
    + unfold set_add. rewrite (Hs x (or_introl eq_refl)).
      rewrite IH; [now rewrite <- app_assoc | exact Hd |].
      intros k Hk. rewrite set_mem_app, (Hs k (or_intror Hk)).
      cbn. rewrite orb_false_r, key_eqb_sym.
      exact (set_mem_false_in _ _ _ Hx Hk).
    + apply IH; [exact Hd |]. intros k Hk. apply Hs. now right.
Qed.

(** ** The jobs extractor on dicts *)

Lemma dict_set_fresh {V : Type} (d : list (pykey * V)) k v :
  set_mem k (dict_keys d) = false ->
  dict_set key_eqb d k v = d ++ [(k, v)].
Proof.
  induction d as [| [k' v'] d IH]; intros H; cbn [dict_set app].
  - reflexivity.
  - unfold set_mem, dict_keys in H. cbn [map fst existsb] in H.
    apply orb_false_iff in H. destruct H as [H1 H2].
    rewrite H1. f_equal. now apply IH.
Qed.

Lemma distinct_keys_app s1 s2 :
  distinct_keys (s1 ++ s2) = true ->
  distinct_keys s1 = true /\ distinct_keys s2 = true
  /\ forall k, In k s1 -> set_mem k s2 = false.
Proof.
  induction s1 as [| x s1 IH]; cbn [app distinct_keys]; intros H.
  - repeat split; [exact H | intros k []].
  - apply andb_true_iff in H. destruct H as [Hx H].
    apply negb_true_iff in Hx. rewrite set_mem_app in Hx.
    apply orb_false_iff in Hx. destruct Hx as [Hx1 Hx2].
    destruct (IH H) as (D1 & D2 & D3).
    repeat split.
    + now rewrite Hx1, D1.
    + exact D2.
    + intros k [<- | Hk]; [exact Hx2 | now apply D3].
Qed.

Lemma distinct_keys_fresh s1 k s2 :
  distinct_keys (s1 ++ k :: s2) = true -> set_mem k s1 = false.
Proof.
  intros H. destruct (distinct_keys_app _ _ H) as (_ & _ & D).
  destruct (set_mem k s1) eqn:E; [| reflexivity].
  unfold set_mem in E. apply existsb_exists in E.
  destruct E as (x & Hin & Hx).
  specialize (D x Hin). unfold set_mem in D. cbn [existsb] in D.
  apply orb_false_iff in D. destruct D as [D _].
  rewrite key_eqb_sym in D. congruence.
Qed.

Lemma distinct_keys_without s1 s2 s3 :
  distinct_keys (s1 ++ s2 ++ s3) = true -> distinct_keys (s1 ++ s3) = true.
Proof.
  induction s1 as [| x s1 IH]; cbn [app distinct_keys]; intros H.
  - now destruct (distinct_keys_app _ _ H) as (_ & D & _).
  - apply andb_true_iff in H. destruct H as [Hx H].
    apply negb_true_iff in Hx. rewrite !set_mem_app in Hx.
    apply orb_false_iff in Hx. destruct Hx as [Hx1 Hx2].
    apply orb_false_iff in Hx2. destruct Hx2 as [_ Hx3].
    rewrite set_mem_app, Hx1, Hx3. cbn [orb negb andb]. now apply IH.
Qed.

Lemma dict_of_items_from {V : Type} (items : list (pykey * V)) : forall acc,
  distinct_keys (map fst acc ++ map fst items) = true ->
  fold_left (fun d kv => dict_set key_eqb d (fst kv) (snd kv)) items acc
  = acc ++ items.
Proof.
  induction items as [| [k v] items IH]; intros acc H; cbn [fold_left].
  - now rewrite app_nil_r.
  - cbn [fst snd map] in *. rewrite dict_set_fresh.
    + rewrite IH.
      * now rewrite <- app_assoc.
      * rewrite map_app, <- app_assoc. exact H.
    + exact (distinct_keys_fresh _ _ _ H).
Qed.

Lemma dict_of_items_dict {V : Type} (items : list (pykey * V)) :
  is_dict items = true -> dict_of_items items = items.
Proof.
  intros H. unfold dict_of_items. now rewrite dict_of_items_from.
Qed.

Lemma units_run_dict units : forall acc : dict pydict,
  distinct_keys (map fst acc ++ map fst (flat_map unit_items units)) = true ->
  fold_left (fun jd u => dict_set key_eqb jd (fst (fst u)) (unit_bag u))
    units acc
  = acc ++ units_with_markers units.
Proof.
  induction units as [| [[n b] ms] units IH]; intros acc H;
    cbn [fold_left units_with_markers map].
  - now rewrite app_nil_r.
  - cbn [flat_map unit_items] in H. cbn [fst snd].
    rewrite map_app in H. cbn [app map fst] in H.
    rewrite dict_set_fresh by exact (distinct_keys_fresh _ _ _ H).
    assert (Hbag : unit_bag (n, b, ms) = ms).
    { unfold unit_bag. cbn [snd]. apply (dict_of_items_from ms []).
      destruct (distinct_keys_app _ _ H) as (_ & D & _).
      cbn [distinct_keys] in D. apply andb_true_iff in D.
      destruct D as [_ D]. cbn [map app].
      now destruct (distinct_keys_app _ _ D) as (D' & _ & _). }
    rewrite Hbag, IH.
    + unfold units_with_markers. now rewrite <- app_assoc.
    + rewrite map_app. cbn [map fst].
      apply (distinct_keys_without _ (map fst ms)).
      rewrite <- app_assoc. exact H.
Qed.

Lemma jobs_of_units_dict units :
  is_dict (flat_map unit_items units) = true ->
  jobs_of_units units = units_with_markers units.
Proof.
  intros H. unfold jobs_of_units. now rewrite units_run_dict.
Qed.

(** C4 (as the code has it): a dict holds a key once, so a jobs mapping
    has START_LINE and END_LINE at most once.  When the jobs mapping is a
    dict made of named units, each followed by line markers, the job
    extractor returns every unit, in order, holding exactly the markers
    that follow it: a marker goes to the most recently started unit.  On
    "build": {}, START_LINE: 3, END_LINE: 5, "test": {} it returns "build"
    with START_LINE 3 and END_LINE 5 and "test" with no marker. *)
Theorem get_jobs_attribution_on_dicts :
  (forall doc build test,
      py_get doc (KStr "jobs")
      = VDict [(KStr "build", build); (START_LINE, VInt 3);
               (END_LINE, VInt 5); (KStr "test", test)] ->
      _get_jobs doc
      = Ok [(KStr "build", [(START_LINE, VInt 3); (END_LINE, VInt 5)]);
            (KStr "test", [])])
  /\
  (forall doc units,
      py_get doc (KStr "jobs") = VDict (flat_map unit_items units) ->
      is_dict (flat_map unit_items units) = true ->
      Forall well_laid units ->
      _get_jobs doc = Ok (units_with_markers units)).
Proof.
  split.
  - intros doc build test H. unfold _get_jobs. rewrite H. reflexivity.
  - intros doc units H Hd Hall. unfold _get_jobs. rewrite H.
    rewrite <- (jobs_of_units_dict units Hd).
    destruct units as [| u units].
    + reflexivity.
    + replace (py_truthy (VDict (flat_map unit_items (u :: units))))
        with true by (destruct u as [[n b] ms]; reflexivity).
      cbn [py_items rbind].
      destruct (jobs_units_run (u :: units) [] (KStr EmptyString) Hall)
        as [tmp' E].
      rewrite E. reflexivity.
Qed.

Lemma get_jobs_attribution_on_dicts_witness :
  _get_jobs
    [(KStr "name", VStr "ci");
     (KStr "jobs",
      VDict [(KStr "build", VDict []); (START_LINE, VInt 3);
             (END_LINE, VInt 5); (KStr "test", VDict [])])]
  = Ok [(KStr "build", [(START_LINE, VInt 3); (END_LINE, VInt 5)]);
        (KStr "test", [])]
  /\
  _get_jobs
    [(KStr "jobs",
      VDict (flat_map unit_items
               [(KStr "lint", VDict [], []);
                (KStr "ship", VNone,
                 [(START_LINE, VInt 2); (END_LINE, VInt 8)])]))]
  = Ok [(KStr "lint", []);
        (KStr "ship", [(START_LINE, VInt 2); (END_LINE, VInt 8)])].
Proof.
  split.
  - apply (proj1 get_jobs_attribution_on_dicts _ (VDict []) (VDict [])).
    reflexivity.
  - apply (proj2 get_jobs_attribution_on_dicts
             [(KStr "jobs",
               VDict (flat_map unit_items
                        [(KStr "lint", VDict [], []);
                         (KStr "ship", VNone,
                          [(START_LINE, VInt 2); (END_LINE, VInt 8)])]))]
             [(KStr "lint", VDict [], []);
              (KStr "ship", VNone,
               [(START_LINE, VInt 2); (END_LINE, VInt 8)])]).
    + reflexivity.
    + reflexivity.
    + repeat constructor.
Defined.

(** C4 as the spec words it fails: the sequence "build": {}, START_LINE: 3,
    END_LINE: 5, "test": {}, START_LINE: 7, END_LINE: 9 repeats two keys, so
    it is no dict; the dict built from it keeps START_LINE and END_LINE
    once, after "build" and with the values 7 and 9, and on it the job
    extractor returns "build" with START_LINE 7 and END_LINE 9 and "test"
    with no marker. *)
Lemma get_jobs_repeated_markers_collapse :
  is_dict jobs_written_twice = false
  /\ dict_of_items jobs_written_twice
     = [(KStr "build", VDict []); (START_LINE, VInt 7); (END_LINE, VInt 9);
        (KStr "test", VDict [])]
  /\ _get_jobs [(KStr "jobs", VDict (dict_of_items jobs_written_twice))]
     = Ok [(KStr "build", [(START_LINE, VInt 7); (END_LINE, VInt 9)]);
           (KStr "test", [])]
  /\ _get_jobs [(KStr "jobs", VDict (dict_of_items jobs_written_twice))]
     <> Ok [(KStr "build", [(START_LINE, VInt 3); (END_LINE, VInt 5)]);
            (KStr "test", [(START_LINE, VInt 7); (END_LINE, VInt 9)])].
Proof.
  repeat split; try reflexivity.
  intros H. vm_compute in H. discriminate H.
Qed.

(** C6: the trigger extractor returns exactly the keys of the mapping
    under the key [True] that are not line markers (for
    True -> {"push": ..., START_LINE: 1, END_LINE: 2} exactly {"push"}); when
    the key [True] is absent it returns the empty set and does not fail. *)
Theorem get_triggers_keys_without_markers :
  forall doc,
    (forall m,
        dict_lookup key_eqb doc (KBool true) = Some (VDict m) ->
        exists s,
          _get_triggers doc = Ok s /\
          (forall k,
              set_mem k s = dict_mem key_eqb m k && negb (is_marker k)) /\
          (distinct_keys (dict_keys m) = true ->
           s = filter (fun k => negb (is_marker k)) (dict_keys m)))
    /\
    (forall push,
        dict_lookup key_eqb doc (KBool true)
        = Some (VDict [(KStr "push", push); (START_LINE, VInt 1);
                       (END_LINE, VInt 2)]) ->
        _get_triggers doc = Ok [KStr "push"])
    /\
    (dict_lookup key_eqb doc (KBool true) = None ->
     _get_triggers doc = Ok []).
Proof.
  intros doc. unfold _get_triggers, py_get. repeat split.
  - intros m H. rewrite H. destruct m as [| kv m].
    + exists []. repeat split.
    + exists (trigger_comprehension (dict_keys (kv :: m))).
      split; [reflexivity |]. split.
      * intros k. unfold trigger_comprehension.
        rewrite set_mem_comprehension.
        unfold dict_mem. cbn [set_mem existsb orb]. apply andb_comm.
      * intros Hd. unfold trigger_comprehension.
        now rewrite comprehension_distinct.
  - intros push H. rewrite H. reflexivity.
  - intros H. rewrite H. reflexivity.
Qed.

Lemma get_triggers_keys_without_markers_witness :
  (exists s,
      _get_triggers
        [(KStr "name", VStr "ci");
         (KInt 1, VDict [(KStr "push", VNone); (KStr "pull_request", VNone);
                         (START_LINE, VInt 1); (END_LINE, VInt 4)])]
      = Ok s /\
      (forall k,
          set_mem k s
          = dict_mem key_eqb
              [(KStr "push", VNone); (KStr "pull_request", VNone);
               (START_LINE, VInt 1); (END_LINE, VInt 4)] k
            && negb (is_marker k)) /\
      (distinct_keys
         (dict_keys [(KStr "push", VNone); (KStr "pull_request", VNone);
                     (START_LINE, VInt 1); (END_LINE, VInt 4)]) = true ->
       s = filter (fun k => negb (is_marker k))
             (dict_keys [(KStr "push", VNone); (KStr "pull_request", VNone);
                         (START_LINE, VInt 1); (END_LINE, VInt 4)])))
  /\
  _get_triggers
    [(KBool true, VDict [(KStr "push", VDict [(KStr "branches", VNone)]);
                         (START_LINE, VInt 1); (END_LINE, VInt 2)])]
  = Ok [KStr "push"]
  /\
  _get_triggers [(KStr "name", VStr "ci")] = Ok [].
Proof.
  split; [| split].
  - apply (proj1 (get_triggers_keys_without_markers _)). reflexivity.
  - apply (proj1 (proj2 (get_triggers_keys_without_markers _))
             (VDict [(KStr "branches", VNone)])).
    reflexivity.
  - apply (proj2 (proj2 (get_triggers_keys_without_markers _))).
    reflexivity.
Defined.

(** C7: whatever the document, an exception raised while the trigger set
    is derived is caught inside the extractor, which then returns the
    empty set; the extractor never raises. *)
Theorem get_triggers_never_raises :
  forall doc,
    (exists s, _get_triggers doc = Ok s) /\
    (forall e,
        triggers_try (py_get doc (KBool true)) [] = Raise e ->
        _get_triggers doc = Ok []).
Proof.
  intros doc. unfold _get_triggers, try_except.
  destruct (triggers_try (py_get doc (KBool true)) []) as [s | e'] eqn:E.
  - split; [now exists s | intros e He; discriminate].
  - split; [now exists [] | reflexivity].
Qed.

Lemma get_triggers_never_raises_witness :
  triggers_try (py_get [(KBool true, VStr "push")] (KBool true)) []
  = Raise (AttributeError "keys")
  /\ _get_triggers [(KBool true, VStr "push")] = Ok [].
Proof.
  split; [reflexivity |].
  apply (proj2 (get_triggers_never_raises [(KBool true, VStr "push")])
           (AttributeError "keys")).
  reflexivity.
Defined.

(** ** The loader *)

Section LoaderFacts.
Context {host : Host} {R : Runner}.

Lemma latest_last results : forall acc docs doc,
  parsed_documents results = docs ++ [doc] ->
  latest_document results acc = Some doc.
Proof.
  induction results as [| [file [[d raw] |]] results IH];
    intros acc docs doc H; cbn in H |- *.
  - now destruct docs.
  - destruct docs as [| d0 docs]; cbn in H.
    + injection H as -> Hnil. clear IH.
      induction results as [| [f [[d' r'] |]] results IH']; cbn in *;
        try discriminate; auto.
    + injection H as -> Hrest. now apply (IH _ docs).
  - now apply (IH _ docs).
Qed.

Lemma load_body_recorded defs file doc raw w defs' w' :
  check_type = GITHUB_ACTIONS ->
  load_body defs (file, Some (doc, raw)) w = Ok (defs', w') ->
  document_metadata doc = Ok (self w').
Proof.
  intros Hgha H. destruct defs as [definitions definitions_raw].
  unfold load_body in H. rewrite Hgha, String.eqb_refl in H.
  destruct doc as [d | l]; [| discriminate].
  unfold bind, lift, get_self, set_self, ret in H. cbn in H |- *.
  destruct (_get_jobs d) as [j | e]; [| discriminate].
  destruct (_get_triggers d) as [t | e]; [| discriminate].
  cbn in H |- *. now injection H as _ <-.
Qed.

Lemma load_loop_recorded results : forall acc defs w defs' w',
  check_type = GITHUB_ACTIONS ->
  on_record acc w ->
  for_eachM load_body results defs w = Ok (defs', w') ->
  on_record (latest_document results acc) w'.
Proof.
  induction results as [| [file result] results IH];
    intros acc defs w defs' w' Hgha Hacc H; cbn [for_eachM] in H.
  - cbn. unfold ret in H. now injection H as _ <-.
  - unfold bind in H.
    destruct (load_body defs (file, result) w) as [[defs1 w1] | e] eqn:E;
      [| discriminate].
    cbn [latest_document fold_left snd].
    apply (IH _ defs1 w1 defs' w' Hgha); [| exact H].
    destruct result as [[doc raw] |].
    + exact (load_body_recorded _ _ _ _ _ _ _ Hgha E).
    + destruct defs. cbn in E. unfold ret in E. now injection E as _ <-.
Qed.

(** C1 (as the code has it): for the GitHub Actions family, once
    [_load_files] has completed on a list of paths of which at least one
    parsed, the recorded run metadata (workflow_name, jobs, triggers) is
    the metadata extracted from the last successfully parsed document
    met in the call: every parsed document overwrites the record. *)
Theorem load_files_records_last_document :
  forall files defs filename_fn w defs' w' docs doc,
    check_type = GITHUB_ACTIONS ->
    _load_files files defs filename_fn w = Ok (defs', w') ->
    parsed_documents
      (run_function (fun f => (f, _parse_file f))
         (map (fun file => match filename_fn with
                           | Some fn => fn file
                           | None => file
                           end) files))
    = docs ++ [doc] ->
    document_metadata doc = Ok (self w').
Proof.
  intros files defs filename_fn w defs' w' docs doc Hgha H Hdocs.
  unfold _load_files, bind, log in H.
  apply (load_loop_recorded _ None) in H; [| exact Hgha | exact I].
  now rewrite (latest_last _ None docs doc Hdocs) in H.
Qed.
End LoaderFacts.

Lemma load_files_records_last_document_witness :
  document_metadata (DocDict Demo.workflow_b)
  = Ok {| workflow_name := VStr "release";
          jobs := Some [(KStr "publish",
                         [(START_LINE, VInt 4); (END_LINE, VInt 8)])];
          triggers := Some [KStr "schedule"] |}.
Proof.
  apply (@load_files_records_last_document Demo.host Demo.runner
           ["a.yml"; "missing.yml"; "b.yml"; "notes.txt"] ([], []) None
           Demo.world
           ([("a.yml", DocDict Demo.workflow_a);
             ("b.yml", DocDict Demo.workflow_b)],
            [("a.yml", Demo.numbered 9); ("b.yml", Demo.numbered 8)])
           {| self := {| workflow_name := VStr "release";
                         jobs := Some [(KStr "publish",
                                        [(START_LINE, VInt 4);
                                         (END_LINE, VInt 8)])];
                         triggers := Some [KStr "schedule"] |};
              registry := [];
              calls := [CallParse ["a.yml"; "missing.yml"; "b.yml";
                                   "notes.txt"]] |}
           [DocDict Demo.workflow_a] (DocDict Demo.workflow_b));
    reflexivity.
Defined.

(** C1, refuted as stated: after a call that parses two workflows the
    record is not the metadata of the first one. *)
Lemma load_files_first_document_overwritten :
  exists defs' w',
    @_load_files Demo.host Demo.runner ["a.yml"; "b.yml"] ([], []) None
      Demo.world = Ok (defs', w')
    /\ parsed_documents
         (@run_function Demo.host
            (fun f => (f, @_parse_file Demo.runner f))
            ["a.yml"; "b.yml"])
       = [DocDict Demo.workflow_a; DocDict Demo.workflow_b]
    /\ workflow_name (self w') = VStr "release"
    /\ document_metadata (DocDict Demo.workflow_a) <> Ok (self w').
Proof.
  eexists. eexists. split; [cbv; reflexivity |].
  split; [reflexivity |].
  split; [reflexivity |].
  cbv. discriminate.
Qed.

(** ** Slices *)

Example slice_middle :
  py_slice [10; 20; 30; 40; 50; 60; 70; 80; 90] 3 7 = [40; 50; 60; 70].
Proof. reflexivity. Qed.

Example slice_from_the_end :
  py_slice [10; 20; 30] (-1) 1 = [] /\ py_slice [10] (-1) 1 = [10]
  /\ py_slice (@nil Z) (-1) 1 = [] /\ py_slice [10; 20; 30] (-2) 5 = [20; 30].
Proof. repeat split. Qed.

(** ** The record builder *)

Lemma record_of_build_record {host : Host} {R : Runner} s file_path raw
  root_folder key result c start end_ :
  record_of (build_record s file_path raw root_folder key result c start end_)
  = {| PyRecord.check_id := Check.id c;
       PyRecord.bc_check_id := Check.bc_id c;
       PyRecord.check_name := Check.name c;
       PyRecord.check_result := result;
       PyRecord.code_block := py_slice raw (start - 1) (end_ + 1);
       PyRecord.file_path := ("/" ++ path_relpath file_path root_folder)%string;
       PyRecord.file_line_range := (start, end_ + 1);
       PyRecord.resource :=
         get_resource file_path key (Check.supported_entities c);
       PyRecord.check_class := Check.class_module c;
       PyRecord.file_abs_path := path_abspath file_path;
       PyRecord.severity := Check.severity c |}.
Proof.
  unfold build_record. now destruct (String.eqb check_type GITHUB_ACTIONS).
Qed.

(** What the loop body does with a result that carries a check. *)
Lemma result_body_checked {host : Host} {R : Runner} s file_path raw
  root_folder report key result c :
  check result = Some c ->
  exists root_folder' result',
    result_body s file_path raw (root_folder, report) (key, result)
    = (root_folder',
       add_record report
         (build_record s file_path raw root_folder' key result' c
            (fst (resolve_start_end (results_configuration result)))
            (snd (resolve_start_end (results_configuration result))))).
Proof.
  intros Hc. unfold result_body, pop_check. rewrite Hc.
  destruct (resolve_start_end (results_configuration result)) as [start end_].
  eexists. eexists. reflexivity.
Qed.

Lemma slice_3_7 {A : Type} (l : list A) :
  (7 <= List.length l)%nat -> py_slice l 3 7 = firstn 4 (skipn 3 l).
Proof.
  intros H. unfold py_slice, slice_bound.
  replace (3 <? 0) with false by reflexivity.
  replace (7 <? 0) with false by reflexivity.
  rewrite !Z.min_l by lia. reflexivity.
Qed.

Lemma lines_between_beyond lo hi (raw : list RawLine) : forall n,
  map fst raw = map Z.of_nat (seq n (List.length raw)) ->
  hi < Z.of_nat n ->
  lines_between lo hi raw = [].
Proof.
  induction raw as [| [i t] raw IH]; intros n H Hn; cbn in *.
  - reflexivity.
  - injection H as -> H.
    replace (Z.of_nat n <=? hi) with false by (symmetry; apply Z.leb_gt; lia).
    rewrite andb_false_r. apply (IH (S n)); [exact H | lia].
Qed.

Lemma lines_4_7_aligned (raw : list RawLine) :
  (7 <= List.length raw)%nat -> index_aligned raw ->
  lines_between 4 7 raw = firstn 4 (skipn 3 raw).
Proof.
  intros Hlen Hal. unfold index_aligned in Hal.
  destruct raw as [| [n1 t1] [| [n2 t2] [| [n3 t3] [| [n4 t4] [| [n5 t5]
    [| [n6 t6] [| [n7 t7] rest]]]]]]]; cbn in Hlen; try lia.
  cbn in Hal.
  injection Hal as -> -> -> -> -> -> -> Hrest.
  cbn [skipn firstn]. unfold lines_between at 1. cbn [filter fst].
  replace (filter _ rest) with (lines_between 4 7 rest) by reflexivity.
  rewrite (lines_between_beyond 4 7 rest 8 Hrest) by lia.
  reflexivity.
Qed.

(** C2 (as the code has it): a result whose resolved start and end lines
    are 4 and 6, in a file of at least 7 raw lines, gives a record whose
    line range is (4, 7) and whose code block is the slice raw[3:7]: the
    raw lines numbered 4 to 7, that is the lines of the line range, with
    one more line after the end and none before the start. *)
Theorem record_for_lines_4_6 {host : Host} {R : Runner} :
  forall s file_path raw root_folder report key result c,
    check result = Some c ->
    resolve_start_end (results_configuration result) = (4, 6) ->
    (7 <= List.length raw)%nat ->
    exists e,
      snd (result_body s file_path raw (root_folder, report) (key, result))
      = add_record report e
      /\ PyRecord.file_line_range (record_of e) = (4, 7)
      /\ PyRecord.code_block (record_of e) = firstn 4 (skipn 3 raw)
      /\ (index_aligned raw ->
          PyRecord.code_block (record_of e) = lines_between 4 7 raw).
Proof.
  intros s file_path raw root_folder report key result c Hc Hse Hlen.
  destruct (result_body_checked s file_path raw root_folder report key
              result c Hc) as (root' & result' & E).
  rewrite E, Hse. cbn [fst snd].
  eexists. split; [reflexivity |].
  rewrite record_of_build_record. cbn.
  rewrite slice_3_7 by exact Hlen.
  repeat split. intros Hal. symmetry. now apply lines_4_7_aligned.
Qed.

Lemma record_for_lines_4_6_witness :
  exists e,
    snd (@result_body Demo.host Demo.runner (self Demo.world) "a.yml"
           (Demo.numbered 9) (None, Report_init GITHUB_ACTIONS)
           ("jobs.compile", Demo.violation []))
    = add_record (Report_init GITHUB_ACTIONS) e
    /\ PyRecord.file_line_range (record_of e) = (4, 7)
    /\ PyRecord.code_block (record_of e)
       = firstn 4 (skipn 3 (Demo.numbered 9))
    /\ (index_aligned (Demo.numbered 9) ->
        PyRecord.code_block (record_of e)
        = lines_between 4 7 (Demo.numbered 9)).
Proof.
  apply (@record_for_lines_4_6 Demo.host Demo.runner (self Demo.world)
           "a.yml" (Demo.numbered 9) None (Report_init GITHUB_ACTIONS)
           "jobs.compile" (Demo.violation []) (Demo.the_check "builtin")).
  - reflexivity.
  - reflexivity.
  - cbn. lia.
Defined.

(** C2, refuted as stated: in a file of nine lines, the code block of a
    violation at lines 4 to 6 starts at line 4; line 3 is not in it. *)
Lemma code_block_lines_4_6_starts_at_4 :
  exists e,
    snd (@result_body Demo.host Demo.runner (self Demo.world) "a.yml"
           (Demo.numbered 9) (None, Report_init GITHUB_ACTIONS)
           ("jobs.compile", Demo.violation []))
    = add_record (Report_init GITHUB_ACTIONS) e
    /\ @resolve_start_end Demo.runner
         (results_configuration (Demo.violation [])) = (4, 6)
    /\ PyRecord.file_line_range (record_of e) = (4, 7)
    /\ PyRecord.code_block (record_of e)
       = [(4, "text"); (5, "text"); (6, "text"); (7, "text")]
    /\ lines_between 3 7 (Demo.numbered 9)
       = [(3, "text"); (4, "text"); (5, "text"); (6, "text"); (7, "text")]
    /\ PyRecord.code_block (record_of e)
       <> lines_between 3 7 (Demo.numbered 9).
Proof.
  eexists. split; [cbv; reflexivity |].
  repeat split; try reflexivity.
  cbv. discriminate.
Qed.

(** C3: a result whose results configuration is absent (a false value)
    resolves to start 0 and end 0; its record has the line range (0, 1) and
    a code block that is empty or is the first raw line, whatever the
    number of raw lines, none included. *)
Theorem record_without_configuration {host : Host} {R : Runner} :
  forall s file_path raw root_folder report key result c,
    check result = Some c ->
    py_truthy (results_configuration result) = false ->
    resolve_start_end (results_configuration result) = (0, 0)
    /\ exists e,
        snd (result_body s file_path raw (root_folder, report) (key, result))
        = add_record report e
        /\ PyRecord.file_line_range (record_of e) = (0, 1)
        /\ PyRecord.code_block (record_of e) = py_slice raw (-1) 1
        /\ (PyRecord.code_block (record_of e) = []
            \/ exists l rest,
                raw = l :: rest /\ PyRecord.code_block (record_of e) = [l]).
Proof.
  intros s file_path raw root_folder report key result c Hc Hcfg.
  assert (Hse : resolve_start_end (results_configuration result) = (0, 0))
    by (unfold resolve_start_end; now rewrite Hcfg).
  split; [exact Hse |].
  destruct (result_body_checked s file_path raw root_folder report key
              result c Hc) as (root' & result' & E).
  rewrite E, Hse. cbn [fst snd].
  eexists. split; [reflexivity |].
  rewrite record_of_build_record. cbn [PyRecord.file_line_range
    PyRecord.code_block]. change (0 - 1) with (-1). change (0 + 1) with 1.
  repeat split.
  destruct raw as [| l [| l' rest]].
  - left. reflexivity.
  - right. exists l, []. split; reflexivity.
  - left. unfold py_slice, slice_bound.
    replace (-1 <? 0) with true by reflexivity.
    replace (1 <? 0) with false by reflexivity.
    match goal with
    | |- firstn (Z.to_nat ?n) _ = _ =>
        replace (Z.to_nat n) with 0%nat by (cbn [List.length]; lia)
    end.
    reflexivity.
Qed.

Lemma record_without_configuration_witness :
  @resolve_start_end Demo.runner VNone = (0, 0)
  /\ exists e,
      snd (@result_body Demo.host Demo.runner (self Demo.world) "a.yml"
             [(1, "on: push")] (None, Report_init GITHUB_ACTIONS)
             ("jobs",
              {| results_configuration := VNone;
                 check := Some (Demo.the_check "builtin");
                 entries := [] |}))
      = add_record (Report_init GITHUB_ACTIONS) e
      /\ PyRecord.file_line_range (record_of e) = (0, 1)
      /\ PyRecord.code_block (record_of e)
         = py_slice [(1, "on: push")] (-1) 1
      /\ (PyRecord.code_block (record_of e) = []
          \/ exists l rest,
              [(1, "on: push")] = l :: rest
              /\ PyRecord.code_block (record_of e) = [l]).
Proof.
  apply (@record_without_configuration Demo.host Demo.runner
           (self Demo.world) "a.yml" [(1, "on: push")] None
           (Report_init GITHUB_ACTIONS) "jobs"
           {| results_configuration := VNone;
              check := Some (Demo.the_check "builtin");
              entries := [] |}
           (Demo.the_check "builtin"));
    reflexivity.
Defined.

(** ** Results without a check *)

Section SkippedResults.
Context {host : Host} {R : Runner}.

Lemma result_body_no_check s file_path raw st key result :
  check result = None ->
  result_body s file_path raw st (key, result) = st.
Proof.
  intros Hc. destruct st as [root_folder report].
  unfold result_body, pop_check. now rewrite Hc.
Qed.

Lemma results_loop_filter s file_path raw results : forall st,
  fold_left (result_body s file_path raw) (filter has_check results) st
  = fold_left (result_body s file_path raw) results st.
Proof.
  induction results as [| [key result] results IH]; intros st.
  - reflexivity.
  - cbn [filter]. unfold has_check at 1. cbn [snd fold_left].
    destruct (check result) as [c |] eqn:Hc.
    + cbn [fold_left]. apply IH.
    + rewrite (result_body_no_check _ _ _ _ _ _ Hc). apply IH.
Qed.

Lemma results_loop_size s file_path raw results : forall st,
  List.length (records (snd (fold_left (result_body s file_path raw)
                               results st)))
  = (List.length (records (snd st))
     + List.length (filter has_check results))%nat.
Proof.
  induction results as [| [key result] results IH]; intros st.
  - cbn. lia.
  - cbn [fold_left filter]. rewrite IH. unfold has_check at 2. cbn [snd].
    destruct (check result) as [c |] eqn:Hc.
    + destruct st as [root_folder report].
      destruct (result_body_checked s file_path raw root_folder report key
                  result c Hc) as (root' & result' & E).
      rewrite E. cbn [snd add_record records List.length].
      rewrite length_app. cbn. lia.
    + now rewrite (result_body_no_check _ _ _ _ _ _ Hc).
Qed.
End SkippedResults.

Lemma bind_ext {Reg A B : Type} (c : M Reg A) (f g : A -> M Reg B) w :
  (forall a w', f a w' = g a w') -> bind c f w = bind c g w.
Proof.
  intros H. unfold bind. destruct (c w) as [[a w'] | e]; auto.
Qed.

Lemma for_eachM_ext {Reg A S : Type} (body1 body2 : S -> A -> M Reg S) l :
  (forall s x w, body1 s x w = body2 s x w) ->
  forall s w, for_eachM body1 l s w = for_eachM body2 l s w.
Proof.
  intros H. induction l as [| x l IH]; intros s w; cbn [for_eachM].
  - reflexivity.
  - unfold bind. rewrite H. destruct (body2 s x w) as [[s' w'] | e]; auto.
Qed.

Lemma scan_file_without_checkless {host : Host} {R : Runner} definitions
  definitions_raw runner_filter st file_path w :
  @scan_file (without_checkless host) R definitions definitions_raw
    runner_filter st file_path w
  = @scan_file host R definitions definitions_raw runner_filter st file_path w.
Proof.
  unfold scan_file, registry_scan, bind, lift, get_registry, get_self, log,
    ret.
  change (@py_relpath (without_checkless host)) with (@py_relpath host).
  destruct (py_relpath file_path (fst st)) as [shown | e]; [| reflexivity].
  destruct (file_getitem definitions_raw file_path) as [raw | e];
    [| reflexivity].
  destruct (file_getitem definitions file_path) as [doc | e];
    [| reflexivity].
  cbn. now rewrite results_loop_filter.
Qed.

Lemma run_without_checkless {host : Host} {R : Runner} root_folder
  external_checks_dir files runner_filter w :
  @run (without_checkless host) R root_folder external_checks_dir files
    runner_filter w
  = @run host R root_folder external_checks_dir files runner_filter w.
Proof.
  unfold run.
  destruct (negb (truthy_list files) && negb (truthy_str root_folder));
    [reflexivity |].
  destruct (negb (truthy_list external_checks_dir) && require_external_checks);
    [reflexivity |].
  apply bind_ext. intros _ w1.
  apply bind_ext. intros defs1 w2.
  apply bind_ext. intros [definitions definitions_raw] w3.
  unfold bind.
  rewrite (for_eachM_ext
             (@scan_file (without_checkless host) R definitions definitions_raw
                match runner_filter with
                | Some f => f
                | None => RunnerFilter_init
                end)
             (@scan_file host R definitions definitions_raw
                match runner_filter with
                | Some f => f
                | None => RunnerFilter_init
                end)).
  - reflexivity.
  - intros. apply scan_file_without_checkless.
Qed.

(** C5: a scan result without a check adds no record and changes nothing:
    the loop over the results of a file ends in the same state with or
    without it, the report grows by one record for each other result, and
    a whole run returns the same outcome when the registry leaves such
    results out of its scans. *)
Theorem results_without_check_are_skipped {host : Host} {R : Runner} :
  forall s file_path raw st key result before after,
    check result = None ->
    result_body s file_path raw st (key, result) = st
    /\ fold_left (result_body s file_path raw)
         (before ++ (key, result) :: after) st
       = fold_left (result_body s file_path raw) (before ++ after) st
    /\ List.length
         (records (snd (fold_left (result_body s file_path raw)
                          (before ++ (key, result) :: after) st)))
       = (List.length (records (snd st))
          + List.length (filter has_check (before ++ after)))%nat
    /\ forall root_folder external_checks_dir files runner_filter w,
        @run (without_checkless host) R root_folder external_checks_dir
          files runner_filter w
        = @run host R root_folder external_checks_dir files runner_filter w.
Proof.
  intros s file_path raw st key result before after Hc.
  assert (Hloop :
            fold_left (result_body s file_path raw)
              (before ++ (key, result) :: after) st
            = fold_left (result_body s file_path raw) (before ++ after) st).
  { rewrite !fold_left_app. cbn [fold_left].
    now rewrite (result_body_no_check _ _ _ _ _ _ Hc). }
  split; [exact (result_body_no_check _ _ _ _ _ _ Hc) |].
  split; [exact Hloop |].
  split; [rewrite Hloop; apply results_loop_size |].
  intros. apply run_without_checkless.
Qed.

Lemma results_without_check_are_skipped_witness :
  List.length
    (records
       (snd (fold_left
               (@result_body Demo.host Demo.runner (self Demo.world) "a.yml"
                  (Demo.numbered 9))
               ([("jobs.compile", Demo.violation [])]
                ++ ("jobs.lost", Demo.no_check)
                   :: [("jobs.test", Demo.violation [])])
               (None, Report_init GITHUB_ACTIONS))))
  = 2%nat.
Proof.
  apply (proj1 (proj2 (proj2
           (@results_without_check_are_skipped Demo.host Demo.runner
              (self Demo.world) "a.yml" (Demo.numbered 9)
              (None, Report_init GITHUB_ACTIONS) "jobs.lost" Demo.no_check
              [("jobs.compile", Demo.violation [])]
              [("jobs.test", Demo.violation [])] eq_refl)))).
Defined.

(** ** The entry point *)

(** C8: called with neither a root folder nor files, or by a runner that
    requires external checks with no directory of them, [run] returns the
    empty report of its check type and leaves the world as it was: no file
    is parsed, no external check loaded, nothing scanned. *)
Theorem run_nothing_to_scan {host : Host} {R : Runner} :
  forall root_folder external_checks_dir files runner_filter w,
    (truthy_list files = false /\ truthy_str root_folder = false)
    \/ (truthy_list external_checks_dir = false
        /\ require_external_checks = true) ->
    run root_folder external_checks_dir files runner_filter w
    = Ok (Report_init check_type, w)
    /\ records (Report_init check_type) = [].
Proof.
  intros root_folder external_checks_dir files runner_filter w H.
  split; [| reflexivity]. unfold run.
  destruct H as [[Hf Hr] | [He Hq]].
  - now rewrite Hf, Hr.
  - rewrite He, Hq. cbn [negb andb].
    now destruct (negb (truthy_list files) && negb (truthy_str root_folder)).
Qed.

Lemma run_nothing_to_scan_witness :
  (@run Demo.host Demo.runner None (Some ["ext"]) (Some []) None Demo.world
   = Ok (Report_init GITHUB_ACTIONS, Demo.world)
   /\ records (Report_init GITHUB_ACTIONS) = [])
  /\
  (@run Demo.host Demo.runner (Some "wf") None (Some ["a.yml"]) None
     Demo.world
   = Ok (Report_init GITHUB_ACTIONS, Demo.world)
   /\ records (Report_init GITHUB_ACTIONS) = []).
Proof.
  split.
  - apply (@run_nothing_to_scan Demo.host Demo.runner None (Some ["ext"])
             (Some []) None Demo.world).
    left. split; reflexivity.
  - apply (@run_nothing_to_scan Demo.host Demo.runner (Some "wf") None
             (Some ["a.yml"]) None Demo.world).
    right. split; reflexivity.
Defined.

(** ** Running twice *)

Section RunTwice.
Context {host : Host} {R : Runner}.

Lemma agree_bind {A B : Type} (Q : A -> World Reg -> World Reg -> Prop)
  (Q' : B -> World Reg -> World Reg -> Prop) (c : M Reg A)
  (f : A -> M Reg B) w1 w2 :
  agree Q (c w1) (c w2) ->
  (forall a v1 v2, Q a v1 v2 -> agree Q' (f a v1) (f a v2)) ->
  agree Q' (bind c f w1) (bind c f w2).
Proof.
  intros Hc Hf. unfold bind.
  destruct (c w1) as [[a1 v1] | e1], (c w2) as [[a2 v2] | e2]; cbn in Hc;
    try contradiction.
  - destruct Hc as [<- HQ]. now apply Hf.
  - exact Hc.
Qed.

Lemma agree_for_eachM {A S : Type} (Q : S -> World Reg -> World Reg -> Prop)
  (body : S -> A -> M Reg S) l :
  (forall s x w1 w2, Q s w1 w2 -> agree Q (body s x w1) (body s x w2)) ->
  forall s w1 w2, Q s w1 w2 ->
    agree Q (for_eachM body l s w1) (for_eachM body l s w2).
Proof.
  intros Hbody. induction l as [| x l IH]; intros s w1 w2 HQ;
    cbn [for_eachM].
  - cbn. auto.
  - apply (agree_bind Q Q); auto.
Qed.

Lemma load_body_alike defs item w1 w2 :
  alike defs w1 w2 ->
  agree alike (load_body defs item w1) (load_body defs item w2).
Proof.
  intros [Hscan Hself]. destruct defs as [definitions definitions_raw].
  destruct item as [file [[doc raw] |]]; unfold load_body.
  - destruct (String.eqb check_type GITHUB_ACTIONS) eqn:Hgha.
    + destruct doc as [d | l]; [| reflexivity].
      unfold bind, lift, get_self, set_self, ret. cbn.
      destruct (_get_jobs d) as [j | e]; [| reflexivity].
      destruct (_get_triggers d) as [t | e]; [| reflexivity].
      cbn. split; [reflexivity |]. split; [exact Hscan |].
      intros _. now right.
    + cbn. split; [reflexivity |]. split; [exact Hscan |].
      rewrite Hgha. discriminate.
  - cbn. split; [reflexivity |]. now split.
Qed.

Lemma load_files_alike files defs filename_fn w1 w2 :
  alike defs w1 w2 ->
  agree alike (_load_files files defs filename_fn w1)
    (_load_files files defs filename_fn w2).
Proof.
  intros H. unfold _load_files.
  apply (agree_bind (fun _ => alike defs) alike).
  - cbn. split; [reflexivity | exact H].
  - intros _ v1 v2 Hv.
    now apply agree_for_eachM; [intros; apply load_body_alike |].
Qed.

Lemma build_record_self s1 s2 file_path raw root_folder key result c
  start end_ :
  String.eqb check_type GITHUB_ACTIONS = false ->
  build_record s1 file_path raw root_folder key result c start end_
  = build_record s2 file_path raw root_folder key result c start end_.
Proof. intros H. unfold build_record. now rewrite H. Qed.

Lemma results_loop_self s1 s2 file_path raw results :
  String.eqb check_type GITHUB_ACTIONS = false ->
  forall st,
    fold_left (result_body s1 file_path raw) results st
    = fold_left (result_body s2 file_path raw) results st.
Proof.
  intros H. induction results as [| [key result] results IH]; intros st.
  - reflexivity.
  - cbn [fold_left]. rewrite IH. f_equal.
    destruct st as [root_folder report]. unfold result_body, pop_check.
    destruct (check result) as [c |]; [| reflexivity].
    destruct (resolve_start_end (results_configuration result)).
    now rewrite (build_record_self s1 s2).
Qed.

Lemma scan_file_alike definitions definitions_raw runner_filter st file_path
  w1 w2 :
  alike (definitions, definitions_raw) w1 w2 ->
  agree (fun _ => alike (definitions, definitions_raw))
    (scan_file definitions definitions_raw runner_filter st file_path w1)
    (scan_file definitions definitions_raw runner_filter st file_path w2).
Proof.
  intros [Hscan Hself].
  unfold scan_file, registry_scan, bind, lift, get_registry, get_self, log,
    ret.
  destruct (py_relpath file_path (fst st)) as [shown | e]; [| reflexivity].
  destruct (file_getitem definitions_raw file_path) as [raw | e];
    [| reflexivity].
  destruct (file_getitem definitions file_path) as [doc | e] eqn:Hdoc;
    [| reflexivity].
  cbn. rewrite Hscan. split; [| now split].
  destruct (String.eqb check_type GITHUB_ACTIONS) eqn:Hgha.
  - destruct (Hself eq_refl) as [Hnil | ->]; [| reflexivity].
    cbn in Hnil. subst definitions. discriminate.
  - now apply results_loop_self.
Qed.

Lemma load_external_run dirs : forall (w : World Reg),
  for_eachM
    (fun (_ : unit) directory => registry_load_external_checks directory)
    dirs tt w
  = Ok (tt, {| self := self w;
               registry := fold_left load_external_checks dirs (registry w);
               calls := calls w ++ map CallLoadExternalChecks dirs |}).
Proof.
  induction dirs as [| d dirs IH]; intros w; cbn [for_eachM].
  - cbn. rewrite app_nil_r. now destruct w.
  - unfold bind at 1. cbn. rewrite IH. cbn. now rewrite <- app_assoc.
Qed.

(** The outcome of a run depends on the world only through the scans of
    the registry the run ends up with. *)
Lemma run_alike root_folder external_checks_dir files runner_filter w1 w2 :
  scan_equiv (registry_for_run external_checks_dir (registry w1))
    (registry_for_run external_checks_dir (registry w2)) ->
  agree (fun _ _ _ => True)
    (run root_folder external_checks_dir files runner_filter w1)
    (run root_folder external_checks_dir files runner_filter w2).
Proof.
  intros Hreg. unfold run.
  destruct (negb (truthy_list files) && negb (truthy_str root_folder));
    [now cbn |].
  destruct (negb (truthy_list external_checks_dir) && require_external_checks);
    [now cbn |].
  apply (agree_bind (fun _ => alike ([], []))).
  { unfold registry_for_run in Hreg.
    destruct (truthy_list external_checks_dir).
    - rewrite !load_external_run. cbn.
      split; [reflexivity |]. split; [exact Hreg | now left].
    - cbn. split; [reflexivity |]. split; [exact Hreg | now left]. }
  intros _ v1 v2 Hv.
  apply (agree_bind alike).
  { destruct (truthy_list files).
    - now apply load_files_alike.
    - cbn. now split. }
  clear v1 v2 Hv. intros defs v1 v2 Hv.
  apply (agree_bind alike).
  { destruct (truthy_str root_folder).
    - apply agree_for_eachM; [| exact Hv].
      intros s [root f_names] u1 u2 Hu. now apply load_files_alike.
    - cbn. now split. }
  clear defs v1 v2 Hv. intros [definitions definitions_raw] v1 v2 Hv.
  apply (agree_bind (fun _ => alike (definitions, definitions_raw))).
  { apply agree_for_eachM; [| exact Hv].
    intros. now apply scan_file_alike. }
  intros st u1 u2 _. cbn. now split.
Qed.

(** C10: when a run has returned a report, running again on the same
    inputs, from the world the first run left, with a registry that still
    scans as it did, returns a report with the same multiset of
    (check_id, resource, line range) triples. *)
Theorem run_twice_same_findings :
  forall root_folder external_checks_dir files runner_filter w0 report1 w1,
    run root_folder external_checks_dir files runner_filter w0
    = Ok (report1, w1) ->
    scan_equiv (registry_for_run external_checks_dir (registry w1))
      (registry_for_run external_checks_dir (registry w0)) ->
    exists report2 w2,
      run root_folder external_checks_dir files runner_filter w1
      = Ok (report2, w2)
      /\ Permutation (map finding_triple (records report1))
           (map finding_triple (records report2)).
Proof.
  intros root_folder external_checks_dir files runner_filter w0 report1 w1
    Hrun Hreg.
  pose proof (run_alike root_folder external_checks_dir files runner_filter
                w1 w0 Hreg) as H.
  rewrite Hrun in H.
  destruct (run root_folder external_checks_dir files runner_filter w1)
    as [[report2 w2] | e]; cbn in H; [| contradiction].
  destruct H as [-> _]. exists report1, w2. split; [reflexivity |].
  apply Permutation_refl.
Qed.
End RunTwice.

(** A run that gets past the two guards does call out: here it loads the
    external checks, parses twice and scans the three files it loaded. *)
Example first_run_calls :
  Demo.first_run = Ok (Demo.first_report, Demo.first_world)
  /\ calls Demo.first_world
     = [CallLoadExternalChecks "ext"; CallParse ["a.yml"; "b.yml"];
        CallParse ["wf/a.yml"; "wf/notes.txt"]; CallScan "a.yml";
        CallScan "b.yml"; CallScan "wf/a.yml"]
  /\ map finding_triple (records Demo.first_report)
     = [("CKV_GHA_1", "a.yml.jobs.compile", (4, 7));
        ("CKV_GHA_1", "b.yml.jobs.compile", (4, 7));
        ("CKV_GHA_1", "wf/a.yml.jobs.compile", (4, 7))].
Proof. repeat split. Qed.

Lemma run_twice_same_findings_witness :
  exists report2 w2,
    @run Demo.host Demo.runner (Some "wf") (Some ["ext"])
      (Some ["a.yml"; "b.yml"]) None Demo.first_world
    = Ok (report2, w2)
    /\ Permutation (map finding_triple (records Demo.first_report))
         (map finding_triple (records report2)).
Proof.
  apply (@run_twice_same_findings Demo.host Demo.runner (Some "wf")
           (Some ["ext"]) (Some ["a.yml"; "b.yml"]) None Demo.world
           Demo.first_report Demo.first_world).
  - vm_compute. reflexivity.
  - intros file_path doc skipped_checks runner_filter. reflexivity.
Defined.

(** * Further properties of the runner *)

(** ** Code blocks *)

Lemma firstn_seq n : forall a m, firstn n (seq a m) = seq a (Nat.min n m).
Proof.
  induction n as [| n IH]; intros a m.
  - reflexivity.
  - destruct m as [| m]; [reflexivity |]. cbn. now rewrite IH.
Qed.

Lemma py_slice_contiguous {A : Type} (l : list A) start stop :
  exists before after, l = before ++ py_slice l start stop ++ after.
Proof.
  unfold py_slice.
  set (lo := Z.to_nat (slice_bound (Z.of_nat (List.length l)) start)).
  set (n := Z.to_nat (slice_bound (Z.of_nat (List.length l)) stop
                      - slice_bound (Z.of_nat (List.length l)) start)).
  exists (firstn lo l), (skipn n (skipn lo l)).
  now rewrite (firstn_skipn n (skipn lo l)), (firstn_skipn lo l).
Qed.

Lemma py_slice_inside {A : Type} (l : list A) start stop :
  1 <= start -> start <= stop + 1 -> stop <= Z.of_nat (List.length l) ->
  py_slice l (start - 1) stop
  = firstn (Z.to_nat (stop + 1 - start)) (skipn (Z.to_nat (start - 1)) l).
Proof.
  intros H1 H2 H3. unfold py_slice, slice_bound.
  replace (start - 1 <? 0) with false by (symmetry; apply Z.ltb_ge; lia).
  replace (stop <? 0) with false by (symmetry; apply Z.ltb_ge; lia).
  rewrite !Z.min_l by lia. f_equal. lia.
Qed.

Lemma py_slice_clipped {A : Type} (l : list A) start stop :
  1 <= start -> Z.of_nat (List.length l) <= stop ->
  py_slice l (start - 1) stop = skipn (Z.to_nat (start - 1)) l.
Proof.
  intros H1 H2. unfold py_slice, slice_bound.
  replace (start - 1 <? 0) with false by (symmetry; apply Z.ltb_ge; lia).
  replace (stop <? 0) with false by (symmetry; apply Z.ltb_ge; lia).
  rewrite (Z.min_r stop) by lia.
  destruct (Z.le_gt_cases (start - 1) (Z.of_nat (List.length l)))
    as [Hle | Hgt].
  - rewrite Z.min_l by lia. apply firstn_all2. rewrite length_skipn. lia.
  - rewrite Z.min_r by lia. rewrite !skipn_all2 by lia. apply firstn_nil.
Qed.

Section CodeBlocks.
Context {host : Host} {R : Runner}.

(** Whatever start and end a runner resolves (zero, negative, reversed or
    beyond the file), the code block of a record is a run of consecutive
    raw lines of the file: the slice is clamped, it never fails. *)
Theorem code_block_contiguous :
  forall s file_path raw root_folder key result c start end_,
  exists before after,
    raw = before
          ++ PyRecord.code_block
               (record_of (build_record s file_path raw root_folder key
                             result c start end_))
          ++ after.
Proof.
  intros. rewrite record_of_build_record. cbn [PyRecord.code_block].
  apply py_slice_contiguous.
Qed.

(** When the line range of a record lies inside an index-aligned file
    (1 <= start, end + 1 <= number of lines), the code block holds exactly
    the lines numbered from the first to the last line of
    [file_line_range]: [start] up to and including [end + 1]. *)
Theorem code_block_is_line_range :
  forall s file_path raw root_folder key result c start end_,
    index_aligned raw ->
    1 <= start -> start <= end_ + 2 ->
    end_ + 1 <= Z.of_nat (List.length raw) ->
    let record := record_of (build_record s file_path raw root_folder key
                               result c start end_) in
    map fst (PyRecord.code_block record)
    = line_numbers (fst (PyRecord.file_line_range record))
        (snd (PyRecord.file_line_range record))
    /\ List.length (PyRecord.code_block record) = Z.to_nat (end_ + 2 - start).
Proof.
  intros s file_path raw root_folder key result c start end_ Hal H1 H2 H3.
  cbv zeta. rewrite record_of_build_record.
  cbn [PyRecord.code_block PyRecord.file_line_range fst snd].
  rewrite py_slice_inside by lia. unfold RawLine in *.
  assert (Hn : map fst
                 (firstn (Z.to_nat (end_ + 1 + 1 - start))
                    (skipn (Z.to_nat (start - 1)) raw))
               = line_numbers start (end_ + 1)).
  { rewrite <- firstn_map, <- skipn_map. unfold index_aligned in Hal.
    rewrite Hal, skipn_map, firstn_map, skipn_seq, firstn_seq.
    unfold line_numbers. f_equal. f_equal; unfold RawLine in *; lia. }
  split; [exact Hn |].
  rewrite <- (length_map fst), Hn. unfold line_numbers.
  rewrite length_map, length_seq. lia.
Qed.

(** A line range that runs past the last raw line is clipped: for
    1 <= start and end + 1 at or beyond the number of raw lines, the code
    block is the file from line [start] to its last line (empty when
    [start] is beyond the file too). *)
Theorem code_block_clipped_at_end :
  forall s file_path raw root_folder key result c start end_,
    1 <= start -> Z.of_nat (List.length raw) <= end_ + 1 ->
    PyRecord.code_block
      (record_of (build_record s file_path raw root_folder key result c
                    start end_))
    = skipn (Z.to_nat (start - 1)) raw.
Proof.
  intros s file_path raw root_folder key result c start end_ H1 H2.
  rewrite record_of_build_record. cbn [PyRecord.code_block].
  now apply py_slice_clipped.
Qed.

(** With start 0 the lower bound of the slice is -1, which Python counts
    from the end of the file: the code block is then empty, unless the
    range reaches the end of the file, and in that case it is the last
    raw line alone. *)
Theorem code_block_start_zero :
  forall s file_path raw root_folder key result c end_,
    0 <= end_ ->
    let block := PyRecord.code_block
                   (record_of (build_record s file_path raw root_folder key
                                 result c 0 end_)) in
    (end_ + 1 < Z.of_nat (List.length raw) -> block = [])
    /\ (Z.of_nat (List.length raw) <= end_ + 1 ->
        block = skipn (List.length raw - 1) raw).
Proof.
  intros s file_path raw root_folder key result c end_ He. cbv zeta.
  rewrite record_of_build_record. cbn [PyRecord.code_block].
  change (0 - 1) with (-1). unfold py_slice, slice_bound.
  replace (-1 <? 0) with true by reflexivity.
  replace (end_ + 1 <? 0) with false by (symmetry; apply Z.ltb_ge; lia).
  split; intros H.
  - match goal with
    | |- firstn (Z.to_nat ?n) _ = _ =>
        replace (Z.to_nat n) with 0%nat by lia
    end.
    reflexivity.
  - destruct raw as [| l raw]; [cbn; apply firstn_nil |].
    replace (Z.to_nat (Z.max 0 (-1 + Z.of_nat (List.length (l :: raw)))))
      with (List.length (l :: raw) - 1)%nat by (cbn [List.length]; lia).
    apply firstn_all2. rewrite length_skipn. cbn [List.length] in *. lia.
Qed.
End CodeBlocks.

Lemma code_block_is_line_range_witness :
  map fst
    (PyRecord.code_block
       (record_of (@build_record Demo.host Demo.runner (self Demo.world)
                     "a.yml" (Demo.numbered 9) None "jobs.compile"
                     (Demo.violation []) (Demo.the_check "builtin") 2 5)))
  = [2; 3; 4; 5; 6].
Proof.
  apply (proj1 (@code_block_is_line_range Demo.host Demo.runner
                  (self Demo.world) "a.yml" (Demo.numbered 9) None
                  "jobs.compile" (Demo.violation [])
                  (Demo.the_check "builtin") 2 5 eq_refl
                  ltac:(lia) ltac:(lia) ltac:(cbn; lia))).
Defined.

Lemma code_block_clipped_at_end_witness :
  PyRecord.code_block
    (record_of (@build_record Demo.host Demo.runner (self Demo.world)
                  "a.yml" (Demo.numbered 9) None "jobs.compile"
                  (Demo.violation []) (Demo.the_check "builtin") 8 20))
  = [(8, "text"); (9, "text")].
Proof.
  apply (@code_block_clipped_at_end Demo.host Demo.runner (self Demo.world)
           "a.yml" (Demo.numbered 9) None "jobs.compile" (Demo.violation [])
           (Demo.the_check "builtin") 8 20 ltac:(lia) ltac:(cbn; lia)).
Defined.

Lemma code_block_start_zero_witness :
  PyRecord.code_block
    (record_of (@build_record Demo.host Demo.runner (self Demo.world)
                  "a.yml" (Demo.numbered 9) None "jobs.compile"
                  (Demo.violation []) (Demo.the_check "builtin") 0 3))
  = []
  /\ PyRecord.code_block
       (record_of (@build_record Demo.host Demo.runner (self Demo.world)
                     "a.yml" (Demo.numbered 9) None "jobs.compile"
                     (Demo.violation []) (Demo.the_check "builtin") 0 8))
     = [(9, "text")].
Proof.
  split.
  - apply (proj1 (@code_block_start_zero Demo.host Demo.runner
                    (self Demo.world) "a.yml" (Demo.numbered 9) None
                    "jobs.compile" (Demo.violation [])
                    (Demo.the_check "builtin") 3 ltac:(lia))).
    cbn. lia.
  - apply (proj2 (@code_block_start_zero Demo.host Demo.runner
                    (self Demo.world) "a.yml" (Demo.numbered 9) None
                    "jobs.compile" (Demo.violation [])
                    (Demo.the_check "builtin") 8 ltac:(lia))).
    cbn. lia.
Defined.

(** ** The loop over the results of a file *)

Section ResultsLoop.
Context {host : Host} {R : Runner}.

Lemma display_root_idem file_path root_folder :
  display_root file_path (display_root file_path root_folder)
  = display_root file_path root_folder.
Proof.
  unfold display_root. now destruct (String.eqb platform_system "Windows").
Qed.

Lemma finding_of_display s file_path raw r1 r2 item :
  display_root file_path r1 = display_root file_path r2 ->
  finding_of s file_path raw r1 item = finding_of s file_path raw r2 item.
Proof. intros H. unfold finding_of. now rewrite H. Qed.

Lemma result_body_closed s file_path raw root_folder report item :
  result_body s file_path raw (root_folder, report) item
  = (if has_check item then display_root file_path root_folder
     else root_folder,
     {| report_check_type := report_check_type report;
        records := records report
                   ++ finding_of s file_path raw root_folder item |}).
Proof.
  destruct item as [key result]. unfold result_body, finding_of, has_check.
  cbn [fst snd pop_check].
  destruct (check result) as [c |].
  - destruct (resolve_start_end (results_configuration result)).
    reflexivity.
  - rewrite app_nil_r. now destruct report.
Qed.

Lemma results_loop_records :
  forall s file_path raw results root_folder report,
    fold_left (result_body s file_path raw) results (root_folder, report)
    = (if existsb has_check results
       then display_root file_path root_folder else root_folder,
       {| report_check_type := report_check_type report;
          records := records report
                     ++ flat_map (finding_of s file_path raw root_folder)
                          results |}).
Proof.
  intros s file_path raw results.
  induction results as [| item results IH]; intros root_folder report.
  - cbn. rewrite app_nil_r. now destruct report.
  - cbn [fold_left existsb flat_map].
    rewrite result_body_closed, IH. cbn [report_check_type records].
    rewrite <- app_assoc. destruct (has_check item); cbn [orb].
    + rewrite display_root_idem.
      rewrite (flat_map_ext _ _
                 (fun item => finding_of_display s file_path raw _ _ item
                                (display_root_idem file_path root_folder))).
      now destruct (existsb has_check results).
    + reflexivity.
Qed.

(** The loop over the scan results of one file adds to the report, in
    the order of the results, one record for each result that carries a
    check and nothing else; all these records are displayed against the
    same folder.  The [root_folder] it hands on is the one it received,
    except on Windows once a record was added: then it is the folder of
    the file. *)
Theorem results_loop_closed_form :
  forall s file_path raw results root_folder report,
    fold_left (result_body s file_path raw) results (root_folder, report)
    = (if existsb has_check results
       then display_root file_path root_folder else root_folder,
       {| report_check_type := report_check_type report;
          records := records report
                     ++ flat_map (finding_of s file_path raw root_folder)
                          results |}).
Proof. exact results_loop_records. Qed.
End ResultsLoop.

(** ** The loop over the loaded files *)

Section ScanLoop.
Context {host : Host} {R : Runner}.

Lemma scan_file_run definitions definitions_raw runner_filter st file_path
  (w : World Reg) :
  scan_file definitions definitions_raw runner_filter st file_path w
  = match path_relpath_error file_path (fst st) with
    | Some msg => Raise (ValueError msg)
    | None =>
        match dict_lookup String.eqb definitions_raw file_path,
              dict_lookup String.eqb definitions file_path with
        | Some raw, Some doc =>
            Ok (fold_left (result_body (self w) file_path raw)
                  (scan (registry w) file_path doc
                     (collect_suppressions_for_context raw) runner_filter) st,
                {| self := self w; registry := registry w;
                   calls := calls w ++ [CallScan file_path] |})
        | _, _ => Raise (KeyError (KStr file_path))
        end
    end.
Proof.
  unfold scan_file, registry_scan, bind, lift, get_registry, get_self, log,
    ret, file_getitem, py_relpath.
  destruct (path_relpath_error file_path (fst st)) as [msg |];
    [reflexivity |].
  destruct (dict_lookup String.eqb definitions_raw file_path) as [raw |];
    [| reflexivity].
  now destruct (dict_lookup String.eqb definitions file_path) as [doc |].
Qed.

Lemma scan_loop_general definitions definitions_raw runner_filter root0 files :
  forall r report (w : World Reg) r' report' w',
    (forall f, display_root f r = display_root f root0) ->
    for_eachM (scan_file definitions definitions_raw runner_filter) files
      (r, report) w = Ok ((r', report'), w') ->
    records report'
    = records report
      ++ flat_map (file_findings (self w) (registry w) definitions
                     definitions_raw runner_filter root0) files
    /\ report_check_type report' = report_check_type report
    /\ self w' = self w /\ registry w' = registry w
    /\ calls w' = calls w ++ map CallScan files.
Proof.
  induction files as [| f files IH]; intros r report w r' report' w' Hr H;
    cbn [for_eachM] in H.
  - injection H as _ <- <-. cbn. now rewrite !app_nil_r.
  - unfold bind in H. rewrite scan_file_run in H.
    cbn [flat_map map]. unfold file_findings at 1.
    destruct (path_relpath_error f (fst (r, report))) as [msg |];
      [discriminate |].
    destruct (dict_lookup String.eqb definitions_raw f) as [raw |];
      [| discriminate].
    destruct (dict_lookup String.eqb definitions f) as [doc |];
      [| discriminate].
    rewrite results_loop_records in H.
    apply IH in H.
    + cbn [self registry calls records report_check_type] in H.
      destruct H as (Hrec & Htag & Hself & Hreg & Hcalls).
      rewrite Hrec, Htag, Hself, Hreg, Hcalls, <- !app_assoc.
      repeat split.
      f_equal. f_equal. apply flat_map_ext. intros item.
      apply finding_of_display, Hr.
    + intros f'. destruct (existsb has_check _); [| apply Hr].
      unfold display_root in *. specialize (Hr f').
      now destruct (String.eqb platform_system "Windows").
Qed.

(** When the loop over the loaded files completes, the report holds, after
    what it held, the records of each file in the order of the files and,
    for a file, in the order of its scan results; every record is
    displayed against [root_folder] (on Windows: against the folder of its
    own file).  The loop scans each file once, in order, and leaves the
    runner and the registry as they were. *)
Theorem scan_loop_report :
  forall definitions definitions_raw runner_filter files root_folder report
         (w : World Reg) root_folder' report' w',
    for_eachM (scan_file definitions definitions_raw runner_filter) files
      (root_folder, report) w = Ok ((root_folder', report'), w') ->
    records report'
    = records report
      ++ flat_map (file_findings (self w) (registry w) definitions
                     definitions_raw runner_filter root_folder) files
    /\ report_check_type report' = report_check_type report
    /\ self w' = self w /\ registry w' = registry w
    /\ calls w' = calls w ++ map CallScan files.
Proof.
  intros definitions definitions_raw runner_filter files root_folder report
    w root_folder' report' w' H.
  now apply (scan_loop_general _ _ _ root_folder) in H.
Qed.

Lemma scan_loop_completion :
  String.eqb platform_system "Windows" = false ->
  forall definitions definitions_raw runner_filter files root_folder report
         (w : World Reg),
    (exists st' w',
        for_eachM (scan_file definitions definitions_raw runner_filter)
          files (root_folder, report) w = Ok (st', w'))
    <-> Forall (fun f =>
                  path_relpath_error f root_folder = None
                  /\ dict_lookup String.eqb definitions_raw f <> None
                  /\ dict_lookup String.eqb definitions f <> None) files.
Proof.
  intros Hw definitions definitions_raw runner_filter files root_folder.
  induction files as [| f files IH]; intros report w; cbn [for_eachM].
  - split; [constructor | intros _; now exists (root_folder, report), w].
  - unfold bind. rewrite scan_file_run. cbn [fst].
    destruct (path_relpath_error f root_folder) as [msg |] eqn:Ep.
    + split.
      * intros (st' & w' & H). discriminate.
      * intros H. inversion H as [| ? ? [Hp _] _]. congruence.
    + destruct (dict_lookup String.eqb definitions_raw f) as [raw |] eqn:Er.
      * destruct (dict_lookup String.eqb definitions f) as [doc |] eqn:Ed.
        -- rewrite results_loop_records.
           replace (if existsb has_check
                         (scan (registry w) f doc
                            (collect_suppressions_for_context raw)
                            runner_filter)
                    then display_root f root_folder else root_folder)
             with root_folder
             by (unfold display_root; rewrite Hw;
                 now destruct (existsb has_check _)).
           rewrite IH. split.
           ++ intros H. constructor; [| exact H].
              rewrite Er, Ed. repeat split; try discriminate. exact Ep.
           ++ intros H. now inversion H.
        -- split.
           ++ intros (st' & w' & H). discriminate.
           ++ intros H. inversion H as [| ? ? (_ & _ & Hd) _].
              now contradiction Hd.
      * split.
        -- intros (st' & w' & H). discriminate.
        -- intros H. inversion H as [| ? ? (_ & Hr & _) _].
           now contradiction Hr.
Qed.

Lemma scan_loop_raises definitions definitions_raw runner_filter files :
  forall st (w : World Reg) e,
    for_eachM (scan_file definitions definitions_raw runner_filter)
      files st w = Raise e ->
    (exists f r msg,
        In f files /\ path_relpath_error f r = Some msg
        /\ e = ValueError msg)
    \/ (exists f,
          In f files /\ e = KeyError (KStr f)
          /\ (dict_lookup String.eqb definitions_raw f = None
              \/ dict_lookup String.eqb definitions f = None)).
Proof.
  induction files as [| f files IH]; intros st w e H; cbn [for_eachM] in H.
  - discriminate H.
  - unfold bind in H. rewrite scan_file_run in H.
    destruct (path_relpath_error f (fst st)) as [msg |] eqn:Ep.
    + injection H as <-. left. exists f, (fst st), msg.
      repeat split; [now left | exact Ep].
    + destruct (dict_lookup String.eqb definitions_raw f) as [raw |] eqn:Er.
      * destruct (dict_lookup String.eqb definitions f) as [doc |] eqn:Ed.
        -- apply IH in H.
           destruct H as [(f' & r & msg & Hin & Hp & He)
                         | (f' & Hin & He & Hl)].
           ++ left. exists f', r, msg. repeat split; [now right | | ]; assumption.
           ++ right. exists f'. repeat split; [now right | | ]; assumption.
        -- injection H as <-. right. exists f.
           repeat split; [now left | now right].
      * injection H as <-. right. exists f.
        repeat split; [now left | now left].
Qed.

(** On a host other than Windows the loop over the loaded files
    completes exactly when, for every file it is given,
    [os.path.relpath(file_path, root_folder)] returns and the file has an
    entry in both associations.  Otherwise it raises the [ValueError] of
    [os.path.relpath] on one of the files or the [KeyError] of a file that
    one of the associations lacks. *)
Theorem scan_loop_completes_iff :
  String.eqb platform_system "Windows" = false ->
  forall definitions definitions_raw runner_filter files root_folder report
         (w : World Reg),
    ((exists st' w',
         for_eachM (scan_file definitions definitions_raw runner_filter)
           files (root_folder, report) w = Ok (st', w'))
     <-> Forall (fun f =>
                   path_relpath_error f root_folder = None
                   /\ dict_lookup String.eqb definitions_raw f <> None
                   /\ dict_lookup String.eqb definitions f <> None) files)
    /\ forall e,
        for_eachM (scan_file definitions definitions_raw runner_filter)
          files (root_folder, report) w = Raise e ->
        (exists f r msg,
            In f files /\ path_relpath_error f r = Some msg
            /\ e = ValueError msg)
        \/ (exists f,
              In f files /\ e = KeyError (KStr f)
              /\ (dict_lookup String.eqb definitions_raw f = None
                  \/ dict_lookup String.eqb definitions f = None)).
Proof.
  intros Hw definitions definitions_raw runner_filter files root_folder
    report w.
  split.
  - now apply scan_loop_completion.
  - intros e. apply scan_loop_raises.
Qed.

Lemma scan_loop_outcome definitions definitions_raw runner_filter files :
  forall st (w : World Reg),
    Forall (fun f =>
              dict_lookup String.eqb definitions_raw f <> None
              /\ dict_lookup String.eqb definitions f <> None) files ->
    (exists st' w',
        for_eachM (scan_file definitions definitions_raw runner_filter)
          files st w = Ok (st', w'))
    \/ (exists f r msg,
          In f files /\ path_relpath_error f r = Some msg
          /\ for_eachM (scan_file definitions definitions_raw runner_filter)
               files st w = Raise (ValueError msg)).
Proof.
  induction files as [| f files IH]; intros st w Hall; cbn [for_eachM].
  - left. now exists st, w.
  - inversion Hall as [| ? ? [Hr Hd] Hrest]; subst.
    unfold bind. rewrite scan_file_run.
    destruct (path_relpath_error f (fst st)) as [msg |] eqn:Ep.
    + right. exists f, (fst st), msg. repeat split; [now left | exact Ep].
    + destruct (dict_lookup String.eqb definitions_raw f) as [raw |];
        [| contradiction].
      destruct (dict_lookup String.eqb definitions f) as [doc |];
        [| contradiction].
      match goal with
      | |- context [for_eachM _ files ?st1 ?w1] =>
          destruct (IH st1 w1 Hrest) as [H | (f' & r & msg & Hin & Hp & H)]
      end.
      * now left.
      * right. exists f', r, msg. repeat split; [now right | exact Hp | exact H].
Qed.
End ScanLoop.

(** ** What a load writes *)

Section StringDicts.
Context {V : Type}.

Lemma file_lookup_set_same (d : list (string * V)) k v :
  dict_lookup String.eqb (dict_set String.eqb d k v) k = Some v.
Proof. apply dict_lookup_set_same, String.eqb_refl. Qed.

Lemma file_lookup_set_other (d : list (string * V)) k k' v :
  k <> k' ->
  dict_lookup String.eqb (dict_set String.eqb d k v) k'
  = dict_lookup String.eqb d k'.
Proof.
  intros Hk. induction d as [| [k0 v0] d IH]; cbn.
  - destruct (String.eqb_spec k k'); [contradiction | reflexivity].
  - destruct (String.eqb_spec k0 k) as [-> | Hne]; cbn.
    + destruct (String.eqb_spec k k'); [contradiction | reflexivity].
    + now rewrite IH.
Qed.

Lemma file_lookup_in_keys (d : list (string * V)) k :
  In k (dict_keys d) -> dict_lookup String.eqb d k <> None.
Proof.
  induction d as [| [k0 v0] d IH]; cbn; [contradiction |].
  intros [-> | Hin].
  - now rewrite String.eqb_refl.
  - destruct (String.eqb k0 k); [discriminate | now apply IH].
Qed.
End StringDicts.

Lemma dict_keys_set_lockstep {V1 V2 : Type} (d1 : list (string * V1)) :
  forall (d2 : list (string * V2)) k v1 v2,
    dict_keys d1 = dict_keys d2 ->
    dict_keys (dict_set String.eqb d1 k v1)
    = dict_keys (dict_set String.eqb d2 k v2).
Proof.
  induction d1 as [| [k1 w1] d1 IH]; intros [| [k2 w2] d2] k v1 v2 H;
    cbn in H; try discriminate.
  - reflexivity.
  - injection H as -> H. cbn. destruct (String.eqb k2 k); cbn.
    + now rewrite H.
    + f_equal. now apply IH.
Qed.

Section LoadEffects.
Context {host : Host} {R : Runner}.

Lemma load_body_effects defs item (w : World Reg) defs' w' :
  load_body defs item w = Ok (defs', w') ->
  defs' = store_result defs item
  /\ registry w' = registry w /\ calls w' = calls w
  /\ (String.eqb check_type GITHUB_ACTIONS = false -> self w' = self w).
Proof.
  destruct defs as [definitions definitions_raw].
  destruct item as [file [[doc raw] |]]; unfold load_body, store_result;
    cbn [fst snd].
  - destruct (String.eqb check_type GITHUB_ACTIONS).
    + destruct doc as [d | l]; [| discriminate].
      unfold bind, lift, get_self, set_self, ret. cbn.
      destruct (_get_jobs d) as [j | e]; [| discriminate].
      destruct (_get_triggers d) as [t | e]; [| discriminate].
      cbn. intros H. injection H as <- <-. cbn. repeat split. discriminate.
    + unfold ret. intros H. injection H as <- <-. now repeat split.
  - unfold ret. intros H. injection H as <- <-. now repeat split.
Qed.

Lemma load_loop_effects results : forall defs (w : World Reg) defs' w',
  for_eachM load_body results defs w = Ok (defs', w') ->
  defs' = fold_left store_result results defs
  /\ registry w' = registry w /\ calls w' = calls w
  /\ (String.eqb check_type GITHUB_ACTIONS = false -> self w' = self w).
Proof.
  induction results as [| item results IH]; intros defs w defs' w' H;
    cbn [for_eachM fold_left] in *.
  - injection H as <- <-. now repeat split.
  - unfold bind in H.
    destruct (load_body defs item w) as [[defs1 w1] | e] eqn:E;
      [| discriminate].
    apply load_body_effects in E. destruct E as (-> & Hr & Hc & Hs).
    apply IH in H. destruct H as (-> & Hr' & Hc' & Hs').
    repeat split; try congruence.
    intros Hf. rewrite (Hs' Hf). now apply Hs.
Qed.

Lemma load_files_writes :
  forall files defs filename_fn (w : World Reg) defs' w',
    _load_files files defs filename_fn w = Ok (defs', w') ->
    defs' = fold_left store_result
              (run_function (fun f => (f, _parse_file f))
                 (renamed filename_fn files)) defs
    /\ registry w' = registry w
    /\ calls w' = calls w ++ [CallParse (renamed filename_fn files)].
Proof.
  intros files defs filename_fn w defs' w' H.
  unfold _load_files, bind, log in H.
  apply load_loop_effects in H. cbn in H.
  destruct H as (-> & Hr & Hc & _). now repeat split.
Qed.

(** When [_load_files] completes, the two associations hold what they
    held, overwritten in order by every result that parsed (a result that
    did not parse writes nothing); the registry is untouched and the only
    call made is the one to the worker pool, with the renamed files. *)
Theorem load_files_effects :
  forall files defs filename_fn (w : World Reg) defs' w',
    _load_files files defs filename_fn w = Ok (defs', w') ->
    defs' = fold_left store_result
              (run_function (fun f => (f, _parse_file f))
                 (renamed filename_fn files)) defs
    /\ registry w' = registry w
    /\ calls w' = calls w ++ [CallParse (renamed filename_fn files)].
Proof. exact load_files_writes. Qed.

Lemma load_files_other_family_run :
  String.eqb check_type GITHUB_ACTIONS = false ->
  forall files defs filename_fn (w : World Reg),
    _load_files files defs filename_fn w
    = Ok (fold_left store_result
            (run_function (fun f => (f, _parse_file f))
               (renamed filename_fn files)) defs,
          {| self := self w; registry := registry w;
             calls := calls w ++ [CallParse (renamed filename_fn files)] |}).
Proof.
  intros Hf files defs filename_fn w.
  unfold _load_files, bind, log. fold (renamed filename_fn files).
  generalize (run_function (fun f => (f, _parse_file f))
                (renamed filename_fn files)).
  generalize ({| self := self w; registry := registry w;
                 calls := calls w
                          ++ [CallParse (renamed filename_fn files)] |}).
  intros w1 results. revert defs w1.
  induction results as [| [file result] results IH]; intros defs w1;
    cbn [for_eachM fold_left].
  - now destruct w1.
  - unfold bind.
    assert (E : load_body defs (file, result) w1
                = Ok (store_result defs (file, result), w1)).
    { destruct defs as [definitions definitions_raw].
      unfold load_body, store_result. cbn [fst snd].
      destruct result as [[doc raw] |]; [| reflexivity]. now rewrite Hf. }
    rewrite E. apply IH.
Qed.

(** For a runner of another family than GitHub Actions, [_load_files]
    always completes; it leaves the three attributes of the runner and
    the registry as they were. *)
Theorem load_files_other_family :
  String.eqb check_type GITHUB_ACTIONS = false ->
  forall files defs filename_fn (w : World Reg),
    _load_files files defs filename_fn w
    = Ok (fold_left store_result
            (run_function (fun f => (f, _parse_file f))
               (renamed filename_fn files)) defs,
          {| self := self w; registry := registry w;
             calls := calls w ++ [CallParse (renamed filename_fn files)] |}).
Proof. exact load_files_other_family_run. Qed.

Lemma load_files_keys_in_step :
  forall files defs filename_fn (w : World Reg) defs' w',
    dict_keys (fst defs) = dict_keys (snd defs) ->
    _load_files files defs filename_fn w = Ok (defs', w') ->
    dict_keys (fst defs') = dict_keys (snd defs').
Proof.
  intros files defs filename_fn w defs' w' Hk H.
  apply load_files_writes in H. destruct H as (-> & _).
  generalize (run_function (fun f => (f, _parse_file f))
                (renamed filename_fn files)).
  intros results. revert defs Hk.
  induction results as [| [file [[doc raw] |]] results IH]; intros defs Hk;
    cbn [fold_left].
  - exact Hk.
  - apply IH. unfold store_result. cbn [fst snd].
    now apply dict_keys_set_lockstep.
  - now apply IH.
Qed.

(** A load keeps the two associations in step: when they had the same
    files in the same order before, they have the same files in the same
    order after ([definitions_raw[file_path]] is there for every file of
    [definitions]). *)
Theorem load_files_lockstep :
  forall files defs filename_fn (w : World Reg) defs' w',
    dict_keys (fst defs) = dict_keys (snd defs) ->
    _load_files files defs filename_fn w = Ok (defs', w') ->
    dict_keys (fst defs') = dict_keys (snd defs').
Proof. exact load_files_keys_in_step. Qed.

Lemma stored_unparsed results f : forall defs,
  (forall r, In r results -> fst r = f -> snd r = None) ->
  dict_lookup String.eqb (fst (fold_left store_result results defs)) f
  = dict_lookup String.eqb (fst defs) f
  /\ dict_lookup String.eqb (snd (fold_left store_result results defs)) f
     = dict_lookup String.eqb (snd defs) f.
Proof.
  induction results as [| [file result] results IH]; intros defs Hn;
    cbn [fold_left].
  - now split.
  - destruct (IH (store_result defs (file, result))) as [H1 H2].
    { intros r Hr. apply Hn. now right. }
    rewrite H1, H2. unfold store_result. cbn [fst snd].
    destruct result as [[doc raw] |]; [| now split].
    cbn [fst snd]. destruct (String.eqb_spec file f) as [-> | Hne].
    + specialize (Hn (f, Some (doc, raw)) (or_introl eq_refl) eq_refl).
      discriminate.
    + now rewrite !file_lookup_set_other.
Qed.

(** Parse omission: a file for which no result of the call parsed has,
    after the load, the entries it had before; in particular a file that
    was not loaded before is still absent from both associations. *)
Theorem load_files_unparsed_untouched :
  forall files defs filename_fn (w : World Reg) defs' w' f,
    _load_files files defs filename_fn w = Ok (defs', w') ->
    (forall r,
        In r (run_function (fun f => (f, _parse_file f))
                (renamed filename_fn files)) ->
        fst r = f -> snd r = None) ->
    dict_lookup String.eqb (fst defs') f = dict_lookup String.eqb (fst defs) f
    /\ dict_lookup String.eqb (snd defs') f
       = dict_lookup String.eqb (snd defs) f.
Proof.
  intros files defs filename_fn w defs' w' f H Hn.
  apply load_files_writes in H. destruct H as (-> & _).
  now apply stored_unparsed.
Qed.

(** After a load, a file holds the document and the raw lines of the last
    of its results that parsed. *)
Theorem load_files_last_parse_stored :
  forall files defs filename_fn (w : World Reg) defs' w' f doc raw
         earlier later,
    _load_files files defs filename_fn w = Ok (defs', w') ->
    run_function (fun f => (f, _parse_file f)) (renamed filename_fn files)
    = earlier ++ (f, Some (doc, raw)) :: later ->
    (forall r, In r later -> fst r = f -> snd r = None) ->
    dict_lookup String.eqb (fst defs') f = Some doc
    /\ dict_lookup String.eqb (snd defs') f = Some raw.
Proof.
  intros files defs filename_fn w defs' w' f doc raw earlier later H Hres Hl.
  apply load_files_writes in H. destruct H as (-> & _).
  rewrite Hres, fold_left_app. cbn [fold_left].
  destruct (stored_unparsed later f
              (store_result (fold_left store_result earlier defs)
                 (f, Some (doc, raw))) Hl) as [H1 H2].
  split; (eapply eq_trans; [first [exact H1 | exact H2] |]);
    unfold store_result; cbn [fst snd]; apply file_lookup_set_same.
Qed.
End LoadEffects.

(** ** Loading pipeline definitions *)

Section LoadGithubActions.
Context {host : Host} {R : Runner}.
Hypothesis github_actions : check_type = GITHUB_ACTIONS.

Lemma load_body_github_actions defs file doc raw (w : World Reg) :
  load_body defs (file, Some (doc, raw)) w
  = match document_metadata doc with
    | Ok s => Ok (store_result defs (file, Some (doc, raw)),
                  {| self := s; registry := registry w; calls := calls w |})
    | Raise e => Raise e
    end.
Proof.
  destruct defs as [definitions definitions_raw].
  unfold load_body, store_result. cbn [fst snd].
  rewrite github_actions, String.eqb_refl.
  destruct doc as [d | l]; [| reflexivity].
  unfold bind, lift, get_self, set_self, ret, document_metadata. cbn.
  destruct (_get_jobs d) as [j | e]; [| reflexivity].
  now destruct (_get_triggers d) as [t | e].
Qed.

Lemma load_loop_completes_iff results : forall defs (w : World Reg),
  (exists defs' w', for_eachM load_body results defs w = Ok (defs', w'))
  <-> Forall (fun doc => exists s, document_metadata doc = Ok s)
        (parsed_documents results).
Proof.
  induction results as [| [file [[doc raw] |]] results IH]; intros defs w;
    cbn [for_eachM parsed_documents flat_map snd app].
  - split; [constructor | intros _; now exists defs, w].
  - unfold bind. rewrite load_body_github_actions.
    destruct (document_metadata doc) as [s | e] eqn:E.
    + rewrite IH. split.
      * intros H. constructor; [now exists s | exact H].
      * intros H. now inversion H.
    + split.
      * intros (defs' & w' & H). discriminate.
      * intros H. inversion H as [| ? ? [s Hs] _]. congruence.
  - unfold bind. destruct defs as [d1 d2]. cbn. apply IH.
Qed.

Lemma load_loop_first_failure good : forall results bad rest e defs
                                            (w : World Reg),
  parsed_documents results = good ++ bad :: rest ->
  Forall (fun doc => exists s, document_metadata doc = Ok s) good ->
  document_metadata bad = Raise e ->
  for_eachM load_body results defs w = Raise e.
Proof.
  intros results. revert good.
  induction results as [| [file [[doc raw] |]] results IH];
    intros good bad rest e defs w Hdocs Hgood Hbad;
    cbn [for_eachM parsed_documents flat_map snd app] in *.
  - now destruct good.
  - unfold bind. rewrite load_body_github_actions.
    destruct good as [| g good]; cbn in Hdocs; injection Hdocs as -> Hdocs.
    + now rewrite Hbad.
    + inversion Hgood as [| ? ? [s Hs] Hgood']; subst. rewrite Hs.
      now apply (IH good bad rest).
  - unfold bind. destruct defs as [d1 d2]. cbn.
    now apply (IH good bad rest).
Qed.

(** For the GitHub Actions family, [_load_files] completes exactly when
    the metadata extraction ([name], jobs, triggers) succeeds on every
    document that parsed. *)
Theorem load_files_completes_iff :
  forall files defs filename_fn (w : World Reg),
    (exists defs' w', _load_files files defs filename_fn w = Ok (defs', w'))
    <-> Forall (fun doc => exists s, document_metadata doc = Ok s)
          (parsed_documents
             (run_function (fun f => (f, _parse_file f))
                (renamed filename_fn files))).
Proof.
  intros files defs filename_fn w. unfold _load_files, bind, log.
  apply load_loop_completes_iff.
Qed.

(** For the GitHub Actions family, [_load_files] stops at the first
    parsed document whose metadata extraction fails and raises the
    exception of that extraction. *)
Theorem load_files_first_failure :
  forall files defs filename_fn (w : World Reg) good bad rest e,
    parsed_documents
      (run_function (fun f => (f, _parse_file f))
         (renamed filename_fn files))
    = good ++ bad :: rest ->
    Forall (fun doc => exists s, document_metadata doc = Ok s) good ->
    document_metadata bad = Raise e ->
    _load_files files defs filename_fn w = Raise e.
Proof.
  intros files defs filename_fn w good bad rest e Hdocs Hgood Hbad.
  unfold _load_files, bind, log.
  now apply (load_loop_first_failure good _ bad rest).
Qed.
End LoadGithubActions.

(** ** When the jobs extractor completes, and what it returns *)

Lemma jobs_loop_started items : forall jobs_dict tmp_key,
  dict_lookup key_eqb jobs_dict tmp_key <> None ->
  exists st, for_each jobs_body items (jobs_dict, tmp_key) = Ok st.
Proof.
  induction items as [| [key value] items IH]; intros jobs_dict tmp_key Hin;
    cbn [for_each].
  - now exists (jobs_dict, tmp_key).
  - unfold jobs_body at 1. rewrite not_marker_test.
    destruct (is_marker key) eqn:Hk; cbn [negb].
    + unfold py_getitem.
      destruct (dict_lookup key_eqb jobs_dict tmp_key) as [job |] eqn:E;
        [| contradiction].
      assert (Hset : forall bag,
                 dict_lookup key_eqb
                   (dict_set key_eqb jobs_dict tmp_key bag) tmp_key <> None).
      { intros bag. rewrite dict_lookup_set_same by apply key_eqb_refl.
        discriminate. }
      destruct (is_marker_cases key Hk) as [-> | ->].
      * replace (key_eqb START_LINE START_LINE) with true by reflexivity.
        replace (key_eqb START_LINE END_LINE) with false by reflexivity.
        cbn [rbind]. apply IH, Hset.
      * replace (key_eqb END_LINE START_LINE) with false by reflexivity.
        replace (key_eqb END_LINE END_LINE) with true by reflexivity.
        cbn [rbind]. rewrite E. cbn [rbind]. apply IH, Hset.
    + cbn [rbind]. apply IH.
      rewrite dict_lookup_set_same by apply key_eqb_refl. discriminate.
Qed.

Lemma jobs_loop_marker_first key value items :
  is_marker key = true ->
  for_each jobs_body ((key, value) :: items) ([], KStr EmptyString)
  = Raise (KeyError (KStr EmptyString)).
Proof.
  intros Hk. cbn [for_each]. unfold jobs_body. rewrite not_marker_test, Hk.
  destruct (is_marker_cases key Hk) as [-> | ->]; reflexivity.
Qed.

(** The jobs extractor completes exactly when the value under ["jobs"]
    is false (missing, [None], an empty mapping, ...) or is a mapping
    whose first key is not a line marker. *)
Theorem get_jobs_completes_iff :
  forall doc,
    (exists jobs_dict, _get_jobs doc = Ok jobs_dict)
    <-> (py_truthy (py_get doc (KStr "jobs")) = false
         \/ exists key value items,
             py_get doc (KStr "jobs") = VDict ((key, value) :: items)
             /\ is_marker key = false).
Proof.
  intros doc. unfold _get_jobs.
  destruct (py_truthy (py_get doc (KStr "jobs"))) eqn:Ht.
  - destruct (py_get doc (KStr "jobs")) as [| b | z | s | l | items] eqn:Ej;
      try (split; [intros [jd H]; discriminate
                  | intros [H | (k & v & r & H & _)]; discriminate]).
    destruct items as [| [key value] items]; [discriminate |].
    cbn [py_items rbind].
    destruct (is_marker key) eqn:Hk.
    + rewrite jobs_loop_marker_first by exact Hk. split.
      * intros [jd H]. discriminate.
      * intros [H | (k & v & r & H & Hm)]; [discriminate |].
        injection H as <- _ _. congruence.
    + split.
      * intros _. right. now exists key, value, items.
      * intros _. cbn [for_each]. unfold jobs_body at 1.
        rewrite not_marker_test, Hk. cbn [negb rbind].
        match goal with
        | |- context [for_each jobs_body items (?jd, ?t)] =>
            destruct (jobs_loop_started items jd t) as [st E]
        end.
        { rewrite dict_lookup_set_same by apply key_eqb_refl.
          discriminate. }
        rewrite E. now exists (fst st).
  - split; [now left | intros _; now exists []].
Qed.

(** A truthy value under ["jobs"] that is not a mapping (a list, a
    string, a number) makes the jobs extractor raise [AttributeError]. *)
Theorem get_jobs_not_a_mapping :
  forall doc,
    py_truthy (py_get doc (KStr "jobs")) = true ->
    (forall items, py_get doc (KStr "jobs") <> VDict items) ->
    _get_jobs doc = Raise (AttributeError "items").
Proof.
  intros doc Ht Hn. unfold _get_jobs. rewrite Ht.
  destruct (py_get doc (KStr "jobs")); try reflexivity.
  now contradiction (Hn d).
Qed.

Section DictEntries.
Context {K V : Type} (eqb : K -> K -> bool).

Lemma in_dict_set (d : list (K * V)) k v a b :
  In (a, b) (dict_set eqb d k v) ->
  In (a, b) d
  \/ (b = v
      /\ ((a = k /\ dict_lookup eqb d k = None)
          \/ (eqb a k = true /\ exists b0, In (a, b0) d))).
Proof.
  induction d as [| [k0 v0] d IH]; cbn.
  - intros [H | []]. injection H as <- <-. right. split; auto.
  - destruct (eqb k0 k) eqn:E; cbn.
    + intros [H | H].
      * injection H as <- <-. right. split; [reflexivity |]. right.
        split; [exact E |]. exists v0. now left.
      * left. now right.
    + intros [H | H].
      * left. now left.
      * destruct (IH H) as [Hd | (-> & [[-> Hn] | (He & b0 & Hb)])].
        -- left. now right.
        -- right. split; auto.
        -- right. split; [reflexivity |]. right. split; [exact He |].
           exists b0. now right.
Qed.

Lemma dict_lookup_in (d : list (K * V)) k v :
  dict_lookup eqb d k = Some v ->
  exists k', In (k', v) d /\ eqb k' k = true.
Proof.
  induction d as [| [k0 v0] d IH]; cbn; [discriminate |].
  destruct (eqb k0 k) eqn:E.
  - intros H. injection H as <-. exists k0. split; [now left | exact E].
  - intros H. destruct (IH H) as (k' & Hin & He). exists k'.
    split; [now right | exact He].
Qed.

Lemma dict_lookup_set_kept (d : list (K * V)) k v k' :
  dict_lookup eqb d k' <> None ->
  dict_lookup eqb (dict_set eqb d k v) k' <> None.
Proof.
  induction d as [| [k0 v0] d IH]; cbn; [contradiction |].
  destruct (eqb k0 k) eqn:E; cbn; destruct (eqb k0 k');
    try discriminate; auto.
Qed.
End DictEntries.


Lemma jobs_body_shape items jobs_dict tmp_key key value jobs_dict' tmp_key' :
  In (key, value) items ->
  jobs_shape items jobs_dict ->
  jobs_body (jobs_dict, tmp_key) (key, value) = Ok (jobs_dict', tmp_key') ->
  jobs_shape items jobs_dict'.
Proof.
  intros Hitem Hshape. unfold jobs_body. rewrite not_marker_test.
  destruct (is_marker key) eqn:Hk; cbn [negb].
  - assert (Hbag : forall job k' m,
               In (k', job) jobs_dict -> key_eqb k' tmp_key = true ->
               key = m -> is_marker m = true ->
               dict_lookup key_eqb jobs_dict tmp_key = Some job ->
               jobs_shape items
                 (dict_set key_eqb jobs_dict tmp_key
                    (dict_set key_eqb job m value))).
    { intros job k' m Hin He -> Hm Hl name bag Hnb.
      apply in_dict_set in Hnb.
      destruct Hnb as [Hold | (-> & [[_ Hnone] | (Hen & b0 & Hb0)])].
      - now apply Hshape.
      - congruence.
      - destruct (Hshape name b0 Hb0) as (H1 & H2 & _).
        split; [exact H1 |]. split; [exact H2 |].
        intros k v Hkv. apply in_dict_set in Hkv.
        destruct Hkv as [Hold | (-> & Hnew)].
        + destruct (Hshape k' job Hin) as (_ & _ & H3). now apply H3.
        + assert (k = m) as ->.
          { destruct Hnew as [[-> _] | (Hek & _)]; [reflexivity |].
            destruct (is_marker_cases m Hm) as [-> | ->];
              now apply key_eqb_str in Hek. }
          now split. }
    unfold py_getitem.
    destruct (dict_lookup key_eqb jobs_dict tmp_key) as [job |] eqn:E.
    + destruct (dict_lookup_in _ _ _ _ E) as (k' & Hin & He).
      destruct (is_marker_cases key Hk) as [Hs | Hs]; rewrite Hs.
      * replace (key_eqb START_LINE START_LINE) with true by reflexivity.
        replace (key_eqb START_LINE END_LINE) with false by reflexivity.
        cbn [rbind]. intros H. injection H as <- _.
        now apply (Hbag job k' START_LINE).
      * replace (key_eqb END_LINE START_LINE) with false by reflexivity.
        replace (key_eqb END_LINE END_LINE) with true by reflexivity.
        cbn [rbind]. rewrite E. cbn [rbind]. intros H. injection H as <- _.
        now apply (Hbag job k' END_LINE).
    + destruct (is_marker_cases key Hk) as [-> | ->].
      * replace (key_eqb START_LINE START_LINE) with true by reflexivity.
        cbn [rbind]. intros H. discriminate H.
      * replace (key_eqb END_LINE START_LINE) with false by reflexivity.
        replace (key_eqb END_LINE END_LINE) with true by reflexivity.
        cbn [rbind]. rewrite E. cbn [rbind]. intros H. discriminate H.
  - intros H. injection H as <- _. intros name bag Hnb.
    apply in_dict_set in Hnb.
    destruct Hnb as [Hold | (-> & [[-> _] | (_ & b0 & Hb0)])].
    + now apply Hshape.
    + split; [exact Hk |]. split; [| intros k v []].
      apply (in_map fst) in Hitem. exact Hitem.
    + destruct (Hshape name b0 Hb0) as (H1 & H2 & _).
      split; [exact H1 |]. split; [exact H2 | intros k v []].
Qed.

Lemma jobs_body_names jobs_dict tmp_key key value jobs_dict' tmp_key' :
  jobs_body (jobs_dict, tmp_key) (key, value) = Ok (jobs_dict', tmp_key') ->
  (forall k, dict_lookup key_eqb jobs_dict k <> None ->
             dict_lookup key_eqb jobs_dict' k <> None)
  /\ (is_marker key = false -> dict_lookup key_eqb jobs_dict' key <> None).
Proof.
  unfold jobs_body. rewrite not_marker_test.
  destruct (is_marker key) eqn:Hk; cbn [negb].
  - unfold py_getitem.
    destruct (dict_lookup key_eqb jobs_dict tmp_key) as [job |] eqn:E.
    + destruct (is_marker_cases key Hk) as [-> | ->].
      * replace (key_eqb START_LINE START_LINE) with true by reflexivity.
        replace (key_eqb START_LINE END_LINE) with false by reflexivity.
        cbn [rbind]. intros H. injection H as <- _.
        split; [| discriminate]. intros k. apply dict_lookup_set_kept.
      * replace (key_eqb END_LINE START_LINE) with false by reflexivity.
        replace (key_eqb END_LINE END_LINE) with true by reflexivity.
        cbn [rbind]. rewrite E. cbn [rbind]. intros H. injection H as <- _.
        split; [| discriminate]. intros k. apply dict_lookup_set_kept.
    + destruct (is_marker_cases key Hk) as [-> | ->].
      * replace (key_eqb START_LINE START_LINE) with true by reflexivity.
        cbn [rbind]. intros H. discriminate H.
      * replace (key_eqb END_LINE START_LINE) with false by reflexivity.
        replace (key_eqb END_LINE END_LINE) with true by reflexivity.
        cbn [rbind]. rewrite E. cbn [rbind]. intros H. discriminate H.
  - intros H. injection H as <- _. split.
    + intros k. apply dict_lookup_set_kept.
    + intros _. rewrite dict_lookup_set_same by apply key_eqb_refl.
      discriminate.
Qed.

Lemma jobs_loop_shape items rest : forall jobs_dict tmp_key st,
  incl rest items ->
  jobs_shape items jobs_dict ->
  for_each jobs_body rest (jobs_dict, tmp_key) = Ok st ->
  jobs_shape items (fst st)
  /\ (forall k, dict_lookup key_eqb jobs_dict k <> None ->
                dict_lookup key_eqb (fst st) k <> None)
  /\ (forall k, In k (dict_keys rest) -> is_marker k = false ->
                dict_lookup key_eqb (fst st) k <> None).
Proof.
  induction rest as [| [key value] rest IH]; intros jobs_dict tmp_key st
    Hincl Hshape H; cbn [for_each] in H.
  - injection H as <-. cbn [fst]. split; [exact Hshape |].
    split; [auto | intros k []].
  - destruct (jobs_body (jobs_dict, tmp_key) (key, value))
      as [[jd1 tmp1] |] eqn:E; [| discriminate].
    cbn [rbind] in H.
    pose proof (jobs_body_shape items _ _ _ _ _ _
                  (Hincl _ (or_introl eq_refl)) Hshape E) as Hshape1.
    destruct (jobs_body_names _ _ _ _ _ _ E) as [Hkept Hnew].
    destruct (IH jd1 tmp1 st (fun x Hx => Hincl x (or_intror Hx)) Hshape1 H)
      as (Hs & Hk & Hr).
    split; [exact Hs |]. split; [intros k Hin; apply Hk, Hkept, Hin |].
    intros k [<- | Hin] Hm.
    + cbn [fst]. apply Hk, Hnew, Hm.
    + now apply Hr.
Qed.

(** What the jobs extractor returns for a jobs mapping: the names are
    keys of the mapping that are not line markers, every such key is a
    name, and the bag of a name holds line markers only, each with a
    value the mapping gives it; no attribute of a job is copied. *)
Theorem get_jobs_result_shape :
  forall doc items jobs_dict,
    py_get doc (KStr "jobs") = VDict items ->
    _get_jobs doc = Ok jobs_dict ->
    jobs_shape items jobs_dict
    /\ forall k, In k (dict_keys items) -> is_marker k = false ->
                 dict_lookup key_eqb jobs_dict k <> None.
Proof.
  intros doc items jobs_dict Hj H. unfold _get_jobs in H. rewrite Hj in H.
  destruct (py_truthy (VDict items)) eqn:Ht.
  - cbn [py_items rbind] in H.
    match type of H with
    | context [for_each jobs_body items ?st0] =>
        destruct (for_each jobs_body items st0) as [st |] eqn:E
    end; cbn [rbind] in H; [| discriminate].
    injection H as <-.
    destruct (jobs_loop_shape items items [] (KStr EmptyString) st
                (incl_refl _) (fun _ _ F => match F with end) E)
      as (Hs & _ & Hr).
    now split.
  - destruct items; [| discriminate]. injection H as <-.
    split; [intros name bag [] | intros k []].
Qed.

(** ** The trigger set *)

Lemma distinct_keys_snoc s : forall k,
  distinct_keys s = true -> set_mem k s = false ->
  distinct_keys (s ++ [k]) = true.
Proof.
  induction s as [| x s IH]; intros k Hd Hk; cbn [app distinct_keys] in *.
  - reflexivity.
  - apply andb_true_iff in Hd. destruct Hd as [Hx Hd].
    unfold set_mem in Hk. cbn [existsb] in Hk. apply orb_false_iff in Hk.
    destruct Hk as [Hxk Hk].
    rewrite set_mem_app. cbn [set_mem existsb].
    rewrite (key_eqb_sym k x), Hxk, !orb_false_r, Hx. cbn [andb].
    now apply IH.
Qed.

Lemma comprehension_shape all_keys keys : forall s,
  incl keys all_keys ->
  distinct_keys s = true ->
  (forall k, In k s -> is_marker k = false /\ In k all_keys) ->
  let s' := fold_left
              (fun s key =>
                 if negb (key_eqb key START_LINE)
                    && negb (key_eqb key END_LINE)
                 then set_add s key else s) keys s in
  distinct_keys s' = true
  /\ forall k, In k s' -> is_marker k = false /\ In k all_keys.
Proof.
  induction keys as [| x keys IH]; intros s Hincl Hd Hs; cbn [fold_left].
  - now split.
  - apply IH.
    + intros k Hk. apply Hincl. now right.
    + rewrite not_marker_test. destruct (negb (is_marker x)); [| exact Hd].
      unfold set_add. destruct (set_mem x s) eqn:E; [exact Hd |].
      now apply distinct_keys_snoc.
    + intros k Hk. rewrite not_marker_test in Hk.
      destruct (is_marker x) eqn:Hx; cbn [negb] in Hk; [now apply Hs |].
      unfold set_add in Hk. destruct (set_mem x s); [now apply Hs |].
      apply in_app_or in Hk. destruct Hk as [Hk | [<- | []]].
      * now apply Hs.
      * split; [exact Hx |]. apply Hincl. now left.
Qed.

(** The trigger set is a set of keys of the mapping under [True]: it
    holds no key twice (for [==]), no line marker, and nothing that is
    not a key of that mapping. *)
Theorem get_triggers_set_shape :
  forall doc s,
    _get_triggers doc = Ok s ->
    distinct_keys s = true
    /\ forall k,
        In k s ->
        is_marker k = false
        /\ exists m, py_get doc (KBool true) = VDict m /\ In k (dict_keys m).
Proof.
  intros doc s. unfold _get_triggers, try_except, triggers_try.
  destruct (py_get doc (KBool true)) as [| b | z | t | l | m] eqn:Ev;
    cbn [py_truthy py_keys rbind];
    try (match goal with
         | |- context [if ?c then _ else _] => destruct c
         end);
    try (intros H; injection H as <-; split; [reflexivity | intros k []]).
  intros H. injection H as <-. unfold trigger_comprehension.
  destruct (comprehension_shape (dict_keys m) (dict_keys m) []
              (incl_refl _) eq_refl (fun _ F => match F with end))
    as [Hd Hs].
  split; [exact Hd |]. intros k Hk. destruct (Hs k Hk) as [H1 H2].
  split; [exact H1 |]. now exists m.
Qed.

(** Triggers that are not given as a mapping are lost: when the value
    under [True] is a string, a list or any other value that is not a
    mapping, the extractor returns the empty set. *)
Theorem get_triggers_not_a_mapping :
  forall doc,
    (forall m, py_get doc (KBool true) <> VDict m) ->
    _get_triggers doc = Ok [].
Proof.
  intros doc Hn. unfold _get_triggers, try_except, triggers_try.
  destruct (py_get doc (KBool true)) as [| b | z | t | l | m];
    cbn [py_truthy py_keys rbind];
    try (match goal with
         | |- context [if ?c then _ else _] => destruct c
         end);
    try reflexivity.
  now contradiction (Hn m).
Qed.

Lemma get_triggers_set_shape_witness :
  distinct_keys [KStr "push"; KStr "release"] = true
  /\ forall k,
      In k [KStr "push"; KStr "release"] ->
      is_marker k = false
      /\ exists m,
          py_get [(KBool true,
                   VDict [(KStr "push", VNone); (START_LINE, VInt 2);
                          (KStr "release", VNone); (END_LINE, VInt 5)])]
            (KBool true) = VDict m
          /\ In k (dict_keys m).
Proof.
  apply (get_triggers_set_shape
           [(KBool true,
             VDict [(KStr "push", VNone); (START_LINE, VInt 2);
                    (KStr "release", VNone); (END_LINE, VInt 5)])]).
  reflexivity.
Defined.

Lemma get_triggers_not_a_mapping_witness :
  _get_triggers [(KStr "name", VStr "ci");
                 (KBool true, VList [VStr "push"; VStr "pull_request"])]
  = Ok [].
Proof.
  apply get_triggers_not_a_mapping. intros m. cbn. discriminate.
Defined.

Lemma get_jobs_completes_iff_witness :
  exists jobs_dict,
    _get_jobs [(KStr "jobs",
                VDict [(KStr "build", VDict [(KStr "runs-on", VStr "linux")]);
                       (START_LINE, VInt 3); (KStr "test", VNone)])]
    = Ok jobs_dict.
Proof.
  apply (proj2 (get_jobs_completes_iff _)). right.
  exists (KStr "build"), (VDict [(KStr "runs-on", VStr "linux")]),
    [(START_LINE, VInt 3); (KStr "test", VNone)].
  split; reflexivity.
Defined.

Lemma get_jobs_not_a_mapping_witness :
  _get_jobs [(KStr "jobs", VList [VStr "build"; VStr "test"])]
  = Raise (AttributeError "items").
Proof.
  apply get_jobs_not_a_mapping; [reflexivity |].
  intros items. cbn. discriminate.
Defined.

Lemma get_jobs_result_shape_witness :
  jobs_shape
    [(KStr "build", VDict [(KStr "runs-on", VStr "linux")]);
     (START_LINE, VInt 3); (KStr "test", VNone); (END_LINE, VInt 9)]
    [(KStr "build", [(START_LINE, VInt 3)]);
     (KStr "test", [(END_LINE, VInt 9)])]
  /\ forall k,
      In k (dict_keys
              [(KStr "build", VDict [(KStr "runs-on", VStr "linux")]);
               (START_LINE, VInt 3); (KStr "test", VNone);
               (END_LINE, VInt 9)]) ->
      is_marker k = false ->
      dict_lookup key_eqb
        [(KStr "build", [(START_LINE, VInt 3)]);
         (KStr "test", [(END_LINE, VInt 9)])] k <> None.
Proof.
  apply (get_jobs_result_shape
           [(KStr "jobs",
             VDict [(KStr "build", VDict [(KStr "runs-on", VStr "linux")]);
                    (START_LINE, VInt 3); (KStr "test", VNone);
                    (END_LINE, VInt 9)])]);
    reflexivity.
Defined.

(** ** Relative paths *)

Lemma prefix_app (a b : string) : String.prefix a (a ++ b) = true.
Proof.
  induction a as [| c a IH]; cbn.
  - now destruct b.
  - destruct (Ascii.ascii_dec c c); [exact IH | contradiction].
Qed.

Lemma replace_scan_skip old new t : forall rest,
  replace_scan old new (String.length t) (t ++ rest)
  = replace_scan old new 0 rest.
Proof.
  induction t as [| c t IH]; intros rest; cbn [String.length String.append].
  - reflexivity.
  - cbn [replace_scan]. apply IH.
Qed.

Lemma replace_scan_absent old new s :
  occurs old s = false -> replace_scan old new 0 s = s.
Proof.
  induction s as [| c s IH]; intros H.
  - reflexivity.
  - cbn [occurs] in H. apply orb_false_iff in H. destruct H as [Hp Ho].
    cbn [replace_scan]. rewrite Hp. now rewrite IH.
Qed.

Lemma replace_scan_prefix old new rest :
  old <> EmptyString ->
  replace_scan old new 0 (old ++ rest)
  = (new ++ replace_scan old new 0 rest)%string.
Proof.
  intros Hne. destruct old as [| c old]; [contradiction |].
  pose proof (prefix_app (String c old) rest) as Hp.
  cbn [String.append] in *. cbn [replace_scan]. rewrite Hp.
  replace (String.length (String c old) - 1)%nat with (String.length old)
    by (cbn [String.length]; lia).
  now rewrite replace_scan_skip.
Qed.

Lemma py_replace_absent s old :
  old <> EmptyString -> occurs old s = false ->
  py_replace s old EmptyString = s.
Proof.
  intros Hne H. unfold py_replace. destruct old; [contradiction |].
  now apply replace_scan_absent.
Qed.

Lemma py_replace_prefix old rest :
  old <> EmptyString -> occurs old rest = false ->
  py_replace (old ++ rest) old EmptyString = rest.
Proof.
  intros Hne H. unfold py_replace. destruct old as [| c old];
    [contradiction |].
  rewrite replace_scan_prefix by exact Hne. cbn [String.append].
  now apply replace_scan_absent.
Qed.

(** [_change_files_path_to_relative] keeps the records of the report, in
    number and order, and in each record everything but [file_path] and
    [resource]; of these two it strips the working directory in front of
    a path that does not contain it again, and leaves alone a path that
    does not contain it at all. *)
Theorem change_files_path_to_relative_strips_cwd :
  forall getcwd report,
    getcwd <> EmptyString ->
    let report' := _change_files_path_to_relative getcwd report in
    report_check_type report' = report_check_type report
    /\ map record_rest (records report') = map record_rest (records report)
    /\ Forall2
         (fun r r' =>
            (forall rest,
                PyRecord.file_path (record_of r) = (getcwd ++ rest)%string ->
                occurs getcwd rest = false ->
                PyRecord.file_path (record_of r') = rest)
            /\ (occurs getcwd (PyRecord.file_path (record_of r)) = false ->
                PyRecord.file_path (record_of r')
                = PyRecord.file_path (record_of r))
            /\ (forall rest,
                   PyRecord.resource (record_of r) = (getcwd ++ rest)%string ->
                   occurs getcwd rest = false ->
                   PyRecord.resource (record_of r') = rest)
            /\ (occurs getcwd (PyRecord.resource (record_of r)) = false ->
                PyRecord.resource (record_of r')
                = PyRecord.resource (record_of r)))
         (records report) (records report').
Proof.
  intros getcwd report Hne. cbv zeta.
  unfold _change_files_path_to_relative. cbn [report_check_type records].
  split; [reflexivity |]. split.
  - rewrite map_map. apply map_ext. now intros [r | r j t n].
  - induction (records report) as [| r l IH]; cbn [map]; constructor;
      [| exact IH].
    assert (H : record_of (relative_report_record getcwd r)
                = relative_record getcwd (record_of r)) by now destruct r.
    rewrite H. cbn [relative_record PyRecord.file_path PyRecord.resource].
    repeat split.
    + intros rest -> Ho. now apply py_replace_prefix.
    + intros Ho. now apply py_replace_absent.
    + intros rest -> Ho. now apply py_replace_prefix.
    + intros Ho. now apply py_replace_absent.
Qed.

Example replace_examples :
  py_replace "/work/proj/wf/a.yml.jobs.build" "/work/proj" EmptyString
  = "/wf/a.yml.jobs.build"
  /\ py_replace "abababa" "aba" "X" = "XbX"
  /\ py_replace "abc" EmptyString "-" = "-a-b-c-"
  /\ py_replace "aabb" "ab" EmptyString = "ab".
Proof. repeat split. Qed.

Lemma change_files_path_to_relative_strips_cwd_witness :
  let report :=
    {| report_check_type := "yaml";
       records :=
         [PlainRecord
            {| PyRecord.check_id := "CKV_1";
               PyRecord.bc_check_id := None;
               PyRecord.check_name := "n";
               PyRecord.check_result := Demo.no_check;
               PyRecord.code_block := [];
               PyRecord.file_path := "/a.yml";
               PyRecord.file_line_range := (1, 2);
               PyRecord.resource := "/work/a.yml.key";
               PyRecord.check_class := "c";
               PyRecord.file_abs_path := "/work/a.yml";
               PyRecord.severity := None |}] |} in
  let report' := _change_files_path_to_relative "/work" report in
  report_check_type report' = report_check_type report
  /\ map record_rest (records report') = map record_rest (records report)
  /\ Forall2
       (fun r r' =>
          (forall rest,
              PyRecord.file_path (record_of r) = ("/work" ++ rest)%string ->
              occurs "/work" rest = false ->
              PyRecord.file_path (record_of r') = rest)
          /\ (occurs "/work" (PyRecord.file_path (record_of r)) = false ->
              PyRecord.file_path (record_of r')
              = PyRecord.file_path (record_of r))
          /\ (forall rest,
                 PyRecord.resource (record_of r) = ("/work" ++ rest)%string ->
                 occurs "/work" rest = false ->
                 PyRecord.resource (record_of r') = rest)
          /\ (occurs "/work" (PyRecord.resource (record_of r)) = false ->
              PyRecord.resource (record_of r')
              = PyRecord.resource (record_of r)))
       (records report) (records report').
Proof.
  intros report.
  apply (change_files_path_to_relative_strips_cwd "/work" report).
  discriminate.
Defined.

(** ** Loading the same files again *)

Section StringDictsMore.
Context {V : Type}.

Lemma file_keys_set_existing (d : list (string * V)) k v :
  dict_lookup String.eqb d k <> None ->
  dict_keys (dict_set String.eqb d k v) = dict_keys d.
Proof.
  induction d as [| [k0 v0] d IH]; cbn; [contradiction |].
  destruct (String.eqb k0 k); cbn; [reflexivity |].
  intros H. f_equal. now apply IH.
Qed.

Lemma file_keys_set_in (d : list (string * V)) k v k' :
  In k' (dict_keys (dict_set String.eqb d k v)) ->
  k' = k \/ In k' (dict_keys d).
Proof.
  induction d as [| [k0 v0] d IH]; cbn.
  - intros [<- | []]. now left.
  - destruct (String.eqb k0 k); cbn.
    + intros [<- | H]; right; auto.
    + intros [<- | H]; [right; now left |].
      destruct (IH H) as [-> | Hin]; [now left | right; now right].
Qed.

Lemma file_keys_set_nodup (d : list (string * V)) k v :
  NoDup (dict_keys d) -> NoDup (dict_keys (dict_set String.eqb d k v)).
Proof.
  induction d as [| [k0 v0] d IH]; cbn; intros H.
  - constructor; [intros [] | constructor].
  - inversion H as [| ? ? Hnin Hd]; subst.
    destruct (String.eqb_spec k0 k) as [-> | Hne]; cbn.
    + now constructor.
    + constructor; [| now apply IH].
      intros Hin. apply file_keys_set_in in Hin.
      destruct Hin as [-> | Hin]; [now apply Hne | now apply Hnin].
Qed.

Lemma file_lookup_not_in (d : list (string * V)) k :
  ~ In k (dict_keys d) -> dict_lookup String.eqb d k = None.
Proof.
  induction d as [| [k0 v0] d IH]; cbn; [reflexivity |].
  intros H. destruct (String.eqb_spec k0 k) as [-> | Hne].
  - contradiction H. now left.
  - apply IH. intros Hin. apply H. now right.
Qed.

Lemma file_dict_ext (d : list (string * V)) : forall d',
  NoDup (dict_keys d) ->
  dict_keys d = dict_keys d' ->
  (forall k, dict_lookup String.eqb d k = dict_lookup String.eqb d' k) ->
  d = d'.
Proof.
  induction d as [| [k0 v0] d IH]; intros [| [k1 v1] d'] Hnd Hk Hl;
    cbn in Hk; try discriminate.
  - reflexivity.
  - injection Hk as <- Hk. inversion Hnd as [| ? ? Hnin Hd]; subst.
    pose proof (Hl k0) as H0. cbn in H0. rewrite String.eqb_refl in H0.
    injection H0 as <-. f_equal. apply IH; [exact Hd | exact Hk |].
    intros k. specialize (Hl k). cbn in Hl.
    destruct (String.eqb_spec k0 k) as [E | Hne]; [| exact Hl].
    subst k. rewrite (file_lookup_not_in d k0 Hnin).
    symmetry. apply file_lookup_not_in.
    change (~ In k0 (map fst d')). rewrite <- Hk. exact Hnin.
Qed.
End StringDictsMore.

Lemma last_parsed_for_snoc f results r :
  last_parsed_for f (results ++ [r])
  = if String.eqb (fst r) f
    then match snd r with
         | Some p => Some p
         | None => last_parsed_for f results
         end
    else last_parsed_for f results.
Proof. unfold last_parsed_for. now rewrite fold_left_app. Qed.

Lemma stored_lookup f results : forall defs,
  dict_lookup String.eqb (fst (fold_left store_result results defs)) f
  = match last_parsed_for f results with
    | Some (doc, _) => Some doc
    | None => dict_lookup String.eqb (fst defs) f
    end
  /\ dict_lookup String.eqb (snd (fold_left store_result results defs)) f
     = match last_parsed_for f results with
       | Some (_, raw) => Some raw
       | None => dict_lookup String.eqb (snd defs) f
       end.
Proof.
  induction results as [| [file result] results IH] using rev_ind;
    intros defs.
  - now split.
  - rewrite fold_left_app, last_parsed_for_snoc. cbn [fold_left fst snd].
    destruct (IH defs) as [H1 H2].
    unfold store_result at 1 3. cbn [fst snd].
    destruct (String.eqb_spec file f) as [-> | Hne].
    + destruct result as [[doc raw] |]; [| now split].
      cbn [fst snd]. now rewrite !file_lookup_set_same.
    + destruct result as [[doc raw] |]; [| now split].
      cbn [fst snd]. rewrite !file_lookup_set_other by exact Hne.
      now split.
Qed.

Lemma last_parsed_for_in f p results :
  In (f, Some p) results -> last_parsed_for f results <> None.
Proof.
  induction results as [| [file result] results IH] using rev_ind;
    [intros [] |].
  intros Hin. rewrite last_parsed_for_snoc. cbn [fst snd].
  apply in_app_or in Hin.
  destruct (String.eqb_spec file f) as [-> | Hne].
  - destruct result as [q |]; [discriminate |].
    destruct Hin as [Hin | [Heq | []]]; [now apply IH | discriminate].
  - destruct Hin as [Hin | [Heq | []]]; [now apply IH |].
    injection Heq as -> _. now contradiction Hne.
Qed.

Lemma stored_keys_nodup results : forall defs,
  NoDup (dict_keys (fst defs)) -> NoDup (dict_keys (snd defs)) ->
  NoDup (dict_keys (fst (fold_left store_result results defs)))
  /\ NoDup (dict_keys (snd (fold_left store_result results defs))).
Proof.
  induction results as [| [file [[doc raw] |]] results IH]; intros defs H1 H2;
    cbn [fold_left].
  - now split.
  - apply IH; unfold store_result; cbn [fst snd];
      now apply file_keys_set_nodup.
  - now apply IH.
Qed.

Lemma stored_keys_existing results : forall defs,
  (forall f p, In (f, Some p) results ->
               dict_lookup String.eqb (fst defs) f <> None
               /\ dict_lookup String.eqb (snd defs) f <> None) ->
  dict_keys (fst (fold_left store_result results defs)) = dict_keys (fst defs)
  /\ dict_keys (snd (fold_left store_result results defs))
     = dict_keys (snd defs).
Proof.
  induction results as [| [file [[doc raw] |]] results IH]; intros defs H;
    cbn [fold_left].
  - now split.
  - destruct (H file (doc, raw) (or_introl eq_refl)) as [Hf Hs].
    destruct (IH (store_result defs (file, Some (doc, raw)))) as [K1 K2].
    + intros f p Hin. destruct (H f p (or_intror Hin)) as [L1 L2].
      unfold store_result. cbn [fst snd].
      split; now apply dict_lookup_set_kept.
    + split; (eapply eq_trans; [first [exact K1 | exact K2] |]);
        unfold store_result; cbn [fst snd];
        now apply file_keys_set_existing.
  - apply IH. intros f p Hin. apply (H f p). now right.
Qed.

Lemma stored_again results defs :
  NoDup (dict_keys (fst defs)) -> NoDup (dict_keys (snd defs)) ->
  fold_left store_result results (fold_left store_result results defs)
  = fold_left store_result results defs.
Proof.
  intros H1 H2.
  destruct (stored_keys_nodup results defs H1 H2) as [N1 N2].
  set (d1 := fold_left store_result results defs) in *.
  destruct (stored_keys_nodup results d1 N1 N2) as [M1 M2].
  destruct (stored_keys_existing results d1) as [K1 K2].
  { intros f p Hin. pose proof (last_parsed_for_in f p results Hin) as Hl.
    destruct (stored_lookup f results defs) as [L1 L2]. fold d1 in L1, L2.
    rewrite L1, L2.
    destruct (last_parsed_for f results) as [[doc raw] |];
      [split; discriminate | contradiction]. }
  apply injective_projections.
  - apply file_dict_ext; [exact M1 | exact K1 |]. intros f.
    destruct (stored_lookup f results d1) as [L1 _].
    destruct (stored_lookup f results defs) as [L1' _]. fold d1 in L1'.
    rewrite L1, L1'. now destruct (last_parsed_for f results) as [[doc raw] |].
  - apply file_dict_ext; [exact M2 | exact K2 |]. intros f.
    destruct (stored_lookup f results d1) as [_ L2].
    destruct (stored_lookup f results defs) as [_ L2']. fold d1 in L2'.
    rewrite L2, L2'. now destruct (last_parsed_for f results) as [[doc raw] |].
Qed.

Section LoadAgain.
Context {host : Host} {R : Runner}.

Lemma load_files_keys_nodup :
  forall files defs filename_fn (w : World Reg) defs' w',
    NoDup (dict_keys (fst defs)) -> NoDup (dict_keys (snd defs)) ->
    _load_files files defs filename_fn w = Ok (defs', w') ->
    NoDup (dict_keys (fst defs')) /\ NoDup (dict_keys (snd defs')).
Proof.
  intros files defs filename_fn w defs' w' H1 H2 H.
  apply load_files_writes in H. destruct H as (-> & _).
  now apply stored_keys_nodup.
Qed.

(** Loading the same files a second time changes neither association:
    every file keeps its place, its document and its raw lines (the
    associations being dictionaries, no file is in them twice). *)
Theorem load_files_twice :
  forall files defs filename_fn (w : World Reg) defs1 w1 defs2 w2,
    NoDup (dict_keys (fst defs)) -> NoDup (dict_keys (snd defs)) ->
    _load_files files defs filename_fn w = Ok (defs1, w1) ->
    _load_files files defs1 filename_fn w1 = Ok (defs2, w2) ->
    defs2 = defs1.
Proof.
  intros files defs filename_fn w defs1 w1 defs2 w2 N1 N2 H1 H2.
  apply load_files_writes in H1. destruct H1 as (-> & _).
  apply load_files_writes in H2. destruct H2 as (-> & _).
  now apply stored_again.
Qed.

Lemma load_files_lookup :
  forall files defs filename_fn (w : World Reg) defs' w' f,
    _load_files files defs filename_fn w = Ok (defs', w') ->
    dict_lookup String.eqb (fst defs') f
    = match last_parsed_for f
              (run_function (fun f => (f, _parse_file f))
                 (renamed filename_fn files)) with
      | Some (doc, _) => Some doc
      | None => dict_lookup String.eqb (fst defs) f
      end
    /\ dict_lookup String.eqb (snd defs') f
       = match last_parsed_for f
                 (run_function (fun f => (f, _parse_file f))
                    (renamed filename_fn files)) with
         | Some (_, raw) => Some raw
         | None => dict_lookup String.eqb (snd defs) f
         end.
Proof.
  intros files defs filename_fn w defs' w' f H.
  apply load_files_writes in H. destruct H as (-> & _).
  apply stored_lookup.
Qed.
End LoadAgain.

(** ** The shape of a run *)

Section RunShape.
Context {host : Host} {R : Runner}.

Lemma bind_inv {A B : Type} (c : M Reg A) (f : A -> M Reg B) w b w' :
  bind c f w = Ok (b, w') ->
  exists a w1, c w = Ok (a, w1) /\ f a w1 = Ok (b, w').
Proof.
  unfold bind. destruct (c w) as [[a w1] | e]; [| discriminate].
  intros H. now exists a, w1.
Qed.

Lemma walk_loop_effects entries : forall defs (w : World Reg) defs' w',
  dict_keys (fst defs) = dict_keys (snd defs) ->
  for_eachM
    (fun defs (entry : string * list string) =>
       let '(root, f_names) := entry in
       _load_files f_names defs (Some (path_join root)))
    entries defs w = Ok (defs', w') ->
  dict_keys (fst defs') = dict_keys (snd defs')
  /\ (NoDup (dict_keys (fst defs)) -> NoDup (dict_keys (fst defs')))
  /\ registry w' = registry w
  /\ calls w' = calls w
                ++ map CallParse
                     (map (fun entry => map (path_join (fst entry))
                                          (snd entry)) entries).
Proof.
  induction entries as [| [root f_names] entries IH];
    intros defs w defs' w' Hk H; cbn [for_eachM] in H.
  - injection H as <- <-. cbn. now rewrite app_nil_r.
  - apply bind_inv in H. destruct H as (defs1 & w1 & H1 & H).
    pose proof (load_files_keys_in_step _ _ _ _ _ _ Hk H1) as Hk1.
    assert (Hn1 : NoDup (dict_keys (fst defs)) ->
                  NoDup (dict_keys (fst defs1))).
    { intros Hn.
      apply (load_files_keys_nodup _ _ _ _ _ _ Hn) in H1; [tauto |].
      now rewrite <- Hk. }
    apply load_files_writes in H1. destruct H1 as (_ & Hr1 & Hc1).
    apply (IH _ _ _ _ Hk1) in H. destruct H as (Hk' & Hn' & Hr & Hc).
    split; [exact Hk' |]. split; [auto |]. split; [congruence |].
    rewrite Hc, Hc1, <- app_assoc. reflexivity.
Qed.

Lemma walk_loop_writes entries : forall defs (w : World Reg) defs' w',
  for_eachM
    (fun defs (entry : string * list string) =>
       let '(root, f_names) := entry in
       _load_files f_names defs (Some (path_join root)))
    entries defs w = Ok (defs', w') ->
  defs'
  = fold_left
      (fun defs batch =>
         fold_left store_result
           (run_function (fun f => (f, _parse_file f)) batch) defs)
      (map (fun entry => map (path_join (fst entry)) (snd entry)) entries)
      defs.
Proof.
  induction entries as [| [root f_names] entries IH];
    intros defs w defs' w' H; cbn [for_eachM] in H.
  - now injection H as <- _.
  - apply bind_inv in H. destruct H as (defs1 & w1 & H1 & H).
    apply load_files_writes in H1. destruct H1 as (-> & _).
    apply IH in H. exact H.
Qed.

(** A run that returns a report stopped at one of its two guards, with
    the empty report and nothing done, or went through its four phases in
    order: it loaded every external checks directory into the registry,
    handed the explicit files and then the files of every walked
    directory to the worker pool, and scanned each loaded file once.  The
    two associations are then what the results of the worker pool wrote,
    batch after batch; they hold the same files, none of them twice, and
    the report holds the records of these files, file by file in the
    order of the association and, within a file, in the order of the scan
    results. *)
Theorem run_shape :
  forall root_folder external_checks_dir files runner_filter (w : World Reg)
         report w',
    run root_folder external_checks_dir files runner_filter w
    = Ok (report, w') ->
    if run_stops_early root_folder external_checks_dir files
    then report = Report_init check_type /\ w' = w
    else
      dict_keys
        (fst (loaded_by_run root_folder files
                (match runner_filter with
                 | Some f => f
                 | None => RunnerFilter_init
                 end)))
      = dict_keys
          (snd (loaded_by_run root_folder files
                  (match runner_filter with
                   | Some f => f
                   | None => RunnerFilter_init
                   end)))
      /\ NoDup
           (dict_keys
              (fst (loaded_by_run root_folder files
                      (match runner_filter with
                       | Some f => f
                       | None => RunnerFilter_init
                       end))))
      /\ report_check_type report = check_type
      /\ records report
         = flat_map
             (file_findings (self w') (registry w')
                (fst (loaded_by_run root_folder files
                        (match runner_filter with
                         | Some f => f
                         | None => RunnerFilter_init
                         end)))
                (snd (loaded_by_run root_folder files
                        (match runner_filter with
                         | Some f => f
                         | None => RunnerFilter_init
                         end)))
                (match runner_filter with
                 | Some f => f
                 | None => RunnerFilter_init
                 end) root_folder)
             (dict_keys
                (fst (loaded_by_run root_folder files
                        (match runner_filter with
                         | Some f => f
                         | None => RunnerFilter_init
                         end))))
      /\ registry w'
         = fold_left load_external_checks
             (external_dirs external_checks_dir) (registry w)
      /\ calls w'
         = calls w
           ++ map CallLoadExternalChecks (external_dirs external_checks_dir)
           ++ map CallParse
                (run_parse_calls root_folder files
                   (match runner_filter with
                    | Some f => f
                    | None => RunnerFilter_init
                    end))
           ++ map CallScan
                (dict_keys
                   (fst (loaded_by_run root_folder files
                           (match runner_filter with
                            | Some f => f
                            | None => RunnerFilter_init
                            end)))).
Proof.
  intros root_folder external_checks_dir files runner_filter w report w' H.
  unfold run_stops_early. unfold run in H.
  destruct (negb (truthy_list files) && negb (truthy_str root_folder));
    [injection H as <- <-; now split |].
  destruct (negb (truthy_list external_checks_dir) && require_external_checks);
    [injection H as <- <-; now split |].
  cbn [orb].
  set (rf := match runner_filter with
             | Some f => f
             | None => RunnerFilter_init
             end) in *.
  apply bind_inv in H. destruct H as (u & w1 & H1 & H).
  assert (E1 : self w1 = self w
               /\ registry w1
                  = fold_left load_external_checks
                      (external_dirs external_checks_dir) (registry w)
               /\ calls w1
                  = calls w
                    ++ map CallLoadExternalChecks
                         (external_dirs external_checks_dir)).
  { destruct (truthy_list external_checks_dir) eqn:Ht.
    - fold (external_dirs external_checks_dir) in H1.
      rewrite load_external_run in H1. injection H1 as _ <-. now cbn.
    - injection H1 as _ <-.
      assert (external_dirs external_checks_dir = []) as ->
          by (now destruct external_checks_dir as [[| d l] |]).
      cbn. now rewrite app_nil_r. }
  destruct E1 as (_ & Hr1 & Hc1). clear H1.
  apply bind_inv in H. destruct H as (defs2 & w2 & H2 & H).
  set (store_batch :=
         fun (defs : list (string * document) * list (string * list RawLine))
             batch =>
           fold_left store_result
             (run_function (fun f => (f, _parse_file f)) batch) defs).
  assert (E2 : defs2
               = fold_left store_batch
                   (if truthy_list files
                    then [match files with Some l => l | None => [] end]
                    else []) ([], [])
               /\ dict_keys (fst defs2) = dict_keys (snd defs2)
               /\ NoDup (dict_keys (fst defs2))
               /\ registry w2 = registry w1
               /\ calls w2
                  = calls w1
                    ++ map CallParse
                         (if truthy_list files
                          then [match files with Some l => l | None => [] end]
                          else [])).
  { destruct (truthy_list files).
    - pose proof (load_files_keys_in_step _ ([], []) _ _ _ _ eq_refl H2) as Hk.
      pose proof (load_files_keys_nodup _ ([], []) _ _ _ _
                    (NoDup_nil _) (NoDup_nil _) H2) as [Hn _].
      apply load_files_writes in H2. destruct H2 as (Hd & Hr & Hc).
      split; [| split; [exact Hk |]; split; [exact Hn |];
                split; [exact Hr |]].
      + rewrite Hd. cbn [fold_left]. unfold store_batch, renamed.
        now rewrite map_id.
      + rewrite Hc. cbn. unfold renamed. now rewrite map_id.
    - injection H2 as <- <-. cbn. rewrite app_nil_r.
      repeat split. constructor. }
  destruct E2 as (Hd2 & Hk2 & Hn2 & Hr2 & Hc2). clear H2.
  apply bind_inv in H. destruct H as (defs3 & w3 & H3 & H).
  assert (E3 : defs3
               = fold_left store_batch
                   (if truthy_str root_folder
                    then map (fun entry => map (path_join (fst entry))
                                             (snd entry))
                           (walk_filtered
                              (match root_folder with
                               | Some r => r
                               | None => EmptyString
                               end) rf included_paths)
                    else []) defs2
               /\ dict_keys (fst defs3) = dict_keys (snd defs3)
               /\ NoDup (dict_keys (fst defs3))
               /\ registry w3 = registry w2
               /\ calls w3
                  = calls w2
                    ++ map CallParse
                         (if truthy_str root_folder
                          then map (fun entry => map (path_join (fst entry))
                                                   (snd entry))
                                 (walk_filtered
                                    (match root_folder with
                                     | Some r => r
                                     | None => EmptyString
                                     end) rf included_paths)
                          else [])).
  { destruct (truthy_str root_folder).
    - split; [exact (walk_loop_writes _ _ _ _ _ H3) |].
      apply (walk_loop_effects _ _ _ _ _ Hk2) in H3.
      destruct H3 as (K & N & Rg & Cl). auto.
    - injection H3 as <- <-. cbn. now rewrite app_nil_r. }
  destruct E3 as (Hd3 & Hk3 & Hn3 & Hr3 & Hc3). clear H3.
  assert (Hloaded : loaded_by_run root_folder files rf = defs3).
  { unfold loaded_by_run, run_parse_calls. fold store_batch.
    rewrite fold_left_app, <- Hd2. now rewrite Hd3. }
  rewrite Hloaded.
  destruct defs3 as [definitions definitions_raw]. cbn [fst snd] in *.
  apply bind_inv in H. destruct H as ([root' report'] & w4 & H4 & H).
  injection H as <- <-. cbn [snd].
  apply (scan_loop_general _ _ _ root_folder) in H4; [| reflexivity].
  destruct H4 as (Hrec & Htag & Hs4 & Hr4 & Hc4).
  split; [exact Hk3 |]. split; [exact Hn3 |]. split; [exact Htag |].
  split; [rewrite Hs4, Hr4; exact Hrec |].
  split; [congruence |].
  rewrite Hc4, Hc3, Hc2, Hc1. unfold run_parse_calls.
  rewrite map_app, <- !app_assoc. reflexivity.
Qed.
End RunShape.

(** ** Runs of the other families *)

Section OtherFamilies.
Context {host : Host} {R : Runner}.
Hypothesis other_family : String.eqb check_type GITHUB_ACTIONS = false.

Lemma bind_ok {A B : Type} (c : M Reg A) (f : A -> M Reg B) w a w1 :
  c w = Ok (a, w1) -> bind c f w = f a w1.
Proof. intros H. unfold bind. now rewrite H. Qed.

Lemma walk_loop_other_family entries : forall defs (w : World Reg),
  exists defs' w',
    for_eachM
      (fun defs (entry : string * list string) =>
         let '(root, f_names) := entry in
         _load_files f_names defs (Some (path_join root)))
      entries defs w = Ok (defs', w').
Proof.
  induction entries as [| [root f_names] entries IH]; intros defs w;
    cbn [for_eachM].
  - now exists defs, w.
  - unfold bind. rewrite (load_files_other_family_run other_family). apply IH.
Qed.

(** A runner of another family than GitHub Actions gets a report from
    [run] unless [os.path.relpath] raises for one of the loaded files:
    nothing in the loading raises, every file the scan loop looks up is in
    both associations, and the only exception [run] can end in is the
    [ValueError] of [os.path.relpath]. *)
Theorem run_other_family_outcome :
  forall root_folder external_checks_dir files runner_filter (w : World Reg),
    (exists report w',
        run root_folder external_checks_dir files runner_filter w
        = Ok (report, w'))
    \/ (exists f r msg,
          In f (dict_keys
                  (fst (loaded_by_run root_folder files
                          (match runner_filter with
                           | Some f => f
                           | None => RunnerFilter_init
                           end))))
          /\ path_relpath_error f r = Some msg
          /\ run root_folder external_checks_dir files runner_filter w
             = Raise (ValueError msg)).
Proof.
  intros root_folder external_checks_dir files runner_filter w.
  unfold run.
  destruct (negb (truthy_list files) && negb (truthy_str root_folder));
    [left; now exists (Report_init check_type), w |].
  destruct (negb (truthy_list external_checks_dir) && require_external_checks);
    [left; now exists (Report_init check_type), w |].
  set (rf := match runner_filter with
             | Some f => f
             | None => RunnerFilter_init
             end).
  assert (P1 : exists w1,
             (if truthy_list external_checks_dir
              then for_eachM
                     (fun (_ : unit) directory =>
                        registry_load_external_checks directory)
                     (match external_checks_dir with
                      | Some l => l
                      | None => []
                      end) tt
              else ret tt) w = Ok (tt, w1)).
  { destruct (truthy_list external_checks_dir).
    - rewrite load_external_run. now eexists.
    - now exists w. }
  destruct P1 as [w1 E1]. rewrite (bind_ok _ _ _ _ _ E1).
  set (store_batch :=
         fun (defs : list (string * document) * list (string * list RawLine))
             batch =>
           fold_left store_result
             (run_function (fun f => (f, _parse_file f)) batch) defs).
  assert (P2 : exists defs2 w2,
             (if truthy_list files
              then _load_files (match files with Some l => l | None => [] end)
                     ([], []) None
              else ret ([], [])) w1 = Ok (defs2, w2)
             /\ dict_keys (fst defs2) = dict_keys (snd defs2)
             /\ defs2
                = fold_left store_batch
                    (if truthy_list files
                     then [match files with Some l => l | None => [] end]
                     else []) ([], [])).
  { destruct (truthy_list files).
    - pose proof (load_files_other_family_run other_family
                    (match files with Some l => l | None => [] end)
                    ([], []) None w1) as E.
      eexists. eexists. split; [exact E |]. split.
      + exact (load_files_keys_in_step _ ([], []) _ _ _ _ eq_refl E).
      + cbn [fold_left]. unfold store_batch, renamed. now rewrite map_id.
    - exists ([], []), w1. now repeat split. }
  destruct P2 as (defs2 & w2 & E2 & Hk2 & Hd2).
  rewrite (bind_ok _ _ _ _ _ E2).
  assert (P3 : exists defs3 w3,
             (if truthy_str root_folder
              then for_eachM
                     (fun defs (entry : string * list string) =>
                        let '(root, f_names) := entry in
                        _load_files f_names defs (Some (path_join root)))
                     (walk_filtered
                        (match root_folder with
                         | Some r => r
                         | None => EmptyString
                         end) rf included_paths) defs2
              else ret defs2) w2 = Ok (defs3, w3)
             /\ dict_keys (fst defs3) = dict_keys (snd defs3)
             /\ defs3
                = fold_left store_batch
                    (if truthy_str root_folder
                     then map (fun entry => map (path_join (fst entry))
                                              (snd entry))
                            (walk_filtered
                               (match root_folder with
                                | Some r => r
                                | None => EmptyString
                                end) rf included_paths)
                     else []) defs2).
  { destruct (truthy_str root_folder).
    - destruct (walk_loop_other_family
                  (walk_filtered
                     (match root_folder with
                      | Some r => r
                      | None => EmptyString
                      end) rf included_paths) defs2 w2) as (defs3 & w3 & E).
      exists defs3, w3. split; [exact E |]. split.
      + apply (walk_loop_effects _ _ _ _ _ Hk2) in E. tauto.
      + exact (walk_loop_writes _ _ _ _ _ E).
    - exists defs2, w2. now repeat split. }
  destruct P3 as (defs3 & w3 & E3 & Hk3 & Hd3).
  rewrite (bind_ok _ _ _ _ _ E3).
  assert (Hloaded : loaded_by_run root_folder files rf = defs3).
  { unfold loaded_by_run, run_parse_calls. fold store_batch.
    rewrite fold_left_app, <- Hd2. now rewrite Hd3. }
  rewrite Hloaded. clear Hloaded Hd3 Hd2 E3 E2.
  destruct defs3 as [definitions definitions_raw]. cbn [fst snd] in *.
  destruct (scan_loop_outcome definitions definitions_raw rf
              (dict_keys definitions)
              (root_folder, Report_init check_type) w3)
    as [(st & w4 & E4) | (f & r & msg & Hin & Hp & E4)].
  { apply Forall_forall. intros f Hf. split.
    - apply file_lookup_in_keys. now rewrite <- Hk3.
    - now apply file_lookup_in_keys. }
  - left. rewrite (bind_ok _ _ _ _ _ E4). now exists (snd st), w4.
  - right. exists f, r, msg. split; [exact Hin |]. split; [exact Hp |].
    unfold bind at 1. now rewrite E4.
Qed.
End OtherFamilies.

(** ** The further properties on the small installation *)

Lemma scan_loop_report_witness :
  records Demo2.scanned_report
  = records (Report_init GITHUB_ACTIONS)
    ++ flat_map
         (@file_findings Demo.host Demo.runner (self Demo.first_world)
            (registry Demo.first_world)
            [("a.yml", DocDict Demo.workflow_a)]
            [("a.yml", Demo.numbered 9)] tt (Some "wf"))
         ["a.yml"]
  /\ report_check_type Demo2.scanned_report
     = report_check_type (Report_init GITHUB_ACTIONS)
  /\ self Demo2.scanned_world = self Demo.first_world
  /\ registry Demo2.scanned_world = registry Demo.first_world
  /\ calls Demo2.scanned_world
     = calls Demo.first_world ++ map CallScan ["a.yml"].
Proof.
  apply (@scan_loop_report Demo.host Demo.runner
           [("a.yml", DocDict Demo.workflow_a)] [("a.yml", Demo.numbered 9)]
           tt ["a.yml"] (Some "wf") (Report_init GITHUB_ACTIONS)
           Demo.first_world Demo2.scanned_root Demo2.scanned_report
           Demo2.scanned_world).
  vm_compute. reflexivity.
Defined.

Lemma scan_loop_completes_iff_witness :
  exists st' w',
    for_eachM
      (@scan_file Demo.host Demo.runner
         [("a.yml", DocDict Demo.workflow_a)] [("a.yml", Demo.numbered 9)] tt)
      ["a.yml"] (Some "wf", Report_init GITHUB_ACTIONS) Demo.world
    = Ok (st', w').
Proof.
  apply (proj2 (proj1 (@scan_loop_completes_iff Demo.host Demo.runner
                         eq_refl
                         [("a.yml", DocDict Demo.workflow_a)]
                         [("a.yml", Demo.numbered 9)] tt ["a.yml"]
                         (Some "wf") (Report_init GITHUB_ACTIONS)
                         Demo.world))).
  repeat constructor; discriminate.
Defined.

Lemma load_files_effects_witness :
  Demo2.yaml_defs
  = fold_left store_result
      (@run_function Demo.host
         (fun f => (f, @_parse_file Demo2.yaml_runner f))
         (renamed None ["a.yml"; "notes.txt"; "b.yml"; "a.yml"])) ([], [])
  /\ registry Demo2.yaml_world = registry Demo.world
  /\ calls Demo2.yaml_world
     = calls Demo.world
       ++ [CallParse (renamed None ["a.yml"; "notes.txt"; "b.yml"; "a.yml"])].
Proof.
  apply (@load_files_effects Demo.host Demo2.yaml_runner
           ["a.yml"; "notes.txt"; "b.yml"; "a.yml"] ([], []) None Demo.world
           Demo2.yaml_defs Demo2.yaml_world).
  vm_compute. reflexivity.
Defined.

Lemma load_files_other_family_witness :
  @_load_files Demo.host Demo2.yaml_runner ["a.yml"; "notes.txt"] ([], [])
    None Demo.world
  = Ok (fold_left store_result
          (@run_function Demo.host
             (fun f => (f, @_parse_file Demo2.yaml_runner f))
             (renamed None ["a.yml"; "notes.txt"])) ([], []),
        {| self := self Demo.world; registry := registry Demo.world;
           calls := calls Demo.world
                    ++ [CallParse (renamed None ["a.yml"; "notes.txt"])] |}).
Proof.
  apply (@load_files_other_family Demo.host Demo2.yaml_runner eq_refl
           ["a.yml"; "notes.txt"] ([], []) None Demo.world).
Defined.

Lemma load_files_lockstep_witness :
  dict_keys (fst Demo2.yaml_defs) = dict_keys (snd Demo2.yaml_defs).
Proof.
  apply (@load_files_lockstep Demo.host Demo2.yaml_runner
           ["a.yml"; "notes.txt"; "b.yml"; "a.yml"] ([], []) None Demo.world
           Demo2.yaml_defs Demo2.yaml_world).
  - reflexivity.
  - vm_compute. reflexivity.
Defined.

Lemma load_files_unparsed_untouched_witness :
  dict_lookup String.eqb (fst Demo2.yaml_defs) "notes.txt"
  = dict_lookup String.eqb (@nil (string * document)) "notes.txt"
  /\ dict_lookup String.eqb (snd Demo2.yaml_defs) "notes.txt"
     = dict_lookup String.eqb (@nil (string * list RawLine)) "notes.txt".
Proof.
  apply (@load_files_unparsed_untouched Demo.host Demo2.yaml_runner
           ["a.yml"; "notes.txt"; "b.yml"; "a.yml"] ([], []) None Demo.world
           Demo2.yaml_defs Demo2.yaml_world "notes.txt").
  - vm_compute. reflexivity.
  - intros r Hr Hf. cbn in Hr.
    destruct Hr as [<- | [<- | [<- | [<- | []]]]];
      first [reflexivity | discriminate Hf].
Defined.

Lemma load_files_last_parse_stored_witness :
  dict_lookup String.eqb (fst Demo2.yaml_defs) "b.yml"
  = Some (DocDict Demo.workflow_b)
  /\ dict_lookup String.eqb (snd Demo2.yaml_defs) "b.yml"
     = Some (Demo.numbered 2).
Proof.
  apply (@load_files_last_parse_stored Demo.host Demo2.yaml_runner
           ["a.yml"; "notes.txt"; "b.yml"; "a.yml"] ([], []) None Demo.world
           Demo2.yaml_defs Demo2.yaml_world "b.yml"
           (DocDict Demo.workflow_b) (Demo.numbered 2)
           [("a.yml", Some (DocList [Demo.workflow_a], Demo.numbered 3));
            ("notes.txt", None)]
           [("a.yml", Some (DocList [Demo.workflow_a], Demo.numbered 3))]).
  - vm_compute. reflexivity.
  - reflexivity.
  - intros r [<- | []] Hf. discriminate Hf.
Defined.

Lemma load_files_completes_iff_witness :
  exists defs' w',
    @_load_files Demo.host Demo2.strict_runner ["ok.yml"; "late.yml"]
      ([], []) None Demo.world = Ok (defs', w').
Proof.
  apply (proj2 (@load_files_completes_iff Demo.host Demo2.strict_runner
                  eq_refl ["ok.yml"; "late.yml"] ([], []) None Demo.world)).
  repeat constructor; eexists; vm_compute; reflexivity.
Defined.

Lemma load_files_first_failure_witness :
  @_load_files Demo.host Demo2.strict_runner
    ["ok.yml"; "bad.yml"; "late.yml"] ([], []) None Demo.world
  = Raise (AttributeError "items").
Proof.
  apply (@load_files_first_failure Demo.host Demo2.strict_runner eq_refl
           ["ok.yml"; "bad.yml"; "late.yml"] ([], []) None Demo.world
           [DocDict Demo.workflow_a] (DocDict Demo2.no_jobs_mapping)
           [DocDict Demo.workflow_b]).
  - reflexivity.
  - repeat constructor. eexists. vm_compute. reflexivity.
  - reflexivity.
Defined.

Lemma run_shape_witness :
  dict_keys
    (fst (@loaded_by_run Demo.host Demo.runner (Some "wf")
            (Some ["a.yml"; "b.yml"]) tt))
  = dict_keys
      (snd (@loaded_by_run Demo.host Demo.runner (Some "wf")
              (Some ["a.yml"; "b.yml"]) tt))
  /\ NoDup
       (dict_keys
          (fst (@loaded_by_run Demo.host Demo.runner (Some "wf")
                  (Some ["a.yml"; "b.yml"]) tt)))
  /\ report_check_type Demo.first_report = @check_type Demo.runner
  /\ records Demo.first_report
     = flat_map
         (@file_findings Demo.host Demo.runner (self Demo.first_world)
            (registry Demo.first_world)
            (fst (@loaded_by_run Demo.host Demo.runner (Some "wf")
                    (Some ["a.yml"; "b.yml"]) tt))
            (snd (@loaded_by_run Demo.host Demo.runner (Some "wf")
                    (Some ["a.yml"; "b.yml"]) tt))
            tt (Some "wf"))
         (dict_keys
            (fst (@loaded_by_run Demo.host Demo.runner (Some "wf")
                    (Some ["a.yml"; "b.yml"]) tt)))
  /\ registry Demo.first_world
     = fold_left (@load_external_checks Demo.host)
         (external_dirs (Some ["ext"])) (registry Demo.world)
  /\ calls Demo.first_world
     = calls Demo.world
       ++ map CallLoadExternalChecks (external_dirs (Some ["ext"]))
       ++ map CallParse
            (@run_parse_calls Demo.host Demo.runner (Some "wf")
               (Some ["a.yml"; "b.yml"]) tt)
       ++ map CallScan
            (dict_keys
               (fst (@loaded_by_run Demo.host Demo.runner (Some "wf")
                       (Some ["a.yml"; "b.yml"]) tt))).
Proof.
  apply (@run_shape Demo.host Demo.runner (Some "wf") (Some ["ext"])
           (Some ["a.yml"; "b.yml"]) None Demo.world Demo.first_report
           Demo.first_world).
  vm_compute. reflexivity.
Defined.

(** The run of a runner of another family over a file without a name:
    the file is loaded, and the loop over the loaded files ends in the
    [ValueError] of [os.path.relpath]. *)
Lemma run_unnamed_file_raises :
  @run Demo.host Demo2.unnamed_runner None None (Some [EmptyString]) None
    Demo.world
  = Raise (ValueError "no path specified").
Proof. vm_compute. reflexivity. Qed.

Lemma run_other_family_outcome_witness :
  ((exists report w',
       @run Demo.host Demo2.yaml_runner (Some "wf") None
         (Some ["a.yml"; "b.yml"; "notes.txt"]) None Demo.world
       = Ok (report, w'))
   \/ (exists f r msg,
         In f (dict_keys
                 (fst (@loaded_by_run Demo.host Demo2.yaml_runner (Some "wf")
                         (Some ["a.yml"; "b.yml"; "notes.txt"]) tt)))
         /\ @path_relpath_error Demo.host f r = Some msg
         /\ @run Demo.host Demo2.yaml_runner (Some "wf") None
              (Some ["a.yml"; "b.yml"; "notes.txt"]) None Demo.world
            = Raise (ValueError msg)))
  /\
  ((exists report w',
       @run Demo.host Demo2.unnamed_runner None None (Some [EmptyString])
         None Demo.world
       = Ok (report, w'))
   \/ (exists f r msg,
         In f (dict_keys
                 (fst (@loaded_by_run Demo.host Demo2.unnamed_runner None
                         (Some [EmptyString]) tt)))
         /\ @path_relpath_error Demo.host f r = Some msg
         /\ @run Demo.host Demo2.unnamed_runner None None
              (Some [EmptyString]) None Demo.world
            = Raise (ValueError msg))).
Proof.
  split.
  - apply (@run_other_family_outcome Demo.host Demo2.yaml_runner eq_refl
             (Some "wf") None (Some ["a.yml"; "b.yml"; "notes.txt"]) None
             Demo.world).
  - apply (@run_other_family_outcome Demo.host Demo2.unnamed_runner eq_refl
             None None (Some [EmptyString]) None Demo.world).
Defined.

(** ** The platform, the count and the abort *)

Section Platform.
Context {host : Host} {R : Runner}.

(** On Windows the records of a file do not depend on the [root_folder]
    the loop is handed: each is displayed against the folder of its own
    file.  On any other platform the loop hands on the [root_folder] it
    received. *)
Theorem root_folder_by_platform :
  forall s file_path raw results report,
    (platform_system = "Windows" ->
     forall root1 root2,
       snd (fold_left (result_body s file_path raw) results (root1, report))
       = snd (fold_left (result_body s file_path raw) results
                (root2, report)))
    /\ (String.eqb platform_system "Windows" = false ->
        forall root_folder,
          fst (fold_left (result_body s file_path raw) results
                 (root_folder, report))
          = root_folder).
Proof.
  intros s file_path raw results report. split.
  - intros Hw root1 root2. rewrite !results_loop_records. cbn [snd].
    f_equal. f_equal. apply flat_map_ext. intros item.
    apply finding_of_display. unfold display_root.
    now rewrite Hw, String.eqb_refl.
  - intros Hw root_folder. rewrite results_loop_records. cbn [fst].
    unfold display_root. rewrite Hw. now destruct (existsb has_check results).
Qed.

Lemma length_finding_of s file_path raw root_folder item :
  List.length (finding_of s file_path raw root_folder item)
  = if has_check item then 1%nat else 0%nat.
Proof.
  unfold finding_of, has_check. now destruct (check (snd item)).
Qed.

Lemma length_file_findings s g definitions definitions_raw runner_filter
  root_folder file_path :
  List.length (file_findings s g definitions definitions_raw runner_filter
                 root_folder file_path)
  = checked_results g definitions definitions_raw runner_filter file_path.
Proof.
  unfold file_findings, checked_results.
  destruct (dict_lookup String.eqb definitions_raw file_path) as [raw |];
    [| reflexivity].
  destruct (dict_lookup String.eqb definitions file_path) as [doc |];
    [| reflexivity].
  induction (scan g file_path doc (collect_suppressions_for_context raw)
               runner_filter) as [| item l IH]; cbn [flat_map filter].
  - reflexivity.
  - rewrite length_app, length_finding_of, IH.
    now destruct (has_check item).
Qed.

(** When the loop over the loaded files completes, the report has grown
    by exactly one record for each scan result that carries a check,
    summed over the files. *)
Theorem scan_loop_count :
  forall definitions definitions_raw runner_filter files root_folder report
         (w : World Reg) root_folder' report' w',
    for_eachM (scan_file definitions definitions_raw runner_filter) files
      (root_folder, report) w = Ok ((root_folder', report'), w') ->
    List.length (records report')
    = (List.length (records report)
       + list_sum (map (checked_results (registry w) definitions
                          definitions_raw runner_filter) files))%nat.
Proof.
  intros definitions definitions_raw runner_filter files root_folder report
    w root_folder' report' w' H.
  apply (scan_loop_general _ _ _ root_folder) in H; [| reflexivity].
  destruct H as (-> & _). rewrite length_app. f_equal.
  induction files as [| f files IH]; cbn [flat_map map list_sum].
  - reflexivity.
  - now rewrite length_app, length_file_findings, IH.
Qed.

(** For the GitHub Actions family, one explicit file whose metadata
    extraction fails aborts the whole run: [run] raises the exception
    of the first such document and returns no report, whatever the other
    files hold. *)
Theorem run_aborts_on_load_failure :
  check_type = GITHUB_ACTIONS ->
  forall root_folder external_checks_dir files runner_filter (w : World Reg)
         good bad rest e,
    files <> [] ->
    truthy_list external_checks_dir = true
    \/ require_external_checks = false ->
    parsed_documents
      (run_function (fun f => (f, _parse_file f)) (renamed None files))
    = good ++ bad :: rest ->
    Forall (fun doc => exists s, document_metadata doc = Ok s) good ->
    document_metadata bad = Raise e ->
    run root_folder external_checks_dir (Some files) runner_filter w
    = Raise e.
Proof.
  intros Hgha root_folder external_checks_dir files runner_filter w good bad
    rest e Hne Hext Hdocs Hgood Hbad.
  unfold run.
  replace (truthy_list (Some files)) with true
    by (destruct files; [contradiction | reflexivity]).
  cbn [negb andb].
  replace (negb (truthy_list external_checks_dir) && require_external_checks)
    with false
    by (destruct Hext as [-> | ->]; [reflexivity | now rewrite andb_false_r]).
  assert (P1 : exists w1,
             (if truthy_list external_checks_dir
              then for_eachM
                     (fun (_ : unit) directory =>
                        registry_load_external_checks directory)
                     (match external_checks_dir with
                      | Some l => l
                      | None => []
                      end) tt
              else ret tt) w = Ok (tt, w1)).
  { destruct (truthy_list external_checks_dir).
    - rewrite load_external_run. now eexists.
    - now exists w. }
  destruct P1 as [w1 E1]. rewrite (bind_ok _ _ _ _ _ E1).
  unfold bind at 1. unfold _load_files, bind, log.
  fold (renamed None files).
  now rewrite (load_loop_first_failure Hgha good _ bad rest e).
Qed.
End Platform.

Lemma root_folder_by_platform_witness :
  snd (fold_left
         (@result_body windows_host Demo.runner (self Demo.world) "a.yml"
            (Demo.numbered 9))
         [("jobs.compile", Demo.violation [])]
         (Some "wf", Report_init GITHUB_ACTIONS))
  = snd (fold_left
           (@result_body windows_host Demo.runner (self Demo.world) "a.yml"
              (Demo.numbered 9))
           [("jobs.compile", Demo.violation [])]
           (None, Report_init GITHUB_ACTIONS))
  /\ fst (fold_left
            (@result_body Demo.host Demo.runner (self Demo.world) "a.yml"
               (Demo.numbered 9))
            [("jobs.compile", Demo.violation [])]
            (Some "wf", Report_init GITHUB_ACTIONS))
     = Some "wf".
Proof.
  split.
  - apply (proj1 (@root_folder_by_platform windows_host Demo.runner
                    (self Demo.world) "a.yml" (Demo.numbered 9)
                    [("jobs.compile", Demo.violation [])]
                    (Report_init GITHUB_ACTIONS)) eq_refl).
  - apply (proj2 (@root_folder_by_platform Demo.host Demo.runner
                    (self Demo.world) "a.yml" (Demo.numbered 9)
                    [("jobs.compile", Demo.violation [])]
                    (Report_init GITHUB_ACTIONS)) eq_refl).
Defined.

Lemma scan_loop_count_witness :
  List.length (records Demo2.scanned_report)
  = (List.length (records (Report_init GITHUB_ACTIONS))
     + list_sum
         (map (@checked_results Demo.host (registry Demo.first_world)
                 [("a.yml", DocDict Demo.workflow_a)]
                 [("a.yml", Demo.numbered 9)] tt)
            ["a.yml"]))%nat.
Proof.
  apply (@scan_loop_count Demo.host Demo.runner
           [("a.yml", DocDict Demo.workflow_a)] [("a.yml", Demo.numbered 9)]
           tt ["a.yml"] (Some "wf") (Report_init GITHUB_ACTIONS)
           Demo.first_world Demo2.scanned_root Demo2.scanned_report
           Demo2.scanned_world).
  vm_compute. reflexivity.
Defined.

Lemma run_aborts_on_load_failure_witness :
  @run Demo.host Demo2.strict_runner (Some "wf") (Some ["ext"])
    (Some ["ok.yml"; "bad.yml"; "late.yml"]) None Demo.world
  = Raise (AttributeError "items").
Proof.
  apply (@run_aborts_on_load_failure Demo.host Demo2.strict_runner eq_refl
           (Some "wf") (Some ["ext"]) ["ok.yml"; "bad.yml"; "late.yml"] None
           Demo.world [DocDict Demo.workflow_a]
           (DocDict Demo2.no_jobs_mapping) [DocDict Demo.workflow_b]).
  - discriminate.
  - left. reflexivity.
  - reflexivity.
  - repeat constructor. eexists. vm_compute. reflexivity.
  - reflexivity.
Defined.

Lemma load_files_twice_witness :
  fold_left store_result
    (@run_function Demo.host
       (fun f => (f, @_parse_file Demo2.yaml_runner f))
       (renamed None ["a.yml"; "notes.txt"; "b.yml"; "a.yml"]))
    Demo2.yaml_defs
  = Demo2.yaml_defs.
Proof.
  apply (@load_files_twice Demo.host Demo2.yaml_runner
           ["a.yml"; "notes.txt"; "b.yml"; "a.yml"] ([], []) None Demo.world
           Demo2.yaml_defs Demo2.yaml_world
           (fold_left store_result
              (@run_function Demo.host
                 (fun f => (f, @_parse_file Demo2.yaml_runner f))
                 (renamed None ["a.yml"; "notes.txt"; "b.yml"; "a.yml"]))
              Demo2.yaml_defs)
           {| self := self Demo2.yaml_world;
              registry := registry Demo2.yaml_world;
              calls := calls Demo2.yaml_world
                       ++ [CallParse (renamed None ["a.yml"; "notes.txt";
                                                    "b.yml"; "a.yml"])] |}).
  - constructor.
  - constructor.
  - vm_compute. reflexivity.
  - vm_compute. reflexivity.
Defined.

(** ** Resource identifiers *)

Lemma append_cancel_l (a b c : string) :
  (a ++ b)%string = (a ++ c)%string -> b = c.
Proof.
  induction a as [| x a IH]; cbn; intros H; [exact H |].
  injection H as H. now apply IH.
Qed.

(** The default resource identifier tells the scan results of one file
    apart: for the same file, two identifiers are equal only if the
    result keys are; the supported entities take no part in it. *)
Theorem base_get_resource_key_injective :
  forall file_path key1 key2 entities1 entities2,
    base_get_resource file_path key1 entities1
    = base_get_resource file_path key2 entities2 ->
    key1 = key2.
Proof.
  intros file_path key1 key2 entities1 entities2 H.
  unfold base_get_resource in H.
  apply append_cancel_l in H. now apply (append_cancel_l ".") in H.
Qed.

Lemma base_get_resource_key_injective_witness : "jobs.build" = "jobs.build".
Proof.
  apply (base_get_resource_key_injective "wf/a.yml" "jobs.build" "jobs.build"
           ["jobs"] []).
  reflexivity.
Defined.
